(** * florence2: batch export sinks, CSV codec and region extraction

    A shallow embedding of the JavaScript sources
      - src/utils/streamingWriter.js  (StreamingJSONWriter, StreamingCSVWriter,
        StreamingIndividualWriter),
      - src/utils/imageCropping.js    (parseCSV, cropAndSaveImagesStreaming),
      - src/worker.js                 (runBatch) and the batch cases of
        onMessageReceived in src/App.jsx,
    and, further on, of cropRegion and saveCroppedImages
    (src/utils/imageCropping.js), run and the reset message (src/worker.js),
    createStreamingWriter (src/utils/streamingWriter.js) and saveCSVFile
    (src/utils/fileSystemAccess.js),
    followed by the properties proved about them.

    Conventions of the embedding.
      - A JavaScript string is a [string]; a character is a code unit below 256.
      - A JavaScript number is an element of an abstract interface [JsNumber]
        (the language built-ins Number, isNaN, parseFloat, Math.round and
        number-to-string conversion are not code of this repository).  A small
        decimal instance makes every definition executable.
      - A plain object is an association list in insertion order without
        repeated keys; Object.keys lists array-index keys first, in ascending
        numeric order, then the other keys in insertion order.  Inherited
        members of Object.prototype are modelled where the sources assign
        under the name __proto__ (parseCSV) and in saveCroppedImages,
        where the names they occupy are listed; elsewhere reading a
        property reads an own property, and the properties that depend on
        it (the grouping of cropAndSaveImagesStreaming, the cells of the
        Flattened-CSV sink) assume names that are none of these names.
      - Asynchronous calls are run to completion one after the other; file
        system writes succeed. *)

From Stdlib Require Import String Ascii List Bool Arith ZArith Lia Permutation.
From Stdlib Require Import DecimalString DecimalNat DecimalN DecimalZ.
Import ListNotations.
Set Warnings "-register-all".
Local Open Scope list_scope.
Local Open Scope string_scope.

(* ===================================================================== *)
(** ** Strings: the built-ins used by the sources                          *)
(* ===================================================================== *)

Module JsString.

Definition LF : ascii := "010"%char.
Definition COMMA : ascii := ","%char.
Definition DQUOTE : ascii := "034"%char.

Definition str1 (c : ascii) : string := String c EmptyString.

(** WhiteSpace and LineTerminator code units below 256: TAB, LF, VT, FF, CR,
    SP and NBSP.  These are the characters String.prototype.trim strips. *)
Definition isWhiteSpace (c : ascii) : bool :=
  let n := nat_of_ascii c in
  ((n =? 9) || (n =? 10) || (n =? 11) || (n =? 12) || (n =? 13)
   || (n =? 32) || (n =? 160))%nat.

Fixpoint trimStart (s : string) : string :=
  match s with
  | EmptyString => EmptyString
  | String c r => if isWhiteSpace c then trimStart r else s
  end.

Fixpoint trimEnd (s : string) : string :=
  match s with
  | EmptyString => EmptyString
  | String c r =>
      match trimEnd r with
      | EmptyString => if isWhiteSpace c then EmptyString else str1 c
      | r' => String c r'
      end
  end.

(** [s.trim()] *)
Definition trim (s : string) : string := trimEnd (trimStart s).

(** [s.split(sep)] for a one-character separator; never the empty list. *)
Fixpoint split (sep : ascii) (s : string) : list string :=
  match s with
  | EmptyString => [EmptyString]
  | String c r =>
      if Ascii.eqb c sep then EmptyString :: split sep r
      else match split sep r with
           | h :: t => String c h :: t
           | [] => [str1 c]
           end
  end.

(** [parts.join(sep)] on an array of strings. *)
Definition join (sep : string) (parts : list string) : string :=
  String.concat sep parts.

(** [s.includes(c)] for a one-character needle. *)
Fixpoint includes (c : ascii) (s : string) : bool :=
  match s with
  | EmptyString => false
  | String d r => Ascii.eqb d c || includes c r
  end.

(** [s.replace(/c/g, by)] for a one-character pattern. *)
Fixpoint replaceAll (c : ascii) (by_ : string) (s : string) : string :=
  match s with
  | EmptyString => EmptyString
  | String d r =>
      if Ascii.eqb d c then by_ ++ replaceAll c by_ r
      else String d (replaceAll c by_ r)
  end.

(** Decimal numeral of a natural number, as ToString gives for an index. *)
Definition string_of_nat (n : nat) : string :=
  NilZero.string_of_uint (Nat.to_uint n).

End JsString.
Import JsString.

(* ===================================================================== *)
(** ** Numbers: the interface the sources rely on                          *)
(* ===================================================================== *)

(** The number built-ins used by the sources.  [num] stands for the Number
    values compared with [===]. *)
Class JsNumber : Type := {
  num : Type;
  num_nan : num;
  (** the Number value of a non-negative integer literal or counter *)
  num_of_nat : nat -> num;
  (** the literal [0.5] *)
  num_half : num;
  num_isNaN : num -> bool;
  (** [x === 0] (either zero) *)
  num_isZero : num -> bool;
  (** [x < y]; false as soon as one side is NaN *)
  num_ltb : num -> num -> bool;
  (** [Math.round(x)] *)
  num_round : num -> num;
  (** Number::toString *)
  num_to_string : num -> string;
  (** [Number(s)], the ToNumber conversion of a string *)
  str_to_number : string -> num;
  (** [parseFloat(s)] *)
  parseFloat : string -> num
}.

(** A decimal instance: finite decimals [m / 10^e] in lowest form, and NaN.
    It reads the decimal fragment of the numeric syntax (optional sign,
    digits, optional fraction); exponents, Infinity and radix prefixes are
    outside it and read as NaN, and it prints without exponent. *)
Module Decimal.

Inductive t : Type :=
| NaN
| Fin (m : Z) (e : nat).

Fixpoint normalize (e : nat) (m : Z) : t :=
  match e with
  | O => Fin m 0
  | S e' => if (m mod 10 =? 0)%Z then normalize e' (m / 10)%Z else Fin m e
  end.

Definition digitOf (c : ascii) : option Z :=
  let n := nat_of_ascii c in
  if ((48 <=? n) && (n <=? 57))%nat then Some (Z.of_nat (n - 48)) else None.

Fixpoint takeDigits (s : string) : list Z * string :=
  match s with
  | EmptyString => ([], EmptyString)
  | String c r =>
      match digitOf c with
      | Some d => let (ds, rest) := takeDigits r in (d :: ds, rest)
      | None => ([], s)
      end
  end.

Definition valueOf (ds : list Z) : Z :=
  fold_left (fun acc d => (acc * 10 + d)%Z) ds 0%Z.

Definition takeSign (s : string) : Z * string :=
  match s with
  | String "-"%char r => ((-1)%Z, r)
  | String "+"%char r => (1%Z, r)
  | _ => (1%Z, s)
  end.

(** Longest prefix of [s] that is a decimal literal, with the rest. *)
Definition lexNumber (s : string) : option (t * string) :=
  let (sg, s1) := takeSign s in
  let (ints, r1) := takeDigits s1 in
  match r1 with
  | String "."%char r1' =>
      let (fracs, r2) := takeDigits r1' in
      match ints, fracs with
      | [], [] => None
      | _, _ => Some (normalize (length fracs) (sg * valueOf (ints ++ fracs)%list)%Z, r2)
      end
  | _ =>
      match ints with
      | [] => None
      | _ => Some (Fin (sg * valueOf ints)%Z 0, r1)
      end
  end.

Definition ofString (s : string) : t :=
  let s' := trim s in
  match s' with
  | EmptyString => Fin 0 0
  | _ => match lexNumber s' with
         | Some (v, EmptyString) => v
         | _ => NaN
         end
  end.

Definition parsePrefix (s : string) : t :=
  match lexNumber (trimStart s) with
  | Some (v, _) => v
  | None => NaN
  end.

Definition string_of_Z (z : Z) : string :=
  NilZero.string_of_uint (N.to_uint (Z.to_N z)).

Fixpoint zeros (n : nat) : string :=
  match n with
  | O => EmptyString
  | S n' => String "0"%char (zeros n')
  end.

Definition toString (x : t) : string :=
  match x with
  | NaN => "NaN"
  | Fin m e =>
      let a := Z.abs m in
      let p := (10 ^ Z.of_nat e)%Z in
      let frac := string_of_Z (a mod p) in
      (if (m <? 0)%Z then "-" else EmptyString)
      ++ string_of_Z (a / p)
      ++ match e with
         | O => EmptyString
         | _ => "." ++ zeros (e - String.length frac) ++ frac
         end
  end.

Definition isNaN (x : t) : bool :=
  match x with NaN => true | _ => false end.

Definition isZero (x : t) : bool :=
  match x with Fin m _ => (m =? 0)%Z | NaN => false end.

Definition ltb (x y : t) : bool :=
  match x, y with
  | Fin m1 e1, Fin m2 e2 =>
      (m1 * 10 ^ Z.of_nat e2 <? m2 * 10 ^ Z.of_nat e1)%Z
  | _, _ => false
  end.

(** Math.round: the integer nearest to [x], ties towards +infinity. *)
Definition round (x : t) : t :=
  match x with
  | NaN => NaN
  | Fin m e =>
      let p := (10 ^ Z.of_nat e)%Z in Fin ((2 * m + p) / (2 * p))%Z 0
  end.

End Decimal.

#[export] Instance DecimalNumber : JsNumber := {|
  num := Decimal.t;
  num_nan := Decimal.NaN;
  num_of_nat := fun n => Decimal.Fin (Z.of_nat n) 0;
  num_half := Decimal.Fin 5 1;
  num_isNaN := Decimal.isNaN;
  num_isZero := Decimal.isZero;
  num_ltb := Decimal.ltb;
  num_round := Decimal.round;
  num_to_string := Decimal.toString;
  str_to_number := Decimal.ofString;
  parseFloat := Decimal.parsePrefix
|}.

(* ===================================================================== *)
(** ** Values and plain objects                                            *)
(* ===================================================================== *)

Section Values.
Context {N : JsNumber}.

(** The values that travel through the sources: primitives, arrays and
    plain data objects (own enumerable string-keyed properties, in
    insertion order). *)
Inductive JsValue : Type :=
| JUndefined
| JNull
| JBool (b : bool)
| JNum (n : num)
| JStr (s : string)
| JArr (elems : list JsValue)
| JObj (props : list (string * JsValue)).

(** ToBoolean *)
Definition truthy (v : JsValue) : bool :=
  match v with
  | JUndefined | JNull => false
  | JBool b => b
  | JNum n => negb (num_isZero n) && negb (num_isNaN n)
  | JStr s => negb (s =? EmptyString)
  | JArr _ | JObj _ => true
  end.

(** ToString; an array prints as its elements joined by commas, with
    undefined and null elements printed empty. *)
Fixpoint ToString (v : JsValue) : string :=
  match v with
  | JUndefined => "undefined"
  | JNull => "null"
  | JBool true => "true"
  | JBool false => "false"
  | JNum n => num_to_string n
  | JStr s => s
  | JArr elems =>
      join ","
        (map (fun x => match x with
                       | JUndefined | JNull => EmptyString
                       | _ => ToString x
                       end) elems)
  | JObj _ => "[object Object]"
  end.

(** ToNumber *)
Definition ToNumber (v : JsValue) : num :=
  match v with
  | JUndefined => num_nan
  | JNull => num_of_nat 0
  | JBool true => num_of_nat 1
  | JBool false => num_of_nat 0
  | JNum n => n
  | JStr s => str_to_number s
  | JArr _ | JObj _ => str_to_number (ToString v)
  end.

(** [a || b] *)
Definition js_or (a b : JsValue) : JsValue := if truthy a then a else b.

(** [Array.isArray(v)] *)
Definition isArray (v : JsValue) : bool :=
  match v with JArr _ => true | _ => false end.

End Values.

(** Plain objects as ordered association lists. *)
Section Objects.
Context {A : Type}.

Definition JsObject : Type := list (string * A).

(** Own-property lookup; [None] when the key is absent. *)
Fixpoint obj_lookup (o : JsObject) (k : string) : option A :=
  match o with
  | [] => None
  | (k', v) :: rest => if k' =? k then Some v else obj_lookup rest k
  end.

(** [key in o] for own properties. *)
Definition obj_has (o : JsObject) (k : string) : bool :=
  match obj_lookup o k with Some _ => true | None => false end.

(** [o[k] = v]: overwrite in place, or append a new property. *)
Fixpoint obj_set (o : JsObject) (k : string) (v : A) : JsObject :=
  match o with
  | [] => [(k, v)]
  | (k', v') :: rest =>
      if k' =? k then (k', v) :: rest else (k', v') :: obj_set rest k v
  end.

(** Assigning a sequence of properties from left to right, as an object
    literal or a spread does. *)
Definition obj_assign (o : JsObject) (kvs : list (string * A)) : JsObject :=
  fold_left (fun acc kv => obj_set acc (fst kv) (snd kv)) kvs o.

End Objects.
Arguments JsObject : clear implicits.

(** An array index is a canonical decimal numeral below 2^32 - 1. *)
Definition arrayIndex (k : string) : option N :=
  match NilZero.uint_of_string k with
  | Some u =>
      let n := N.of_uint u in
      if (NilZero.string_of_uint (N.to_uint n) =? k) && (n <? 4294967295)%N
      then Some n else None
  | None => None
  end.

Definition isArrayIndex (k : string) : bool :=
  match arrayIndex k with Some _ => true | None => false end.

(** Insertion of a key in a list of index keys sorted by index. *)
Fixpoint insertIndexKey (k : N * string) (l : list (N * string)) : list (N * string) :=
  match l with
  | [] => [k]
  | k' :: rest =>
      if (fst k <=? fst k')%N then k :: l else k' :: insertIndexKey k rest
  end.

Definition sortIndexKeys (l : list (N * string)) : list (N * string) :=
  fold_right insertIndexKey [] l.

Definition indexKeysOf (keys : list string) : list (N * string) :=
  flat_map (fun k => match arrayIndex k with
                     | Some n => [(n, k)]
                     | None => []
                     end) keys.

(** The order of own property keys: array indices ascending, then the other
    keys in insertion order. *)
Definition ownKeys (keys : list string) : list string :=
  (map snd (sortIndexKeys (indexKeysOf keys))
   ++ filter (fun k => negb (isArrayIndex k)) keys)%list.

(** [Object.keys(o)] *)
Definition Object_keys {A : Type} (o : JsObject A) : list string :=
  ownKeys (map fst o).

(** [Object.entries(o)] *)
Definition Object_entries {A : Type} (o : JsObject A) : list (string * A) :=
  flat_map (fun k => match obj_lookup o k with
                     | Some v => [(k, v)]
                     | None => []
                     end) (Object_keys o).

Section ValueAccess.
Context {N : JsNumber}.

(** [o[k]] on a plain object: undefined when the property is absent. *)
Definition obj_get (o : JsObject JsValue) (k : string) : JsValue :=
  match obj_lookup o k with Some v => v | None => JUndefined end.

Fixpoint charsOf (s : string) : list JsValue :=
  match s with
  | EmptyString => []
  | String c r => JStr (str1 c) :: charsOf r
  end.

Fixpoint indexed (i : nat) (l : list JsValue) : list (string * JsValue) :=
  match l with
  | [] => []
  | x :: rest => (string_of_nat i, x) :: indexed (S i) rest
  end.

(** The own enumerable properties an object spread [{...v}] copies, in
    the order it copies them: nothing for undefined, null, booleans and
    numbers; the indexed characters of a string; the indexed elements of
    an array; the properties of an object in own-key order. *)
Definition spreadProps (v : JsValue) : list (string * JsValue) :=
  match v with
  | JStr s => indexed 0 (charsOf s)
  | JArr elems => indexed 0 elems
  | JObj props => Object_entries props
  | _ => []
  end.

(** Outcome of reading a property. *)
Inductive Access : Type :=
| Got (v : JsValue)
| TypeError.

(** [v.length] for the array-likes of the data model: arrays and strings.
    Other values have no length here (a plain object carrying a numeric
    length property of its own is outside the data model). *)
Definition lengthOf (v : JsValue) : nat :=
  match v with
  | JArr elems => List.length elems
  | JStr s => String.length s
  | _ => 0
  end.

(** [v[i]] for a numeric index [i]: a TypeError on undefined and null. *)
Definition js_index (v : JsValue) (i : nat) : Access :=
  match v with
  | JUndefined | JNull => TypeError
  | JArr elems => Got (nth i elems JUndefined)
  | JStr s => Got (nth i (charsOf s) JUndefined)
  | JObj props => Got (obj_get props (string_of_nat i))
  | _ => Got JUndefined
  end.

(** [v.name] for a data property [name]: a TypeError on undefined and
    null, undefined on the other primitives and on arrays. *)
Definition js_prop (v : JsValue) (name : string) : Access :=
  match v with
  | JUndefined | JNull => TypeError
  | JObj props => Got (obj_get props name)
  | _ => Got JUndefined
  end.

End ValueAccess.

(* ===================================================================== *)
(** ** TabularCodec: parseCSV (src/utils/imageCropping.js)                 *)
(* ===================================================================== *)

Module TabularCodec.
Section WithNumbers.
Context {N : JsNumber}.

(** State of the character loop over one line. *)
Record ScanState : Type := {
  values : list string;
  current : string;
  inQuotes : bool
}.

Definition scanStart : ScanState :=
  {| values := []; current := EmptyString; inQuotes := false |}.

(** One iteration of [for (let j = 0; j < lines[i].length; j++)]. *)
Definition scanChar (st : ScanState) (char : ascii) : ScanState :=
  if Ascii.eqb char DQUOTE then
    {| values := values st; current := current st;
       inQuotes := negb (inQuotes st) |}
  else if Ascii.eqb char COMMA && negb (inQuotes st) then
    {| values := (values st ++ [trim (current st)])%list; current := EmptyString;
       inQuotes := inQuotes st |}
  else
    {| values := values st; current := current st ++ str1 char;
       inQuotes := inQuotes st |}.

Fixpoint scanChars (line : string) (st : ScanState) : ScanState :=
  match line with
  | EmptyString => st
  | String char rest => scanChars rest (scanChar st char)
  end.

(** The field values of one data line, the last one pushed after the
    loop. *)
Definition scanLine (line : string) : list string :=
  let st := scanChars line scanStart in
  (values st ++ [trim (current st)])%list.

(** [isNaN(value)] on a string *)
Definition isNaN_str (value : string) : bool :=
  num_isNaN (str_to_number value).

(** The value stored for a header: a number when the field is non-empty
    and numeric, the field itself otherwise (undefined when the line has
    no field at that index). *)
Definition convertField (value : option string) : JsValue :=
  match value with
  | None => JUndefined
  | Some v =>
      if negb (v =? EmptyString) && negb (isNaN_str v)
      then JNum (parseFloat v)
      else JStr v
  end.

(** [headers.forEach((header, index) => ...)] from position [index].
    [obj[header] = value] sets an own property, except under the name
    __proto__: there the assignment reaches the setter inherited from
    Object.prototype, which ignores a value that is not an object (the
    values here are strings, numbers and undefined) and stores nothing. *)
Fixpoint fillRecord (headers : list string) (index : nat)
         (vals : list string) (obj : JsObject JsValue) : JsObject JsValue :=
  match headers with
  | [] => obj
  | header :: rest =>
      fillRecord rest (S index) vals
        (if header =? "__proto__" then obj
         else obj_set obj header (convertField (nth_error vals index)))
  end.

Definition headersOf (line0 : string) : list string :=
  map trim (split COMMA line0).

Definition parseCSV (csvContent : string) : list (JsObject JsValue) :=
  match split LF (trim csvContent) with
  | [] => []
  | line0 :: dataLines =>
      let headers := headersOf line0 in
      map (fun line => fillRecord headers 0 (scanLine line) []) dataLines
  end.

End WithNumbers.
End TabularCodec.

(* ===================================================================== *)
(** ** ResultSink: the streaming writers (src/utils/streamingWriter.js)    *)
(* ===================================================================== *)

Module ResultSink.

(** What a call ends with. *)
Inductive Exception : Type :=
| Error (message : string)
| TypeErrorThrown.

Inductive Outcome : Type :=
| Returned
| Threw (e : Exception).

(** A file of the host: the text committed to it so far.  A writable
    stream obtained with [createWritable()] starts empty, accumulates
    what [write] is given, and replaces the file's text on [close()]. *)
Record FileHandle : Type := { fileText : string }.

(** A directory of the host: its files by name. *)
Definition DirectoryHandle : Type := JsObject string.

Section WithNumbers.
Context {N : JsNumber}.

(** The argument of [writeResult]. *)
Record ResultItem : Type := {
  filename : JsValue;
  result : JsValue;
  rawResult : JsValue;
  time : JsValue;
  error : JsValue
}.

(** [JSON.stringify(value, null, indent)], a built-in. *)
Variable JSON_stringify : nat -> JsValue -> string.

(** The record both JSON sinks print:
    [{filename, task, result: rawResult || result, time,
      ...(error && {error})}]. *)
Definition resultObject (task : JsValue) (item : ResultItem) : JsValue :=
  JObj (obj_assign
          [("filename", filename item);
           ("task", task);
           ("result", js_or (rawResult item) (result item));
           ("time", time item)]
          (spreadProps (if truthy (error item)
                        then JObj [("error", error item)]
                        else error item))).

(** *** StreamingJSONWriter *)

Record StreamingJSONWriter : Type := {
  json_fileHandle : FileHandle;
  json_writable : option string;
  json_isFirst : bool;
  json_task : JsValue
}.

Definition newJSONWriter (fileHandle : FileHandle) : StreamingJSONWriter :=
  {| json_fileHandle := fileHandle; json_writable := None;
     json_isFirst := true; json_task := JUndefined |}.

Definition json_initialize (w : StreamingJSONWriter) (task : JsValue)
  : StreamingJSONWriter :=
  {| json_fileHandle := json_fileHandle w;
     json_writable := Some ("[" ++ str1 LF);
     json_isFirst := true; json_task := task |}.

Definition json_writeResult (w : StreamingJSONWriter) (item : ResultItem)
  : StreamingJSONWriter * Outcome :=
  match json_writable w with
  | None => (w, Threw (Error "Writer not initialized"))
  | Some text =>
      let text1 := if json_isFirst w then text else text ++ "," ++ str1 LF in
      let printed := JSON_stringify 2 (resultObject (json_task w) item) in
      ({| json_fileHandle := json_fileHandle w;
          json_writable :=
            Some (text1 ++ "  " ++ replaceAll LF (str1 LF ++ "  ") printed);
          json_isFirst := false; json_task := json_task w |}, Returned)
  end.

Definition json_finalize (w : StreamingJSONWriter)
  : StreamingJSONWriter * Outcome :=
  match json_writable w with
  | None => (w, Returned)
  | Some text =>
      ({| json_fileHandle := {| fileText := text ++ str1 LF ++ "]" ++ str1 LF |};
          json_writable := None;
          json_isFirst := json_isFirst w; json_task := json_task w |}, Returned)
  end.

(** *** StreamingCSVWriter *)

Record StreamingCSVWriter : Type := {
  csv_fileHandle : FileHandle;
  csv_writable : option string;
  csv_headers : option (list string);
  csv_rowId : nat
}.

Definition newCSVWriter (fileHandle : FileHandle) : StreamingCSVWriter :=
  {| csv_fileHandle := fileHandle; csv_writable := None;
     csv_headers := None; csv_rowId := 0 |}.

Definition csv_initialize (w : StreamingCSVWriter) : StreamingCSVWriter :=
  {| csv_fileHandle := csv_fileHandle w; csv_writable := Some EmptyString;
     csv_headers := None; csv_rowId := 0 |}.

Definition quadKeys : list string :=
  ["x1"; "y1"; "x2"; "y2"; "x3"; "y3"; "x4"; "y4"].

Definition axisKeys : list string := ["xmin"; "ymin"; "xmax"; "ymax"].

(** The coordinate properties [name_j: box[j]] of a row. *)
Fixpoint coordProps (names : list string) (box : JsValue) (j : nat)
  : list (string * JsValue) :=
  match names with
  | [] => []
  | name :: rest =>
      (name, match js_index box j with Got v => v | TypeError => JUndefined end)
      :: coordProps rest box (S j)
  end.

(** One detection row [{id, filename, label, <coordinates>}]; reading a
    coordinate of an undefined or null box throws. *)
Definition boxRow (names : list string) (id : nat)
           (fname label box : JsValue) : option (JsObject JsValue) :=
  match box with
  | JUndefined | JNull => None
  | _ => Some ([("id", JNum (num_of_nat id)); ("filename", fname);
                ("label", label)] ++ coordProps names box 0)%list
  end.

(** [for (let i = 0; i < labels.length; i++) flatItems.push({...})], with
    [remaining] iterations left.  The counter is bumped before the
    coordinates of a row are read, so a throwing row has consumed its id. *)
Fixpoint boxRows (names : list string) (fname labels boxes : JsValue)
         (i remaining rowId : nat) : nat * option (list (JsObject JsValue)) :=
  match remaining with
  | O => (rowId, Some [])
  | S remaining' =>
      let label := match js_index labels i with
                   | Got v => v | TypeError => JUndefined end in
      let box := match js_index boxes i with
                 | Got v => v | TypeError => JUndefined end in
      match boxRow names rowId fname label box with
      | None => (S rowId, None)
      | Some row =>
          let (rowId', more) :=
            boxRows names fname labels boxes (S i) remaining' (S rowId) in
          (rowId', option_map (cons row) more)
      end
  end.

(** [item.result.map(r => ({ id: this.rowId++, ...r }))] *)
Fixpoint arrayRows (elems : list JsValue) (rowId : nat)
  : nat * list (JsObject JsValue) :=
  match elems with
  | [] => (rowId, [])
  | r :: rest =>
      let row := obj_assign [("id", JNum (num_of_nat rowId))] (spreadProps r) in
      let (rowId', more) := arrayRows rest (S rowId) in
      (rowId', row :: more)
  end.

Definition propOf (v : JsValue) (name : string) : JsValue :=
  match js_prop v name with Got x => x | TypeError => JUndefined end.

(** The flattening part of [writeResult]: the new counter and the rows,
    or [None] when a TypeError was thrown. *)
Definition flatten (rowId : nat) (item : ResultItem)
  : nat * option (list (JsObject JsValue)) :=
  let res := result item in
  if truthy res && truthy (propOf res "labels")
     && truthy (propOf res "quad_boxes") then
    boxRows quadKeys (filename item) (propOf res "labels")
      (propOf res "quad_boxes") 0 (lengthOf (propOf res "labels")) rowId
  else if truthy res && truthy (propOf res "labels")
          && truthy (propOf res "bboxes") then
    boxRows axisKeys (filename item) (propOf res "labels")
      (propOf res "bboxes") 0 (lengthOf (propOf res "labels")) rowId
  else match res with
       | JArr elems =>
           let (rowId', rows) := arrayRows elems rowId in (rowId', Some rows)
       | JObj _ =>
           (S rowId, Some [[("id", JNum (num_of_nat rowId));
                            ("filename", filename item);
                            ("result", JStr (JSON_stringify 0 res))]])
       | _ =>
           (S rowId, Some [[("id", JNum (num_of_nat rowId));
                            ("filename", filename item);
                            ("result", res)]])
       end.

(** The text of one cell: a string holding a comma or a quote is wrapped
    in quotes with its quotes doubled; undefined and null print empty;
    anything else is converted by [join]. *)
Definition cellText (value : JsValue) : string :=
  match value with
  | JStr s =>
      if includes COMMA s || includes DQUOTE s
      then str1 DQUOTE ++ replaceAll DQUOTE (String DQUOTE (str1 DQUOTE)) s
           ++ str1 DQUOTE
      else s
  | JUndefined | JNull => EmptyString
  | _ => ToString value
  end.

(** [this.headers.map(header => ...).join(',')] *)
Definition serializeRow (headers : list string) (flatItem : JsObject JsValue)
  : string :=
  join "," (map (fun header => cellText (obj_get flatItem header)) headers).

(** One iteration of [for (const flatItem of flatItems)] on the open
    stream [text]. *)
Definition writeRow (st : option (list string) * string)
           (flatItem : JsObject JsValue) : option (list string) * string :=
  let (headers, text) := st in
  let (hs, text1) :=
    match headers with
    | None =>
        let hs := Object_keys flatItem in
        (hs, text ++ join "," hs ++ str1 LF)
    | Some hs => (hs, text)
    end in
  (Some hs, text1 ++ serializeRow hs flatItem ++ str1 LF).

Definition writeRows (st : option (list string) * string)
           (flatItems : list (JsObject JsValue))
  : option (list string) * string :=
  fold_left writeRow flatItems st.

Definition csv_writeResult (w : StreamingCSVWriter) (item : ResultItem)
  : StreamingCSVWriter * Outcome :=
  match csv_writable w with
  | None => (w, Threw (Error "Writer not initialized"))
  | Some text =>
      match flatten (csv_rowId w) item with
      | (rowId', None) =>
          ({| csv_fileHandle := csv_fileHandle w; csv_writable := Some text;
              csv_headers := csv_headers w; csv_rowId := rowId' |},
           Threw TypeErrorThrown)
      | (rowId', Some flatItems) =>
          let (headers', text') := writeRows (csv_headers w, text) flatItems in
          ({| csv_fileHandle := csv_fileHandle w; csv_writable := Some text';
              csv_headers := headers'; csv_rowId := rowId' |}, Returned)
      end
  end.

Definition csv_finalize (w : StreamingCSVWriter)
  : StreamingCSVWriter * Outcome :=
  match csv_writable w with
  | None => (w, Returned)
  | Some text =>
      ({| csv_fileHandle := {| fileText := text |}; csv_writable := None;
          csv_headers := csv_headers w; csv_rowId := csv_rowId w |}, Returned)
  end.

(** *** StreamingIndividualWriter *)

Record StreamingIndividualWriter : Type := {
  ind_dirHandle : option DirectoryHandle;
  ind_task : JsValue
}.

Definition newIndividualWriter (dirHandle : option DirectoryHandle)
  : StreamingIndividualWriter :=
  {| ind_dirHandle := dirHandle; ind_task := JNull |}.

Definition ind_initialize (w : StreamingIndividualWriter) (task : JsValue)
  : StreamingIndividualWriter :=
  {| ind_dirHandle := ind_dirHandle w; ind_task := task |}.

Definition ind_writeResult (w : StreamingIndividualWriter) (item : ResultItem)
  : StreamingIndividualWriter * Outcome :=
  match ind_dirHandle w with
  | None => (w, Threw (Error "Writer not initialized"))
  | Some dir =>
      let name := ToString (filename item) ++ ".json" in
      let printed := JSON_stringify 2 (resultObject (ind_task w) item) in
      ({| ind_dirHandle := Some (obj_set dir name printed);
          ind_task := ind_task w |}, Returned)
  end.

Definition ind_finalize (w : StreamingIndividualWriter)
  : StreamingIndividualWriter * Outcome :=
  (w, Returned).

(** *** The three variants behind one interface *)

Inductive Writer : Type :=
| JSONWriter (w : StreamingJSONWriter)
| CSVWriter (w : StreamingCSVWriter)
| IndividualWriter (w : StreamingIndividualWriter).

Definition initialize (w : Writer) (task : JsValue) : Writer :=
  match w with
  | JSONWriter j => JSONWriter (json_initialize j task)
  | CSVWriter c => CSVWriter (csv_initialize c)
  | IndividualWriter d => IndividualWriter (ind_initialize d task)
  end.

Definition writeResult (w : Writer) (item : ResultItem) : Writer * Outcome :=
  match w with
  | JSONWriter j => let (j', o) := json_writeResult j item in (JSONWriter j', o)
  | CSVWriter c => let (c', o) := csv_writeResult c item in (CSVWriter c', o)
  | IndividualWriter d =>
      let (d', o) := ind_writeResult d item in (IndividualWriter d', o)
  end.

Definition finalize (w : Writer) : Writer * Outcome :=
  match w with
  | JSONWriter j => let (j', o) := json_finalize j in (JSONWriter j', o)
  | CSVWriter c => let (c', o) := csv_finalize c in (CSVWriter c', o)
  | IndividualWriter d =>
      let (d', o) := ind_finalize d in (IndividualWriter d', o)
  end.

(** The CSV text the row loop of the Flattened-CSV sink produces for a
    list of records on a freshly initialised stream. *)
Definition serializeRows (rows : list (JsObject JsValue)) : string :=
  snd (writeRows (None, EmptyString) rows).

End WithNumbers.
End ResultSink.

(* ===================================================================== *)
(** ** BatchRunner: runBatch (src/worker.js) and the batch cases of
       onMessageReceived (src/App.jsx)                                     *)
(* ===================================================================== *)

Module BatchRunner.
Import ResultSink.
Section WithNumbers.
Context {N : JsNumber}.

(** An element of [images]: [{ name, url }]. *)
Record ImageData : Type := { name : JsValue; url : JsValue }.

(** What the inference steps of one iteration (image loading, the
    processor, [model.generate], decoding and post-processing, all
    external) end with: the post-processed result and the elapsed time
    [end - start]; or a thrown value that has a [message] property to
    read (undefined when it has none); or a thrown null or undefined, on
    which [error.message] in the catch block throws a TypeError itself. *)
Inductive Inference : Type :=
| Inferred (result : JsValue) (elapsed : JsValue)
| InferenceThrew (message : JsValue)
| InferenceThrewNullish.

(** The messages [runBatch] posts; an absent field is undefined. *)
Inductive WorkerMessage : Type :=
| BatchProgress (current total : nat) (filename : JsValue)
| BatchResult (filename result rawResult time error : JsValue)
| BatchComplete (total : nat) (totalTime : JsValue).

Variable infer : ImageData -> Inference.
(** The [message] of a TypeError raised by the flattening code. *)
Variable typeErrorMessage : JsValue.
(** [totalEnd - totalStart] *)
Variable totalTime : JsValue.

(** One flattened detection
    [{label, xmin: Math.round(bbox[0]), ..., image}]; reading a coordinate
    of an undefined or null [bbox] throws. *)
Definition flatBox (label bbox image : JsValue) : option JsValue :=
  match bbox with
  | JUndefined | JNull => None
  | _ =>
      let coord j := JNum (num_round (ToNumber
                       (match js_index bbox j with
                        | Got v => v | TypeError => JUndefined end))) in
      Some (JObj [("label", label); ("xmin", coord 0); ("ymin", coord 1);
                  ("xmax", coord 2); ("ymax", coord 3); ("image", image)])
  end.

(** [for (let j = 0; j < bboxes.length; j++) output.push({...})] with
    [remaining] iterations left. *)
Fixpoint flatBoxes (labels bboxes image : JsValue) (j remaining : nat)
  : option (list JsValue) :=
  match remaining with
  | O => Some []
  | S remaining' =>
      let bbox := match js_index bboxes j with
                  | Got v => v | TypeError => JUndefined end in
      let label := if truthy labels
                   then match js_index labels j with
                        | Got v => v | TypeError => JUndefined end
                   else JStr EmptyString in
      match flatBox label bbox image with
      | None => None
      | Some row =>
          option_map (cons row) (flatBoxes labels bboxes image (S j) remaining')
      end
  end.

(** The body of the loop after the progress message: the [batch-result]
    message posted for [imageData], and whether [processedCount] was
    incremented; [None] when the catch block itself throws, which nothing
    catches. *)
Definition processImage (task : string) (imageData : ImageData)
  : option (WorkerMessage * bool) :=
  let failure message :=
    Some (BatchResult (name imageData) JUndefined JUndefined
                      (JNum (num_of_nat 0)) message, false) in
  match infer imageData with
  | InferenceThrewNullish => None
  | InferenceThrew message => failure message
  | Inferred result elapsed =>
      match js_prop result task with
      | TypeError => failure typeErrorMessage
      | Got taskResult =>
          if truthy taskResult && truthy (propOf taskResult "bboxes") then
            match flatBoxes (propOf taskResult "labels")
                            (propOf taskResult "bboxes") (name imageData)
                            0 (lengthOf (propOf taskResult "bboxes")) with
            | None => failure typeErrorMessage
            | Some output =>
                Some (BatchResult (name imageData) (JArr output) taskResult
                                  elapsed JUndefined, true)
            end
          else
            Some (BatchResult (name imageData) taskResult taskResult
                              elapsed JUndefined, true)
      end
  end.

(** [for (let i = 0; i < images.length; i++)] from index [i]: the
    messages posted and [processedCount] at the end of the loop, or [None]
    in its place when an iteration threw out of the loop. *)
Fixpoint batchLoop (task : string) (images : list ImageData)
         (i total processedCount : nat) : list WorkerMessage * option nat :=
  match images with
  | [] => ([], Some processedCount)
  | imageData :: rest =>
      match processImage task imageData with
      | None => ([BatchProgress (S i) total (name imageData)], None)
      | Some (message, counted) =>
          let (messages, processedCount') :=
            batchLoop task rest (S i) total
                      (if counted then S processedCount else processedCount) in
          (BatchProgress (S i) total (name imageData) :: message :: messages,
           processedCount')
      end
  end.

(** [runBatch({ images, task, text })], once the model is loaded: the
    messages posted, in order.  When the loop is left by a throw the
    promise of [runBatch] rejects (the listener does not await it) and
    nothing more is posted. *)
Definition runBatch (images : list ImageData) (task : string)
  : list WorkerMessage :=
  let (messages, processedCount) :=
    batchLoop task images 0 (List.length images) 0 in
  match processedCount with
  | Some n => (messages ++ [BatchComplete n totalTime])%list
  | None => messages
  end.

(** *** The receiving side *)

Variable JSON_stringify : nat -> JsValue -> string.

Record AppState : Type := {
  streamingWriter : option Writer;
  batchProgress : option (nat * nat * JsValue);
  processingStats : option (nat * JsValue);
  status : string
}.

(** The calls the handler makes on the sink. *)
Inductive SinkCall : Type :=
| CallWriteResult (item : ResultItem)
| CallFinalize.

(** The [batch-progress], [batch-result] and [batch-complete] cases of
    [onMessageReceived]: the next state and the sink calls made.  An error
    thrown by [writeResult] is caught and logged. *)
Definition onMessageReceived (app : AppState) (msg : WorkerMessage)
  : AppState * list SinkCall :=
  match msg with
  | BatchProgress current total fname =>
      ({| streamingWriter := streamingWriter app;
          batchProgress := Some (current, total, fname);
          processingStats := processingStats app;
          status := status app |}, [])
  | BatchResult fname res raw t err =>
      match streamingWriter app with
      | Some w =>
          let item := {| filename := fname; result := res; rawResult := raw;
                         time := t; error := err |} in
          ({| streamingWriter := Some (fst (writeResult JSON_stringify w item));
              batchProgress := batchProgress app;
              processingStats := processingStats app;
              status := status app |}, [CallWriteResult item])
      | None => (app, [])
      end
  | BatchComplete total t =>
      match streamingWriter app with
      | Some w =>
          ({| streamingWriter :=
                match snd (finalize w) with
                | Returned => None
                | Threw _ => Some (fst (finalize w))
                end;
              batchProgress := batchProgress app;
              processingStats :=
                match snd (finalize w) with
                | Returned => Some (total, t)
                | Threw _ => processingStats app
                end;
              status := "ready" |}, [CallFinalize])
      | None =>
          ({| streamingWriter := None; batchProgress := batchProgress app;
              processingStats := processingStats app; status := "ready" |}, [])
      end
  end.

(** Delivery of a sequence of worker messages, one after the other. *)
Fixpoint deliver (app : AppState) (msgs : list WorkerMessage)
  : AppState * list SinkCall :=
  match msgs with
  | [] => (app, [])
  | msg :: rest =>
      let (app1, calls1) := onMessageReceived app msg in
      let (app2, calls2) := deliver app1 rest in
      (app2, (calls1 ++ calls2)%list)
  end.

(** The items handed to [writeResult], in call order. *)
Definition writtenItems (calls : list SinkCall) : list ResultItem :=
  flat_map (fun c => match c with
                     | CallWriteResult item => [item]
                     | CallFinalize => []
                     end) calls.

End WithNumbers.
End BatchRunner.

(* ===================================================================== *)
(** ** RegionExtractor: cropAndSaveImagesStreaming
       (src/utils/imageCropping.js)                                        *)
(* ===================================================================== *)

Module RegionExtractor.
Section WithNumbers.
Context {N : JsNumber}.

(** An element of [imageFiles]. *)
Record ImageFile : Type := { file_name : string; file_bytes : string }.

(** [loadImageToCanvas(imageFile)] resolves ([true]) or rejects. *)
Variable loadImageToCanvas : ImageFile -> bool.

(** Everything between [cropRegion(...)] and [writable.close()] for one
    record (the clamping and size check of [cropRegion], the canvas, the
    JPEG encoding, the directory and file writes), given the image, the
    group's filename, the coordinates and the crop's id: [true] when it
    completes, [false] when it throws. *)
Variable cropAndSave :
  ImageFile -> string -> JsObject JsValue -> JsValue -> bool.

Record Report : Type := {
  saved : nat;
  failed : nat;
  skipped : nat;
  (** the calls of [progressCallback] *)
  progress : list (nat * nat * string);
  (** the crops attempted: group filename and index in the group *)
  attempts : list (string * nat)
}.

(** [row.image || row.filename] *)
Definition groupKey (row : JsObject JsValue) : JsValue :=
  js_or (obj_get row "image") (obj_get row "filename").

(** One step of [csvData.forEach(row => ...)]. *)
Definition groupRow (groupedData : JsObject (list (JsObject JsValue)))
           (row : JsObject JsValue) : JsObject (list (JsObject JsValue)) :=
  let fname := groupKey row in
  if negb (truthy fname) then groupedData
  else
    let key := ToString fname in
    match obj_lookup groupedData key with
    | None => obj_set groupedData key [row]
    | Some rows => obj_set groupedData key (rows ++ [row])%list
    end.

Definition groupRows (csvData : list (JsObject JsValue))
  : JsObject (list (JsObject JsValue)) :=
  fold_left groupRow csvData [].

(** [imageFiles.forEach(file => { imageMap[file.name] = file })] *)
Definition imageMapOf (imageFiles : list ImageFile) : JsObject ImageFile :=
  fold_left (fun m file => obj_set m (file_name file) file) imageFiles [].

Definition isQuad (bbox : JsObject JsValue) : bool :=
  forallb (obj_has bbox) ["x1"; "y1"; "x2"; "y2"; "x3"; "y3"; "x4"; "y4"].

Definition isAxis (bbox : JsObject JsValue) : bool :=
  forallb (obj_has bbox) ["xmin"; "ymin"; "xmax"; "ymax"].

Definition pick (bbox : JsObject JsValue) (names : list string)
  : JsObject JsValue :=
  map (fun k => (k, obj_get bbox k)) names.

(** The body of [for (let index = 0; ...)] for one record. *)
Definition processRecord (imageFile : ImageFile) (fname : string)
           (r : Report) (index : nat) (bbox : JsObject JsValue) : Report :=
  let score := js_or (obj_get bbox "score") (JNum (num_of_nat 1)) in
  let skip := {| saved := saved r; failed := failed r;
                 skipped := S (skipped r);
                 progress := progress r; attempts := attempts r |} in
  if num_ltb (ToNumber score) num_half then skip
  else
    let coords :=
      if isQuad bbox
      then Some (pick bbox ["x1"; "y1"; "x2"; "y2"; "x3"; "y3"; "x4"; "y4"])
      else if isAxis bbox
           then Some (pick bbox ["xmin"; "ymin"; "xmax"; "ymax"])
           else None in
    match coords with
    | None => skip
    | Some bboxCoords =>
        let imageId := match obj_lookup bbox "id" with
                       | Some JUndefined | None => JNum (num_of_nat index)
                       | Some v => v
                       end in
        let log := (attempts r ++ [(fname, index)])%list in
        if cropAndSave imageFile fname bboxCoords imageId
        then {| saved := S (saved r); failed := failed r;
                skipped := skipped r; progress := progress r;
                attempts := log |}
        else {| saved := saved r; failed := S (failed r);
                skipped := skipped r; progress := progress r;
                attempts := log |}
    end.

Fixpoint processRecords (imageFile : ImageFile) (fname : string)
         (r : Report) (index : nat) (bboxes : list (JsObject JsValue))
  : Report :=
  match bboxes with
  | [] => r
  | bbox :: rest =>
      processRecords imageFile fname
        (processRecord imageFile fname r index bbox) (S index) rest
  end.

Definition report (r : Report) (current total : nat) (message : string)
  : Report :=
  {| saved := saved r; failed := failed r; skipped := skipped r;
     progress := (progress r ++ [(current, total, message)])%list;
     attempts := attempts r |}.

(** The body of [for (const [filename, bboxes] of Object.entries(...))];
    [processedImages] is the number of groups already handled. *)
Definition processGroup (imageMap : JsObject ImageFile) (totalImages : nat)
           (st : Report * nat) (group : string * list (JsObject JsValue))
  : Report * nat :=
  let (r, processedImages) := st in
  let (fname, bboxes) := group in
  match obj_lookup imageMap fname with
  | None =>
      let r1 := report r (processedImages + 1) totalImages
                       ("Skipping " ++ fname ++ " (not found)") in
      ({| saved := saved r1; failed := failed r1;
          skipped := skipped r1 + List.length bboxes;
          progress := progress r1; attempts := attempts r1 |},
       S processedImages)
  | Some imageFile =>
      let r1 := report r (processedImages + 1) totalImages
                       ("Processing " ++ fname) in
      if loadImageToCanvas imageFile
      then (processRecords imageFile fname r1 0 bboxes, S processedImages)
      else ({| saved := saved r1; failed := failed r1 + List.length bboxes;
               skipped := skipped r1;
               progress := progress r1; attempts := attempts r1 |},
            S processedImages)
  end.

Definition cropAndSaveImagesStreaming (csvData : list (JsObject JsValue))
           (imageFiles : list ImageFile) : Report :=
  let groupedData := groupRows csvData in
  let imageMap := imageMapOf imageFiles in
  let totalImages := List.length (Object_keys groupedData) in
  fst (fold_left (processGroup imageMap totalImages)
                 (Object_entries groupedData)
                 ({| saved := 0; failed := 0; skipped := 0;
                     progress := []; attempts := [] |}, 0)).

End WithNumbers.
End RegionExtractor.

(* ===================================================================== *)
(** ** Vocabulary of the properties                                        *)
(* ===================================================================== *)

Module Vocabulary.
Import TabularCodec ResultSink.

(** The one-character string holding a line feed. *)
Definition nl : string := str1 LF.

(** JSON insignificant whitespace: space, TAB, LF, CR. *)
Definition isJsonWhitespace (c : ascii) : bool :=
  let n := nat_of_ascii c in
  ((n =? 32) || (n =? 9) || (n =? 10) || (n =? 13))%nat.

Fixpoint skipJsonWhitespace (s : string) : string :=
  match s with
  | EmptyString => EmptyString
  | String c r => if isJsonWhitespace c then skipJsonWhitespace r else s
  end.

(** The JSON grammar of an empty array: whitespace, an opening bracket,
    whitespace, a closing bracket, whitespace. *)
Definition parsesAsEmptyJsonArray (s : string) : bool :=
  match skipJsonWhitespace s with
  | String "["%char r =>
      match skipJsonWhitespace r with
      | String "]"%char r' =>
          match skipJsonWhitespace r' with
          | EmptyString => true
          | _ => false
          end
      | _ => false
      end
  | _ => false
  end.

Section WithNumbers.
Context {N : JsNumber}.





(** No column is named __proto__, the one name under which an assignment
    to a plain object stores no property. *)
Definition plainHeaders (headers : list string) : bool :=
  negb (existsb (String.eqb "__proto__") headers).





(** The text of a sequence of lines, each ended by a line feed. *)
Definition linesText (lines : list string) : string :=
  fold_right (fun line rest => line ++ nl ++ rest) EmptyString lines.









(** The number of records held by a grouping. *)
Definition totalRows (groups : list (string * list (JsObject JsValue))) : nat :=
  list_sum (map (fun kv => List.length (snd kv)) groups).

(** The number of records a report accounts for. *)
Definition counted (r : RegionExtractor.Report) : nat :=
  RegionExtractor.saved r + RegionExtractor.failed r + RegionExtractor.skipped r.

(** The item the handler builds from a [batch-result] message. *)
Definition itemOfMessage (msg : BatchRunner.WorkerMessage) : ResultItem :=
  match msg with
  | BatchRunner.BatchResult fname res raw t err =>
      {| filename := fname; result := res; rawResult := raw;
         time := t; error := err |}
  | _ => {| filename := JUndefined; result := JUndefined;
            rawResult := JUndefined; time := JUndefined; error := JUndefined |}
  end.

(** The item that reaches the sink for one image of a batch (the item
    without fields when the iteration posts no result). *)
Definition forwardedItem (infer : BatchRunner.ImageData -> BatchRunner.Inference)
           (typeErrorMessage : JsValue) (task : string)
           (imageData : BatchRunner.ImageData) : ResultItem :=
  match BatchRunner.processImage infer typeErrorMessage task imageData with
  | Some (msg, _) => itemOfMessage msg
  | None => itemOfMessage (BatchRunner.BatchProgress 0 0 JUndefined)
  end.

(** The iteration for an image completed without a throw:
    [processedCount] was incremented. *)
Definition succeeded (infer : BatchRunner.ImageData -> BatchRunner.Inference)
           (typeErrorMessage : JsValue) (task : string)
           (imageData : BatchRunner.ImageData) : bool :=
  match BatchRunner.processImage infer typeErrorMessage task imageData with
  | Some (_, counted) => counted
  | None => false
  end.

(** Inference throws null or undefined on an image. *)
Definition throwsNullish (infer : BatchRunner.ImageData -> BatchRunner.Inference)
           (imageData : BatchRunner.ImageData) : bool :=
  match infer imageData with
  | BatchRunner.InferenceThrewNullish => true
  | _ => false
  end.

(** Whatever inference throws on the images has a message to read: no
    thrown null or undefined. *)
Definition catchable (infer : BatchRunner.ImageData -> BatchRunner.Inference)
           (images : list BatchRunner.ImageData) : bool :=
  forallb (fun imageData => negb (throwsNullish infer imageData)) images.

(** A batch-complete message. *)
Definition isComplete (msg : BatchRunner.WorkerMessage) : bool :=
  match msg with
  | BatchRunner.BatchComplete _ _ => true
  | _ => false
  end.

(** The error every sink throws when it has no destination stream. *)
Definition WriterNotInitialized : Outcome :=
  Threw (Error "Writer not initialized").

End WithNumbers.
End Vocabulary.

(* ===================================================================== *)
(** ** Sample inputs, on the decimal instance                              *)
(* ===================================================================== *)

Module Samples.
Import TabularCodec ResultSink BatchRunner RegionExtractor Vocabulary.

Definition int (k : nat) : JsValue := JNum (num_of_nat k).

Definition dq : string := str1 DQUOTE.

(** A stand-in for JSON.stringify where the printed text plays no role. *)
Definition sampleStringify (indent : nat) (v : JsValue) : string := "{}".

Definition emptyFile : FileHandle := {| fileText := EmptyString |}.

Definition freshCSVWriter : StreamingCSVWriter :=
  csv_initialize (newCSVWriter emptyFile).

Definition itemOf (fname : string) (res : JsValue) : ResultItem :=
  {| filename := JStr fname; result := res; rawResult := JUndefined;
     time := int 5; error := JUndefined |}.

(** [{filename: 'a.jpg', result: {labels: ['cat'], bboxes: [[1,2,3,4]]}}] *)
Definition detectionItem : ResultItem :=
  itemOf "a.jpg"
    (JObj [("labels", JArr [JStr "cat"]);
           ("bboxes", JArr [JArr [int 1; int 2; int 3; int 4]])]).

(** [{filename: 'b.jpg', result: 'some caption'}] *)
Definition captionItem : ResultItem := itemOf "b.jpg" (JStr "some caption").

(** [{filename: 'a.jpg', result: [{id: 7, label: 'x'}]}] *)
Definition itemWithOwnId : ResultItem :=
  itemOf "a.jpg" (JArr [JObj [("id", int 7); ("label", JStr "x")]]).

(** [{filename: 'a.jpg', result: [[10, 20]]}] *)
Definition arrayOfArraysItem : ResultItem :=
  itemOf "a.jpg" (JArr [JArr [int 10; int 20]]).

(** The CSV line holding the one quoted field x, doubled quote, y. *)
Definition quotedXY : string := dq ++ "x" ++ dq ++ dq ++ "y" ++ dq.


(** A header and two records, one of them with a quoted comma. *)
Definition smallTable : string :=
  "image,label,score,xmin" ++ nl
  ++ "a.jpg," ++ dq ++ "cat, sitting" ++ dq ++ ",0.5,12" ++ nl
  ++ "b.jpg,dog,0.25,-3" ++ nl.

Definition sampleImages : list ImageData :=
  [{| name := JStr "a.jpg"; url := JStr "blob:a" |};
   {| name := JStr "bad.jpg"; url := JStr "blob:bad" |};
   {| name := JStr "c.jpg"; url := JStr "blob:c" |}].

(** Inference that throws on bad.jpg and detects one cat elsewhere. *)
Definition sampleInfer (imageData : ImageData) : Inference :=
  match name imageData with
  | JStr "bad.jpg" => InferenceThrew (JStr "decode failed")
  | _ => Inferred
           (JObj [("<OD>", JObj [("bboxes", JArr [JArr [int 1; int 2; int 3; int 4]]);
                                 ("labels", JArr [JStr "cat"])])])
           (int 7)
  end.

(** Inference that throws null on bad.jpg and detects one cat elsewhere. *)
Definition nullThrowingInfer (imageData : ImageData) : Inference :=
  match name imageData with
  | JStr "bad.jpg" => InferenceThrewNullish
  | _ => sampleInfer imageData
  end.

Definition runningApp : AppState :=
  {| streamingWriter := Some (CSVWriter freshCSVWriter);
     batchProgress := Some (0, 3, JStr EmptyString);
     processingStats := None; status := "running" |}.

Definition sampleFiles : list ImageFile :=
  [{| file_name := "a.jpg"; file_bytes := "..." |}].

Definition detectionWithScore (score : string) : string :=
  "image,label,score,xmin,ymin,xmax,ymax" ++ nl
  ++ "a.jpg,cat," ++ score ++ ",1,2,30,40" ++ nl.


Definition alwaysLoads (file : ImageFile) : bool := true.

Definition alwaysSaves (file : ImageFile) (fname : string)
           (coords : JsObject JsValue) (id : JsValue) : bool := true.

End Samples.

(* ===================================================================== *)
(** ** Further parts of the sources                                        *)
(* ===================================================================== *)

From Stdlib Require QArith Qminmax Lqa.

(** *** cropRegion (src/utils/imageCropping.js): the rectangle it crops

    Coordinates and image sizes are finite numbers, here rationals.  The
    result is the rectangle handed to [drawImage] (the canvas and the JPEG
    encoding that follow are the browser's), or [None] when the function
    throws 'Invalid crop dimensions'. *)
Module GeometryOps.
Import QArith Qminmax.
Local Close Scope Q_scope.

Inductive BBox : Type :=
| QuadBox (x1 y1 x2 y2 x3 y3 x4 y4 : Q)
| AxisBox (xmin ymin xmax ymax : Q).

Record Region : Type := {
  region_left : Q;
  region_top : Q;
  region_width : Q;
  region_height : Q
}.

(** [Math.min(...[a, b, c, d])] and [Math.max(...[a, b, c, d])] *)
Definition min4 (a b c d : Q) : Q := Qmin (Qmin (Qmin a b) c) d.
Definition max4 (a b c d : Q) : Q := Qmax (Qmax (Qmax a b) c) d.

(** The part of [cropRegion] after the quad test. *)
Definition cropAxis (xmin ymin xmax ymax imageWidth imageHeight : Q)
  : option Region :=
  let left := Qmax 0 (Qmin xmin imageWidth) in
  let top := Qmax 0 (Qmin ymin imageHeight) in
  let right := Qmax 0 (Qmin xmax imageWidth) in
  let bottom := Qmax 0 (Qmin ymax imageHeight) in
  let width := (right - left)%Q in
  let height := (bottom - top)%Q in
  if Qle_bool width 0 || Qle_bool height 0 then None
  else Some {| region_left := left; region_top := top;
               region_width := width; region_height := height |}.

(** [cropRegion(sourceCanvas, bbox, imageWidth, imageHeight)]: a quad box
    is replaced by its bounding rectangle and the function calls itself on
    it. *)
Definition cropRegion (bbox : BBox) (imageWidth imageHeight : Q)
  : option Region :=
  match bbox with
  | QuadBox x1 y1 x2 y2 x3 y3 x4 y4 =>
      cropAxis (min4 x1 x2 x3 x4) (min4 y1 y2 y3 y4)
               (max4 x1 x2 x3 x4) (max4 y1 y2 y3 y4) imageWidth imageHeight
  | AxisBox xmin ymin xmax ymax =>
      cropAxis xmin ymin xmax ymax imageWidth imageHeight
  end.

End GeometryOps.

(** *** run and reset (src/worker.js): single-image inference *)
Module SingleImage.
Section WithNumbers.
Context {N : JsNumber}.

(** The cached [vision_inputs] with [image_size]. *)
Variable VisionInputs : Type.
(** [RawImage.fromURL(url)] followed by [processor(image)]. *)
Variable loadVision : string -> VisionInputs.
(** Prompt construction, tokenizer, [model.generate], decoding and
    [post_process_generation] for a user input, a task and vision inputs. *)
Variable generate : string -> string -> VisionInputs -> JsValue.

Definition TASKS_WITH_INPUTS : list string := ["<CAPTION_TO_PHRASE_GROUNDING>"].

(** [user_input]: the task, followed by the text when the task takes an
    input and the text is not empty. *)
Definition userInput (task text : string) : string :=
  if existsb (String.eqb task) TASKS_WITH_INPUTS && negb (text =? EmptyString)
  then task ++ text else task.

(** The requests the worker's listener dispatches here. *)
Inductive Request : Type :=
| Run (text url task : string)
| Reset.

(** [run({ text, url, task })]: the new cache and the posted result. *)
Definition run (cache : option VisionInputs) (text url task : string)
  : option VisionInputs * JsValue :=
  let vision := match cache with
                | Some v => v
                | None => loadVision url
                end in
  (Some vision, generate (userInput task text) task vision).

(** One message: the new cache and the results posted. *)
Definition handle (cache : option VisionInputs) (req : Request)
  : option VisionInputs * list JsValue :=
  match req with
  | Run text url task =>
      let (cache', result) := run cache text url task in (cache', [result])
  | Reset => (None, [])
  end.

Fixpoint handleAll (cache : option VisionInputs) (reqs : list Request)
  : option VisionInputs * list JsValue :=
  match reqs with
  | [] => (cache, [])
  | req :: rest =>
      let (cache1, out1) := handle cache req in
      let (cache2, out2) := handleAll cache1 rest in
      (cache2, (out1 ++ out2)%list)
  end.

Definition isRun (req : Request) : bool :=
  match req with Run _ _ _ => true | Reset => false end.

(** The result a run request gets when the image behind [url] is the one
    looked at. *)
Definition answerFor (url : string) (req : Request) : list JsValue :=
  match req with
  | Run text _ task => [generate (userInput task text) task (loadVision url)]
  | Reset => []
  end.

End WithNumbers.
End SingleImage.

(** *** createStreamingWriter (src/utils/streamingWriter.js) *)
Module SinkFactory.
Import ResultSink.

(** What a picker of the host ends with: a handle, or the AbortError of a
    cancelled dialog. *)
Inductive Picked (A : Type) : Type :=
| Chosen (handle : A)
| Cancelled.
Arguments Chosen {A} handle.
Arguments Cancelled {A}.

Section WithNumbers.
Context {N : JsNumber}.

Inductive Created : Type :=
| Ready (writer : Writer)
| AbortError
| Failed (message : string).

(** [createStreamingWriter(format, task)], given what the save-file picker
    and the directory picker would answer. *)
Definition createStreamingWriter (format : string) (task : JsValue)
           (saveFilePicker : Picked FileHandle)
           (directoryPicker : Picked DirectoryHandle) : Created :=
  if format =? "json" then
    match saveFilePicker with
    | Chosen fileHandle =>
        Ready (JSONWriter (json_initialize (newJSONWriter fileHandle) task))
    | Cancelled => AbortError
    end
  else if format =? "csv" then
    match saveFilePicker with
    | Chosen fileHandle =>
        Ready (CSVWriter (csv_initialize (newCSVWriter fileHandle)))
    | Cancelled => AbortError
    end
  else if format =? "individual" then
    match directoryPicker with
    | Chosen dirHandle =>
        Ready (IndividualWriter
                 (ind_initialize (newIndividualWriter (Some dirHandle)) task))
    | Cancelled => AbortError
    end
  else Failed ("Unknown format: " ++ format).

End WithNumbers.
End SinkFactory.

(** *** saveCSVFile (src/utils/fileSystemAccess.js): the one-shot export *)
Module OneShotExport.
Import ResultSink SinkFactory.
Section WithNumbers.
Context {N : JsNumber}.

(** The cell of [headers.map(header => ...)]: an escaped string, or the
    value itself, which [join] prints (empty for undefined and null). *)
Definition exportCell (value : JsValue) : string :=
  match value with
  | JStr s =>
      if includes COMMA s || includes DQUOTE s
      then str1 DQUOTE ++ replaceAll DQUOTE (String DQUOTE (str1 DQUOTE)) s
           ++ str1 DQUOTE
      else s
  | JUndefined | JNull => EmptyString
  | _ => ToString value
  end.

(** [csvContent]: the header line and one line per row, joined by line
    feeds. *)
Definition csvContent (data : list (JsObject JsValue)) : string :=
  match data with
  | [] => EmptyString
  | first :: _ =>
      let headers := Object_keys first in
      join (str1 LF)
           (join "," headers
              :: map (fun row =>
                        join "," (map (fun header =>
                                         exportCell (obj_get row header))
                                      headers)) data)
  end.

Inductive Saved : Type :=
| SavedTo (file : FileHandle)
| NotSaved
| SaveFailed (message : string).

(** [saveCSVFile(data, suggestedName)]: the file written ([true]), a
    cancelled dialog ([false]), or the error thrown for empty data, which
    is only raised once a file has been picked. *)
Definition saveCSVFile (data : list (JsObject JsValue))
           (saveFilePicker : Picked FileHandle) : Saved :=
  match saveFilePicker with
  | Cancelled => NotSaved
  | Chosen fileHandle =>
      match data with
      | [] => SaveFailed "No data to save"
      | _ => SavedTo {| fileText := csvContent data |}
      end
  end.

End WithNumbers.
End OneShotExport.

(** *** saveCroppedImages (src/utils/imageCropping.js) *)
Module LabelFolders.
Section WithNumbers.
Context {N : JsNumber}.

(** [outputDirHandle.getDirectoryHandle(label, { create: true })] resolves
    ([true]) or rejects. *)
Variable directoryFor : string -> bool.
(** Writing one cropped image into the folder of [label]: [true] when the
    file was written and closed, [false] when a step threw. *)
Variable writeImage : string -> JsObject JsValue -> bool.

(** The names a plain object inherits from [Object.prototype]: reading
    one of them on [{}] gives a function or an object, never undefined. *)
Definition inheritedNames : list string :=
  ["constructor"; "hasOwnProperty"; "isPrototypeOf"; "propertyIsEnumerable";
   "toLocaleString"; "toString"; "valueOf"; "__proto__";
   "__defineGetter__"; "__defineSetter__"; "__lookupGetter__";
   "__lookupSetter__"].

Definition inherited (key : string) : bool :=
  existsb (String.eqb key) inheritedNames.

(** One step of [croppedImages.forEach(item => ...)]; the property key is
    the text of [item.label].  When the key names an inherited property,
    [groupedByLabel[item.label]] is truthy without being an array, no list
    is created and [push] is not a function: a TypeError ([None]). *)
Definition groupItem (groupedByLabel : JsObject (list (JsObject JsValue)))
           (item : JsObject JsValue)
  : option (JsObject (list (JsObject JsValue))) :=
  let key := ToString (obj_get item "label") in
  match obj_lookup groupedByLabel key with
  | Some items => Some (obj_set groupedByLabel key (items ++ [item])%list)
  | None =>
      if inherited key then None
      else Some (obj_set groupedByLabel key [item])
  end.

Fixpoint groupByLabel (groupedByLabel : JsObject (list (JsObject JsValue)))
         (croppedImages : list (JsObject JsValue))
  : option (JsObject (list (JsObject JsValue))) :=
  match croppedImages with
  | [] => Some groupedByLabel
  | item :: rest =>
      match groupItem groupedByLabel item with
      | None => None
      | Some groupedByLabel' => groupByLabel groupedByLabel' rest
      end
  end.

(** [for (const item of items)] inside a label's folder. *)
Fixpoint saveItems (label : string) (st : nat * nat)
         (items : list (JsObject JsValue)) : nat * nat :=
  match items with
  | [] => st
  | item :: rest =>
      let (saved, failed) := st in
      saveItems label
        (if writeImage label item then (S saved, failed) else (saved, S failed))
        rest
  end.

(** The body of [for (const [label, items] of Object.entries(...))]. *)
Definition saveGroup (st : nat * nat)
           (group : string * list (JsObject JsValue)) : nat * nat :=
  let (label, items) := group in
  if directoryFor label then saveItems label st items
  else (fst st, snd st + List.length items).

(** [saveCroppedImages(croppedImages, outputDirHandle)]: saved and
    failed, or [None] when the grouping threw. *)
Definition saveCroppedImages (croppedImages : list (JsObject JsValue))
  : option (nat * nat) :=
  match groupByLabel [] croppedImages with
  | None => None
  | Some groupedByLabel =>
      Some (fold_left saveGroup (Object_entries groupedByLabel) (0, 0))
  end.

End WithNumbers.
End LabelFolders.

(** *** Vocabulary of the further properties *)
Module MoreVocabulary.
Import TabularCodec ResultSink BatchRunner RegionExtractor Vocabulary.
Import LabelFolders.
Section WithNumbers.
Context {N : JsNumber}.

(** The text the Aggregate-JSON sink writes for one item. *)
Definition itemText (JSON_stringify : nat -> JsValue -> string)
           (task : JsValue) (item : ResultItem) : string :=
  "  " ++ replaceAll LF (str1 LF ++ "  ")
                     (JSON_stringify 2 (resultObject task item)).

(** The writer after a sequence of writeResult calls. *)
Definition json_writeAll (JSON_stringify : nat -> JsValue -> string)
           (w : StreamingJSONWriter) (items : list ResultItem)
  : StreamingJSONWriter :=
  fold_left (fun w item => fst (json_writeResult JSON_stringify w item)) items w.

(** A box whose coordinates can be read: neither undefined nor null. *)
Definition readable (box : JsValue) : bool :=
  match box with
  | JUndefined | JNull => false
  | _ => true
  end.

(** The progress messages among the messages of a batch. *)
Definition progressOf (msgs : list WorkerMessage) : list (nat * nat * JsValue) :=
  flat_map (fun m => match m with
                     | BatchProgress current total fname => [(current, total, fname)]
                     | _ => []
                     end) msgs.

(** The result messages among the messages of a batch. *)
Definition resultsOf (msgs : list WorkerMessage) : list WorkerMessage :=
  filter (fun m => match m with
                   | BatchResult _ _ _ _ _ => true
                   | _ => false
                   end) msgs.

(** The label of a cropped image, as the property key it is filed under. *)
Definition labelKey (item : JsObject JsValue) : string :=
  ToString (obj_get item "label").

(** Names none of which is a name plain objects inherit. *)
Definition plainNames (names : list string) : bool :=
  forallb (fun k => negb (LabelFolders.inherited k)) names.

(** A record whose image name is not a name plain objects inherit. *)
Definition plainlyKeyed (row : JsObject JsValue) : bool :=
  negb (LabelFolders.inherited (ToString (RegionExtractor.groupKey row))).

(** Positions [1 .. n] paired with the names of the images. *)
Fixpoint numbered (i total : nat) (images : list ImageData)
  : list (nat * nat * JsValue) :=
  match images with
  | [] => []
  | imageData :: rest => (S i, total, name imageData) :: numbered (S i) total rest
  end.

End WithNumbers.
End MoreVocabulary.

(** *** More sample inputs *)
Module MoreSamples.
Import TabularCodec ResultSink BatchRunner RegionExtractor Vocabulary.
Import SingleImage SinkFactory OneShotExport LabelFolders MoreVocabulary.

(** Vision inputs stand-in: the url they were read from. *)
Definition sampleLoad (url : string) : string := "vision of " ++ url.

Definition sampleGenerate (userInput task vision : string) : JsValue :=
  JStr (userInput ++ " on " ++ vision).

Definition twoRows : list (JsObject JsValue) :=
  [[("id", Samples.int 0); ("label", JStr "cat, sitting")];
   [("id", Samples.int 1); ("label", JStr "dog")]].

Definition croppedCat : JsObject JsValue :=
  [("label", JStr "cat"); ("filename", JStr "a_0.jpg"); ("blob", JStr "...")].

Definition croppedDog : JsObject JsValue :=
  [("label", JStr "dog"); ("filename", JStr "a_1.jpg"); ("blob", JStr "...")].

(** Two detection records: one of a.jpg, one of an image not provided. *)
Definition cropRows : list (JsObject JsValue) :=
  [[("image", JStr "a.jpg"); ("label", JStr "cat");
    ("xmin", Samples.int 1); ("ymin", Samples.int 2);
    ("xmax", Samples.int 30); ("ymax", Samples.int 40)];
   [("image", JStr "missing.jpg"); ("label", JStr "dog");
    ("xmin", Samples.int 1); ("ymin", Samples.int 2);
    ("xmax", Samples.int 30); ("ymax", Samples.int 40)]].

End MoreSamples.

(* ===================================================================== *)
(** * Properties                                                           *)
(* ===================================================================== *)

Import TabularCodec ResultSink BatchRunner RegionExtractor Vocabulary.

(** ** The sinks' life cycle *)

Section SinkLifeCycle.
Context {N : JsNumber}.
Variable JSON_stringify : nat -> JsValue -> string.

Lemma json_finalize_closed (w : StreamingJSONWriter) :
  json_writable (fst (json_finalize w)) = None.
Proof.
  unfold json_finalize. destruct (json_writable w) eqn:E; simpl; auto.
Qed.

Lemma csv_finalize_closed (w : StreamingCSVWriter) :
  csv_writable (fst (csv_finalize w)) = None.
Proof.
  unfold csv_finalize. destruct (csv_writable w) eqn:E; simpl; auto.
Qed.

Lemma json_finalize_noop (w : StreamingJSONWriter) :
  json_writable w = None -> json_finalize w = (w, Returned).
Proof. intros E. unfold json_finalize. rewrite E. reflexivity. Qed.

Lemma csv_finalize_noop (w : StreamingCSVWriter) :
  csv_writable w = None -> csv_finalize w = (w, Returned).
Proof. intros E. unfold csv_finalize. rewrite E. reflexivity. Qed.

Lemma json_writeResult_closed (w : StreamingJSONWriter) item :
  json_writable w = None ->
  json_writeResult JSON_stringify w item = (w, WriterNotInitialized).
Proof. intros E. unfold json_writeResult. rewrite E. reflexivity. Qed.

Lemma csv_writeResult_closed (w : StreamingCSVWriter) item :
  csv_writable w = None ->
  csv_writeResult JSON_stringify w item = (w, WriterNotInitialized).
Proof. intros E. unfold csv_writeResult. rewrite E. reflexivity. Qed.

(** C8, as amended.  For the Aggregate-JSON and Flattened-CSV sinks,
    writeResult before initialize, and writeResult after a completed
    finalize, throws Error('Writer not initialized') and leaves the writer
    as it was.  finalize before initialize throws nothing in any variant:
    it returns at once, the writer unchanged.  The per-item-file sink
    never consults initialize or finalize: its writeResult throws that
    error exactly when the sink was constructed without a directory
    handle, and returns normally otherwise, also before initialize and
    after finalize. *)
Theorem C8_writer_not_initialized :
  forall (fh : FileHandle) (dir : DirectoryHandle) (task : JsValue)
         (item : ResultItem)
         (j : StreamingJSONWriter) (c : StreamingCSVWriter)
         (d : StreamingIndividualWriter),
    (* writeResult before initialize *)
    json_writeResult JSON_stringify (newJSONWriter fh) item
      = (newJSONWriter fh, WriterNotInitialized)
    /\ csv_writeResult JSON_stringify (newCSVWriter fh) item
      = (newCSVWriter fh, WriterNotInitialized)
    (* writeResult after finalize *)
    /\ json_writeResult JSON_stringify (fst (json_finalize j)) item
      = (fst (json_finalize j), WriterNotInitialized)
    /\ csv_writeResult JSON_stringify (fst (csv_finalize c)) item
      = (fst (csv_finalize c), WriterNotInitialized)
    (* finalize before initialize *)
    /\ json_finalize (newJSONWriter fh) = (newJSONWriter fh, Returned)
    /\ csv_finalize (newCSVWriter fh) = (newCSVWriter fh, Returned)
    /\ ind_finalize d = (d, Returned)
    (* the per-item-file sink *)
    /\ snd (ind_writeResult JSON_stringify (newIndividualWriter None) item)
      = WriterNotInitialized
    /\ snd (ind_writeResult JSON_stringify (newIndividualWriter (Some dir)) item)
      = Returned
    /\ snd (ind_writeResult JSON_stringify
              (fst (ind_finalize
                      (ind_initialize (newIndividualWriter (Some dir)) task)))
              item)
      = Returned.
Proof.
  intros. repeat apply conj; try reflexivity.
  - apply json_writeResult_closed, json_finalize_closed.
  - apply csv_writeResult_closed, csv_finalize_closed.
Qed.

(** C9.  For the Aggregate-JSON sink, initialize leaves the stream holding
    the prefix [ LF, finalize appends LF ] LF to whatever the stream holds
    and commits it to the file; so initialize followed directly by
    finalize leaves the file holding exactly [ LF LF ] LF, which the JSON
    grammar reads as an empty array. *)
Theorem C9_json_empty_batch :
  forall (w : StreamingJSONWriter) (fh : FileHandle) (task : JsValue)
         (text : string) (isFirst : bool),
    json_writable (json_initialize w task) = Some ("[" ++ nl)
    /\ fileText (json_fileHandle (fst (json_finalize
         {| json_fileHandle := fh; json_writable := Some text;
            json_isFirst := isFirst; json_task := task |})))
       = text ++ nl ++ "]" ++ nl
    /\ fileText (json_fileHandle (fst (json_finalize
         (json_initialize (newJSONWriter fh) task))))
       = "[" ++ nl ++ nl ++ "]" ++ nl
    /\ parsesAsEmptyJsonArray ("[" ++ nl ++ nl ++ "]" ++ nl) = true.
Proof.
  intros. repeat apply conj; reflexivity.
Qed.

(** C10.  For the Aggregate-JSON and Flattened-CSV sinks, finalize leaves
    the writable handle null, and a further finalize returns without
    throwing and changes nothing: neither the writer nor the text of its
    file, so the closing bracket is not written a second time. *)
Theorem C10_finalize_idempotent :
  forall (j : StreamingJSONWriter) (c : StreamingCSVWriter),
    json_writable (fst (json_finalize j)) = None
    /\ json_finalize (fst (json_finalize j)) = (fst (json_finalize j), Returned)
    /\ fileText (json_fileHandle (fst (json_finalize (fst (json_finalize j)))))
       = fileText (json_fileHandle (fst (json_finalize j)))
    /\ csv_writable (fst (csv_finalize c)) = None
    /\ csv_finalize (fst (csv_finalize c)) = (fst (csv_finalize c), Returned)
    /\ fileText (csv_fileHandle (fst (csv_finalize (fst (csv_finalize c)))))
       = fileText (csv_fileHandle (fst (csv_finalize c))).
Proof.
  intros j c.
  pose proof (json_finalize_noop _ (json_finalize_closed j)) as Hj.
  pose proof (csv_finalize_noop _ (csv_finalize_closed c)) as Hc.
  repeat apply conj.
  - apply json_finalize_closed.
  - exact Hj.
  - rewrite Hj. reflexivity.
  - apply csv_finalize_closed.
  - exact Hc.
  - rewrite Hc. reflexivity.
Qed.

End SinkLifeCycle.

(** C8 as stated fails: on a freshly constructed Aggregate-JSON or
    Flattened-CSV writer finalize returns normally, and a per-item-file
    writer constructed on a directory accepts writeResult before
    initialize. *)
Lemma C8_counterexample :
  snd (finalize (JSONWriter (newJSONWriter {| fileText := EmptyString |})))
    = Returned
  /\ snd (finalize (CSVWriter (newCSVWriter {| fileText := EmptyString |})))
    = Returned
  /\ snd (writeResult (fun _ _ => "{}")
            (IndividualWriter (newIndividualWriter (Some [])))
            {| filename := JStr "a.jpg"; result := JStr "a cat";
               rawResult := JUndefined; time := JNum (num_of_nat 3);
               error := JUndefined |})
    = Returned
  /\ Returned <> WriterNotInitialized.
Proof.
  repeat apply conj; try reflexivity. discriminate.
Qed.

(** ** Plain objects: lookups after assignments *)

Section ObjectFacts.
Context {A : Type}.
Implicit Types (o : JsObject A) (k : string) (v : A).

Lemma obj_lookup_set_same o k v : obj_lookup (obj_set o k v) k = Some v.
Proof.
  induction o as [| [k' v'] rest IH]; simpl.
  - now rewrite String.eqb_refl.
  - destruct (k' =? k) eqn:E; simpl; rewrite E; auto.
Qed.

Lemma obj_lookup_set_other o k k' v :
  k <> k' -> obj_lookup (obj_set o k v) k' = obj_lookup o k'.
Proof.
  intros Hne. induction o as [| [k0 v0] rest IH]; simpl.
  - destruct (k =? k') eqn:E; auto. apply String.eqb_eq in E. contradiction.
  - destruct (k0 =? k) eqn:E; simpl.
    + apply String.eqb_eq in E. subst k0.
      destruct (k =? k') eqn:E'; auto.
      apply String.eqb_eq in E'. contradiction.
    + destruct (k0 =? k'); auto.
Qed.

Lemma obj_lookup_assign_other o (kvs : list (string * A)) k :
  ~ In k (map fst kvs) -> obj_lookup (obj_assign o kvs) k = obj_lookup o k.
Proof.
  revert o. induction kvs as [| [k0 v0] rest IH]; intros o Hn; simpl; auto.
  unfold obj_assign in *. simpl. rewrite IH.
  - apply obj_lookup_set_other. intros ->. apply Hn. now left.
  - intros Hin. apply Hn. now right.
Qed.

Lemma obj_lookup_none_iff o k : obj_lookup o k = None <-> ~ In k (map fst o).
Proof.
  induction o as [| [k' v'] rest IH]; simpl.
  - tauto.
  - destruct (k' =? k) eqn:E.
    + apply String.eqb_eq in E. split; [discriminate | intros H; exfalso; auto].
    + apply String.eqb_neq in E. rewrite IH. tauto.
Qed.

End ObjectFacts.

(** ** Flattened-CSV: where the row id comes from *)

Section RowIds.
Context {N : JsNumber}.
Variable JSON_stringify : nat -> JsValue -> string.

(** In the detection branches every row takes the counter's value, and the
    counter advances by one per row. *)
Lemma boxRows_ids names fname labels boxes :
  forall remaining i rowId rowId' rows,
    boxRows names fname labels boxes i remaining rowId = (rowId', Some rows) ->
    rowId' = rowId + remaining
    /\ List.length rows = remaining
    /\ forall j row, nth_error rows j = Some row ->
                     obj_get row "id" = JNum (num_of_nat (rowId + j)).
Proof.
  induction remaining as [| rem IH]; intros i rowId rowId' rows H.
  - simpl in H. inversion H; subst. repeat apply conj; auto.
    intros [| j] row Hj; discriminate.
  - cbn [boxRows] in H.
    destruct (boxRow names rowId fname _ _) as [row0 |] eqn:Hrow;
      [| discriminate].
    destruct (boxRows names fname labels boxes (S i) rem (S rowId))
      as [rid more] eqn:Hrec.
    destruct more as [rows' |]; cbn [option_map] in H; [| discriminate].
    inversion H; subst. destruct (IH _ _ _ _ Hrec) as (E1 & E2 & E3).
    repeat apply conj; [lia | simpl; lia |].
    intros [| j] row Hj.
    + cbn in Hj. inversion Hj; subst row. rewrite Nat.add_0_r.
      unfold boxRow in Hrow.
      destruct (match js_index boxes i with Got v => v | TypeError => JUndefined end);
        try discriminate; inversion Hrow; reflexivity.
    + cbn in Hj. rewrite (E3 j row Hj).
      replace (S rowId + j) with (rowId + S j) by lia. reflexivity.
Qed.

(** An array element that has no id property of its own gets the
    counter's value. *)
Lemma arrayRow_id_from_counter (r : JsValue) (rowId : nat) :
  ~ In "id" (map fst (spreadProps r)) ->
  obj_get (obj_assign [("id", JNum (num_of_nat rowId))] (spreadProps r)) "id"
  = JNum (num_of_nat rowId).
Proof.
  intros H. unfold obj_get. rewrite obj_lookup_assign_other by exact H.
  reflexivity.
Qed.

(** A result that is neither a detection nor an array gives one row,
    numbered by the counter. *)
Lemma flatten_single_row_id (rowId : nat) (item : ResultItem) :
  truthy (propOf (result item) "labels") = false ->
  isArray (result item) = false ->
  exists row,
    flatten JSON_stringify rowId item = (S rowId, Some [row])
    /\ obj_get row "id" = JNum (num_of_nat rowId)
    /\ obj_get row "filename" = filename item.
Proof.
  intros Hl Ha. unfold flatten. rewrite Hl, !andb_false_r.
  destruct (result item); try discriminate; eexists; repeat apply conj;
    reflexivity.
Qed.

End RowIds.

(** C5, at the failing input.  The array-shaped branch builds each row as
    [{ id: this.rowId++, ...r }]: the element is spread after the counter,
    so an element that has an id of its own keeps it.  For the result
    [[{id: 7, label: 'x'}]] on a fresh writer (counter 0) the row written
    has id 7. *)
Lemma C5_source_id_replaces_counter :
  csv_rowId Samples.freshCSVWriter = 0
  /\ flatten Samples.sampleStringify 0 Samples.itemWithOwnId
     = (1, Some [[("id", Samples.int 7); ("label", JStr "x")]])
  /\ csv_writable (fst (csv_writeResult Samples.sampleStringify
                          Samples.freshCSVWriter Samples.itemWithOwnId))
     = Some ("id,label" ++ nl ++ "7,x" ++ nl).
Proof. repeat apply conj; reflexivity. Qed.

(** ** RegionExtractor: the confidence gate *)

Section ConfidenceGate.
Context {N : JsNumber}.
Variable loadImageToCanvas : ImageFile -> bool.
Variable cropAndSave : ImageFile -> string -> JsObject JsValue -> JsValue -> bool.

(** A record whose score is a number other than zero and below 0.5 is
    counted as skipped, and no crop is attempted for it. *)
Lemma low_score_is_skipped imageFile fname (r : Report) index bbox (s : num) :
  obj_get bbox "score" = JNum s ->
  num_isZero s = false -> num_isNaN s = false ->
  num_ltb s num_half = true ->
  processRecord cropAndSave imageFile fname r index bbox
  = {| saved := saved r; failed := failed r; skipped := S (skipped r);
       progress := progress r; attempts := attempts r |}.
Proof.
  intros Hs Hz Hn Hlt. unfold processRecord, js_or.
  rewrite Hs. cbn [truthy]. rewrite Hz, Hn. cbn [negb andb ToNumber].
  now rewrite Hlt.
Qed.

(** A record whose score is the number zero is read as having no score:
    the gate compares 1 with 0.5. *)
Lemma zero_score_reads_as_one imageFile fname (r : Report) index bbox (s : num) :
  obj_get bbox "score" = JNum s ->
  num_isZero s = true ->
  num_ltb (num_of_nat 1) num_half = false ->
  skipped (processRecord cropAndSave imageFile fname r index bbox)
  = if isQuad bbox || isAxis bbox then skipped r else S (skipped r).
Proof.
  intros Hs Hz Hlt. unfold processRecord, js_or.
  rewrite Hs. cbn [truthy]. rewrite Hz. cbn [negb andb ToNumber].
  rewrite Hlt.
  destruct (isQuad bbox); cbn [orb].
  - destruct (cropAndSave _ _ _ _); reflexivity.
  - destruct (isAxis bbox); [| reflexivity].
    destruct (cropAndSave _ _ _ _); reflexivity.
Qed.

End ConfidenceGate.

(** The example of the specification: one otherwise valid detection with
    score 0.3 is skipped, nothing is saved and nothing fails. *)
Lemma score_03_is_skipped :
  let r := cropAndSaveImagesStreaming Samples.alwaysLoads Samples.alwaysSaves
             (parseCSV (Samples.detectionWithScore "0.3")) Samples.sampleFiles in
  saved r = 0 /\ failed r = 0 /\ skipped r = 1 /\ attempts r = [].
Proof. repeat apply conj; reflexivity. Qed.

(** C6, at the failing input.  The gate reads [bbox.score || 1.0], so a
    score of 0, which is present and below 0.5, is replaced by 1: the
    record is not skipped and its crop is attempted (and here saved). *)
Lemma C6_zero_score_is_cropped :
  let records := parseCSV (Samples.detectionWithScore "0") in
  let r := cropAndSaveImagesStreaming Samples.alwaysLoads Samples.alwaysSaves
             records Samples.sampleFiles in
  map (fun row => obj_get row "score") records = [Samples.int 0]
  /\ saved r = 1 /\ failed r = 0 /\ skipped r = 0
  /\ attempts r = [("a.jpg", 0)].
Proof. repeat apply conj; reflexivity. Qed.

(** ** TabularCodec: quotes *)

(** C2, at the failing input.  A quote character only toggles the quote
    state and is never copied, so the doubled quote of the quoted field
    x, quote, quote, y parses to nothing: the field reads xy.  The
    Flattened-CSV sink writes exactly that line for the value x, quote, y. *)
Lemma C2_doubled_quote_is_dropped :
  cellText (JStr ("x" ++ Samples.dq ++ "y")) = Samples.quotedXY
  /\ scanLine Samples.quotedXY = ["xy"]
  /\ parseCSV ("a" ++ nl ++ Samples.quotedXY) = [[("a", JStr "xy")]].
Proof. repeat apply conj; reflexivity. Qed.

(** ** Strings: trim, split and join *)

Section StringFacts.

Lemma append_nil_r (s : string) : s ++ EmptyString = s.
Proof. induction s; simpl; congruence. Qed.

Lemma append_assoc (a b c : string) : (a ++ b) ++ c = a ++ (b ++ c).
Proof. induction a; simpl; congruence. Qed.


Lemma includes_app (c : ascii) (a b : string) :
  includes c (a ++ b) = includes c a || includes c b.
Proof.
  induction a as [| d a IH]; simpl; auto. rewrite IH. apply orb_assoc.
Qed.



Lemma includes_trimStart (c : ascii) (s : string) :
  includes c (trimStart s) = true -> includes c s = true.
Proof.
  induction s as [| d r IH]; simpl; auto.
  destruct (isWhiteSpace d); auto.
  intros H. rewrite (IH H). apply orb_true_r.
Qed.




Lemma includes_trimEnd (c : ascii) (s : string) :
  includes c (trimEnd s) = true -> includes c s = true.
Proof.
  induction s as [| d r IH]; simpl; auto.
  destruct (trimEnd r) as [| e r'] eqn:E.
  - destruct (isWhiteSpace d); simpl; [discriminate |].
    rewrite orb_false_r. intros ->. reflexivity.
  - simpl. intros H. apply orb_true_iff in H. destruct H as [H | H].
    + now rewrite H.
    + simpl in IH. rewrite (IH H). apply orb_true_r.
Qed.


Lemma trimEnd_app_ws (a : string) (c : ascii) :
  isWhiteSpace c = true -> trimEnd (a ++ str1 c) = trimEnd a.
Proof.
  intros W. induction a as [| d a IH]; simpl.
  - now rewrite W.
  - now rewrite IH.
Qed.




Lemma includes_trim (c : ascii) (s : string) :
  includes c (trim s) = true -> includes c s = true.
Proof. intros H. now apply includes_trimStart, includes_trimEnd. Qed.

Lemma excludes_trim (c : ascii) (s : string) :
  includes c s = false -> includes c (trim s) = false.
Proof.
  intros H. destruct (includes c (trim s)) eqn:E; auto.
  apply includes_trim in E. congruence.
Qed.

Lemma replaceAll_absent (c : ascii) (by_ s : string) :
  includes c s = false -> replaceAll c by_ s = s.
Proof.
  induction s as [| d r IH]; simpl; auto.
  destruct (Ascii.eqb d c); simpl; [discriminate |].
  intros H. now rewrite IH.
Qed.

Lemma split_nonempty (c : ascii) (s : string) : split c s <> [].
Proof.
  destruct s as [| d r]; simpl; [discriminate |].
  destruct (Ascii.eqb d c); [discriminate |].
  destruct (split c r); discriminate.
Qed.



Lemma split_absent (c : ascii) (s : string) :
  includes c s = false -> split c s = [s].
Proof.
  induction s as [| d r IH]; simpl; auto.
  destruct (Ascii.eqb d c); simpl; [discriminate |].
  intros H. now rewrite IH.
Qed.



(** Lines each followed by a line feed are the lines joined by line feeds,
    and one more line feed. *)
Lemma linesText_join (first : string) (others : list string) :
  linesText (first :: others) = join nl (first :: others) ++ nl.
Proof.
  revert first. induction others as [| y rest IH]; intros first.
  - unfold linesText, join. cbn [fold_right String.concat].
    now rewrite append_nil_r.
  - change (join nl (first :: y :: rest))
      with (first ++ nl ++ join nl (y :: rest)).
    change (linesText (first :: y :: rest))
      with (first ++ nl ++ linesText (y :: rest)).
    now rewrite IH, !append_assoc.
Qed.

End StringFacts.

(** ** Plain objects: key order and entries *)

Section KeyOrder.

Lemma insertIndexKey_perm (k : N * string) (l : list (N * string)) :
  Permutation (insertIndexKey k l) (k :: l).
Proof.
  induction l as [| k' rest IH]; simpl; auto.
  destruct (fst k <=? fst k')%N; auto.
  rewrite IH. apply perm_swap.
Qed.

Lemma sortIndexKeys_perm (l : list (N * string)) :
  Permutation (sortIndexKeys l) l.
Proof.
  induction l as [| k rest IH]; simpl; auto.
  rewrite insertIndexKey_perm. now constructor.
Qed.

Lemma indexKeysOf_snd (keys : list string) :
  map snd (indexKeysOf keys) = filter isArrayIndex keys.
Proof.
  unfold indexKeysOf, isArrayIndex.
  induction keys as [| k rest IH]; simpl; auto.
  destruct (arrayIndex k); simpl; now rewrite IH.
Qed.

Lemma filter_split_perm {A : Type} (p : A -> bool) (l : list A) :
  Permutation (filter p l ++ filter (fun x => negb (p x)) l) l.
Proof.
  induction l as [| x rest IH]; simpl; auto.
  destruct (p x); simpl.
  - now constructor.
  - rewrite <- Permutation_middle. now constructor.
Qed.

Lemma ownKeys_perm (keys : list string) : Permutation (ownKeys keys) keys.
Proof.
  unfold ownKeys.
  rewrite (Permutation_map snd (sortIndexKeys_perm (indexKeysOf keys))).
  rewrite indexKeysOf_snd. apply filter_split_perm.
Qed.

(** Without array-index keys, the own keys come in insertion order. *)
Lemma ownKeys_insertion_order (keys : list string) :
  forallb (fun k => negb (isArrayIndex k)) keys = true ->
  ownKeys keys = keys.
Proof.
  intros H. unfold ownKeys.
  assert (E1 : indexKeysOf keys = []).
  { unfold indexKeysOf, isArrayIndex in *.
    induction keys as [| k rest IH]; simpl in *; auto.
    apply andb_true_iff in H. destruct H as [H1 H2].
    destruct (arrayIndex k); [discriminate | auto]. }
  rewrite E1. simpl.
  induction keys as [| k rest IH]; simpl in *; auto.
  apply andb_true_iff in H. destruct H as [H1 H2]. rewrite H1. f_equal.
  apply IH; auto.
  unfold indexKeysOf in E1 |- *. simpl in E1.
  destruct (arrayIndex k); [discriminate | exact E1].
Qed.

Context {A : Type}.
Implicit Types (o : JsObject A) (k : string) (v : A).

Lemma obj_lookup_In o k v : obj_lookup o k = Some v -> In (k, v) o.
Proof.
  induction o as [| [k' v'] rest IH]; simpl; [discriminate |].
  destruct (k' =? k) eqn:E.
  - apply String.eqb_eq in E. intros H. inversion H; subst. now left.
  - intros H. right. auto.
Qed.

Lemma obj_set_keys o k v :
  map fst (obj_set o k v)
  = if obj_has o k then map fst o else (map fst o ++ [k])%list.
Proof.
  unfold obj_has. induction o as [| [k' v'] rest IH]; simpl; auto.
  destruct (k' =? k) eqn:E; simpl; auto.
  rewrite IH. destruct (obj_lookup rest k); reflexivity.
Qed.

Lemma obj_set_NoDup o k v :
  NoDup (map fst o) -> NoDup (map fst (obj_set o k v)).
Proof.
  intros H. rewrite obj_set_keys. unfold obj_has.
  destruct (obj_lookup o k) eqn:E; auto.
  apply obj_lookup_none_iff in E.
  apply NoDup_app; auto.
  - repeat constructor. simpl. tauto.
  - intros x Hx [Hk | []]. subst. contradiction.
Qed.


Lemma flat_map_agree {X Y : Type} (f g : X -> list Y) (l : list X) :
  (forall x, In x l -> f x = g x) -> flat_map f l = flat_map g l.
Proof.
  induction l as [| x rest IH]; simpl; auto.
  intros H. rewrite (H x) by now left. f_equal. apply IH.
  intros y Hy. apply H. now right.
Qed.

Lemma entries_in_key_order o :
  NoDup (map fst o) ->
  flat_map (fun k => match obj_lookup o k with
                     | Some v => [(k, v)]
                     | None => []
                     end) (map fst o) = o.
Proof.
  induction o as [| [k v] rest IH]; simpl; auto.
  intros H. inversion H as [| ? ? Hk Hrest]; subst.
  rewrite String.eqb_refl. simpl. f_equal.
  rewrite <- (IH Hrest) at 2.
  apply flat_map_agree. intros k' Hk'.
  destruct (k =? k') eqn:E; auto.
  apply String.eqb_eq in E. subst. contradiction.
Qed.

Lemma Object_entries_perm o :
  NoDup (map fst o) -> Permutation (Object_entries o) o.
Proof.
  intros H. unfold Object_entries, Object_keys.
  rewrite (ownKeys_perm (map fst o)). now rewrite entries_in_key_order.
Qed.




End KeyOrder.

(** ** RegionExtractor: grouping and the three counters *)

Section Grouping.
Context {N : JsNumber}.
Variable loadImageToCanvas : ImageFile -> bool.
Variable cropAndSave : ImageFile -> string -> JsObject JsValue -> JsValue -> bool.



Lemma totalRows_set_new (g : JsObject (list (JsObject JsValue))) k rows :
  obj_lookup g k = None ->
  totalRows (obj_set g k rows) = totalRows g + List.length rows.
Proof.
  unfold totalRows. induction g as [| [k' v'] rest IH]; simpl.
  - intros _. lia.
  - destruct (k' =? k); [discriminate |]. intros H. simpl. rewrite IH by auto.
    lia.
Qed.

Lemma totalRows_set_old (g : JsObject (list (JsObject JsValue))) k old rows :
  obj_lookup g k = Some old ->
  totalRows (obj_set g k rows) + List.length old
  = totalRows g + List.length rows.
Proof.
  unfold totalRows. induction g as [| [k' v'] rest IH]; simpl.
  - discriminate.
  - destruct (k' =? k).
    + intros H. inversion H; subst. simpl. lia.
    + intros H. simpl. specialize (IH H). lia.
Qed.






Lemma totalRows_perm g g' : Permutation g g' -> totalRows g = totalRows g'.
Proof.
  intros H. unfold totalRows.
  apply Permutation_list_sum. now apply Permutation_map.
Qed.


End Grouping.



(** ** Flattened-CSV: the header is fixed by the first row *)

Section HeaderLock.
Context {N : JsNumber}.
Variable JSON_stringify : nat -> JsValue -> string.

Lemma writeRows_with_header (hs : list string) (rows : list (JsObject JsValue)) :
  forall text,
    writeRows (Some hs, text) rows
    = (Some hs, text ++ linesText (map (serializeRow hs) rows)).
Proof.
  unfold writeRows. induction rows as [| row rest IH]; intros text.
  - simpl. now rewrite append_nil_r.
  - cbn [fold_left writeRow map]. rewrite IH. f_equal.
    unfold linesText. cbn [fold_right]. fold nl.
    now rewrite !append_assoc.
Qed.

Lemma writeRows_first (first : JsObject JsValue) rows text :
  writeRows (None, text) (first :: rows)
  = (Some (Object_keys first),
     text ++ linesText (join "," (Object_keys first)
                          :: map (serializeRow (Object_keys first))
                                 (first :: rows))).
Proof.
  unfold writeRows. cbn [fold_left writeRow].
  fold (writeRows (Some (Object_keys first),
                   (text ++ join "," (Object_keys first) ++ str1 LF)
                   ++ serializeRow (Object_keys first) first ++ str1 LF) rows).
  rewrite writeRows_with_header. f_equal.
  unfold linesText. cbn [fold_right map]. fold nl.
  now rewrite !append_assoc.
Qed.

Lemma csv_writeResult_keeps_headers (w : StreamingCSVWriter) item hs :
  csv_headers w = Some hs ->
  csv_headers (fst (csv_writeResult JSON_stringify w item)) = Some hs.
Proof.
  intros H. unfold csv_writeResult.
  destruct (csv_writable w) as [text |]; [| exact H].
  destruct (flatten JSON_stringify (csv_rowId w) item) as [rowId' [rows |]].
  - rewrite H, writeRows_with_header. reflexivity.
  - exact H.
Qed.

Lemma serializeRow_by_lookup (hs : list string) (row : JsObject JsValue) :
  serializeRow hs row
  = join "," (map (fun h => match obj_lookup row h with
                            | Some v => cellText v
                            | None => EmptyString
                            end) hs).
Proof.
  unfold serializeRow, obj_get. f_equal. apply map_ext.
  intros h. destruct (obj_lookup row h); reflexivity.
Qed.

(** The detection rows the writer builds list their keys as written. *)
Lemma boxRow_keys names id fname label box row :
  forallb (fun k => negb (isArrayIndex k)) names = true ->
  boxRow names id fname label box = Some row ->
  Object_keys row = ("id" :: "filename" :: "label" :: names)%list.
Proof.
  intros Hn H.
  assert (E : map fst row = ("id" :: "filename" :: "label" :: names)%list).
  { unfold boxRow in H.
    assert (K : forall j, map fst (coordProps names box j) = names).
    { clear. induction names as [| n rest IH]; intros j; simpl; auto.
      now rewrite IH. }
    destruct box; try discriminate; inversion H; subst; cbn [map List.app fst];
      now rewrite K. }
  unfold Object_keys. rewrite E. apply ownKeys_insertion_order.
  cbn [forallb]. now rewrite Hn.
Qed.

(** C4, as amended.  When no header name is a name that plain objects
    inherit (constructor, toString, __proto__, ...; under such a name a
    row that lacks the field reads the inherited member instead), the
    following holds.  On a stream without header the first row written
    fixes the header: its own keys as Object.keys lists them, that is the
    array-index keys in ascending order followed by the other keys in
    insertion order (plain insertion order when no key is an array index).
    The header line is written once, before the first row, and every row,
    the first and all later ones whatever their shape, is written against
    that header; a writeResult call on a writer that has a header leaves it
    unchanged.  A cell is read by header name: a field the row lacks prints
    empty, and a field of the row that is not in the header is not
    written. *)
Theorem C4_first_row_fixes_header :
  forall (first : JsObject JsValue) (rows : list (JsObject JsValue))
         (text : string) (hs : list string)
         (w : StreamingCSVWriter) (item : ResultItem),
    MoreVocabulary.plainNames (Object_keys first) = true ->
    MoreVocabulary.plainNames hs = true ->
    writeRows (None, text) (first :: rows)
    = (Some (Object_keys first),
       text ++ linesText (join "," (Object_keys first)
                            :: map (serializeRow (Object_keys first))
                                   (first :: rows)))
    /\ writeRows (Some hs, text) rows
       = (Some hs, text ++ linesText (map (serializeRow hs) rows))
    /\ csv_headers (fst (csv_writeResult JSON_stringify
                           {| csv_fileHandle := csv_fileHandle w;
                              csv_writable := csv_writable w;
                              csv_headers := Some hs;
                              csv_rowId := csv_rowId w |} item))
       = Some hs
    /\ serializeRow hs first
       = join "," (map (fun h => match obj_lookup first h with
                                 | Some v => cellText v
                                 | None => EmptyString
                                 end) hs)
    /\ Object_keys first
       = (map snd (sortIndexKeys (indexKeysOf (map fst first)))
          ++ filter (fun k => negb (isArrayIndex k)) (map fst first))%list
    /\ (forallb (fun k => negb (isArrayIndex k)) (map fst first) = true ->
        Object_keys first = map fst first).
Proof.
  intros first rows text hs w item _ _. repeat apply conj.
  - apply writeRows_first.
  - apply writeRows_with_header.
  - now apply csv_writeResult_keeps_headers.
  - apply serializeRow_by_lookup.
  - reflexivity.
  - apply ownKeys_insertion_order.
Qed.

End HeaderLock.

(** The example of the specification: a detection, then a caption.  The
    header comes from the detection row; the caption's row has its id and
    filename and five empty cells, and no result column appears. *)
Lemma caption_after_detection :
  let w1 := fst (csv_writeResult Samples.sampleStringify
                   Samples.freshCSVWriter Samples.detectionItem) in
  let w2 := fst (csv_writeResult Samples.sampleStringify w1
                   Samples.captionItem) in
  csv_headers w2
  = Some ["id"; "filename"; "label"; "xmin"; "ymin"; "xmax"; "ymax"]
  /\ csv_writable w2
     = Some ("id,filename,label,xmin,ymin,xmax,ymax" ++ nl
             ++ "0,a.jpg,cat,1,2,3,4" ++ nl
             ++ "1,b.jpg,,,,," ++ nl).
Proof. repeat apply conj; reflexivity. Qed.

Lemma C4_witness :
  let first := [("id", Samples.int 0); ("filename", JStr "a.jpg");
                ("label", JStr "cat"); ("xmin", Samples.int 1)] in
  let later := [("id", Samples.int 1); ("filename", JStr "b.jpg");
                ("result", JStr "some caption")] in
  writeRows (None, EmptyString) [first; later]
  = (Some ["id"; "filename"; "label"; "xmin"],
     "id,filename,label,xmin" ++ nl ++ "0,a.jpg,cat,1" ++ nl
     ++ "1,b.jpg,," ++ nl)
  /\ Object_keys first = map fst first.
Proof.
  pose proof (C4_first_row_fixes_header Samples.sampleStringify
                [("id", Samples.int 0); ("filename", JStr "a.jpg");
                 ("label", JStr "cat"); ("xmin", Samples.int 1)]
                [[("id", Samples.int 1); ("filename", JStr "b.jpg");
                  ("result", JStr "some caption")]]
                EmptyString [] Samples.freshCSVWriter Samples.captionItem
                eq_refl eq_refl)
    as (H1 & _ & _ & _ & _ & H6).
  cbv zeta. split.
  - eapply eq_trans; [exact H1 | reflexivity].
  - apply H6. reflexivity.
Defined.

(** C4 as stated fails on the order of the header: for the array-shaped
    result [[10, 20]] the first row is built as id, then the spread
    elements 0 and 1, but its header is 0,1,id. *)
Lemma C4_counterexample :
  let w := fst (csv_writeResult Samples.sampleStringify
                  Samples.freshCSVWriter Samples.arrayOfArraysItem) in
  flatten Samples.sampleStringify 0 Samples.arrayOfArraysItem
  = (1, Some [[("id", Samples.int 0); ("0", Samples.int 10);
               ("1", Samples.int 20)]])
  /\ csv_headers w = Some ["0"; "1"; "id"]
  /\ csv_writable w = Some ("0,1,id" ++ nl ++ "10,20,0" ++ nl)
  /\ ["0"; "1"; "id"] <> ["id"; "0"; "1"].
Proof. repeat apply conj; try reflexivity. discriminate. Qed.

(** ** TabularCodec: what the scan of a line produces *)

Section Scanning.
Context {N : JsNumber}.

Lemma scanChars_app (a b : string) :
  forall st, scanChars (a ++ b) st = scanChars b (scanChars a st).
Proof. induction a as [| c r IH]; intros st; simpl; auto. Qed.

(** Characters other than quotes are copied to the current field, commas
    too while inside quotes. *)
Lemma scanChars_copy (s : string) :
  forall st,
    includes DQUOTE s = false ->
    inQuotes st = true \/ includes COMMA s = false ->
    scanChars s st
    = {| values := values st; current := current st ++ s;
         inQuotes := inQuotes st |}.
Proof.
  induction s as [| c r IH]; intros st Hq Hc.
  - simpl. rewrite append_nil_r. now destruct st.
  - cbn [includes] in Hq. apply orb_false_iff in Hq. destruct Hq as [Hq1 Hq2].
    cbn [scanChars]. unfold scanChar at 1. rewrite Hq1.
    assert (E : Ascii.eqb c COMMA && negb (inQuotes st) = false).
    { destruct Hc as [Hc | Hc].
      - rewrite Hc. apply andb_false_r.
      - cbn [includes] in Hc. apply orb_false_iff in Hc.
        destruct Hc as [Hc _]. now rewrite Hc. }
    rewrite E, IH; cbn [values current inQuotes]; auto.
    + now rewrite append_assoc.
    + destruct Hc as [Hc | Hc]; auto.
      cbn [includes] in Hc. apply orb_false_iff in Hc. tauto.
Qed.




(** For every line, no field that parseCSV reads holds a quote
    character. *)
Lemma scanLine_no_quote (line field : string) :
  In field (scanLine line) -> includes DQUOTE field = false.
Proof.
  unfold scanLine.
  assert (G : forall l st,
             Forall (fun f => includes DQUOTE f = false) (values st) ->
             includes DQUOTE (current st) = false ->
             Forall (fun f => includes DQUOTE f = false)
                    (values (scanChars l st))
             /\ includes DQUOTE (current (scanChars l st)) = false).
  { induction l as [| c r IH]; intros st Hv Hc; simpl; auto.
    apply IH; unfold scanChar;
      destruct (Ascii.eqb c DQUOTE) eqn:Eq; cbn [values current]; auto;
      destruct (Ascii.eqb c COMMA && negb (inQuotes st));
      cbn [values current]; auto.
    - apply Forall_app. split; auto. repeat constructor.
      now apply excludes_trim.
    - rewrite includes_app, Hc. simpl. now rewrite Eq. }
  destruct (G line scanStart) as [Hv Hc]; [constructor | reflexivity |].
  intros Hin. apply in_app_or in Hin. destruct Hin as [Hin | [<- | []]].
  - revert field Hin. now apply Forall_forall.
  - now apply excludes_trim.
Qed.

(** A comma inside a quoted field is kept. *)
Lemma quoted_commas_kept (s : string) :
  includes DQUOTE s = false ->
  scanLine (str1 DQUOTE ++ s ++ str1 DQUOTE) = [trim s].
Proof.
  intros Hq. unfold scanLine. cbn [str1 append scanChars].
  rewrite scanChars_app.
  rewrite (scanChars_copy s); [reflexivity | exact Hq | left; reflexivity].
Qed.

End Scanning.

(** ** TabularCodec and Flattened-CSV: reading back what was written *)

Section ReadingBack.
Context {N : JsNumber}.















End ReadingBack.

(** ** TabularCodec: the records parseCSV builds *)

Section Records.
Context {N : JsNumber}.

Lemma obj_set_In (o : JsObject JsValue) k0 v0 k v :
  In (k, v) (obj_set o k0 v0) -> In (k, v) o \/ (k, v) = (k0, v0).
Proof.
  induction o as [| [k' v'] rest IH]; simpl.
  - intros [H | []]. right. now symmetry.
  - destruct (k' =? k0) eqn:E; simpl.
    + apply String.eqb_eq in E. subst k'.
      intros [H | H]; [right; now symmetry | left; now right].
    + intros [H | H]; [left; now left |].
      destruct (IH H) as [H' | H']; [left; now right | now right].
Qed.


Lemma fillRecord_values (hs : list string) :
  forall i vals o k v,
    In (k, v) (fillRecord hs i vals o) ->
    In (k, v) o
    \/ exists j, i <= j < i + List.length hs
                 /\ v = convertField (nth_error vals j).
Proof.
  induction hs as [| h rest IH]; intros i vals o k v H; [now left |].
  cbn [fillRecord List.length] in *.
  destruct (IH _ _ _ _ _ H) as [H1 | (j & Hj & Hv)].
  - destruct (h =? "__proto__"); [now left |].
    destruct (obj_set_In _ _ _ _ _ H1) as [H2 | H2]; auto.
    right. exists i. split; [lia |]. now inversion H2.
  - right. exists j. split; [lia | exact Hv].
Qed.


Lemma fillRecord_NoDup (hs : list string) :
  forall i vals (o : JsObject JsValue),
    NoDup (map fst o) -> NoDup (map fst (fillRecord hs i vals o)).
Proof.
  induction hs as [| h rest IH]; intros i vals o H; simpl; auto.
  apply IH. destruct (h =? "__proto__"); [exact H |].
  now apply obj_set_NoDup.
Qed.

Lemma obj_set_key_In (o : JsObject JsValue) k0 v0 k :
  In k (map fst (obj_set o k0 v0)) <-> In k (map fst o) \/ k = k0.
Proof.
  rewrite obj_set_keys. unfold obj_has.
  destruct (obj_lookup o k0) as [v |] eqn:E.
  - split; [tauto |]. intros [H | ->]; auto.
    apply obj_lookup_In in E. apply in_map_iff. now exists (k0, v).
  - rewrite in_app_iff. simpl. intuition congruence.
Qed.

Lemma plainHeaders_In (hs : list string) :
  plainHeaders hs = true -> ~ In "__proto__" hs.
Proof.
  unfold plainHeaders. intros H Hin. apply negb_true_iff in H.
  assert (E : existsb (String.eqb "__proto__") hs = true).
  { apply existsb_exists. exists "__proto__". split; [exact Hin |].
    apply String.eqb_refl. }
  congruence.
Qed.

Lemma plain_header_cons (h : string) (rest : list string) :
  ~ In "__proto__" (h :: rest) ->
  (h =? "__proto__") = false /\ ~ In "__proto__" rest.
Proof.
  intros H. split.
  - apply String.eqb_neq. intros ->. apply H. now left.
  - intros Hin. apply H. now right.
Qed.

Lemma fillRecord_key_In (hs : list string) :
  forall i vals (o : JsObject JsValue) k,
    ~ In "__proto__" hs ->
    (In k (map fst (fillRecord hs i vals o)) <-> In k hs \/ In k (map fst o)).
Proof.
  induction hs as [| h rest IH]; intros i vals o k Hp; simpl; [tauto |].
  destruct (plain_header_cons h rest Hp) as [E Hrest]. rewrite E.
  rewrite (IH _ _ _ _ Hrest), obj_set_key_In. intuition congruence.
Qed.










End Records.

(** ** The CSV round trip *)

Section RoundTrip.
Context {N : JsNumber}.

Lemma serializeRows_text (r1 : JsObject JsValue) rest :
  serializeRows (r1 :: rest)
  = join nl (join "," (Object_keys r1)
               :: map (serializeRow (Object_keys r1)) (r1 :: rest)) ++ nl.
Proof.
  unfold serializeRows. rewrite writeRows_first. cbn [snd append].
  apply linesText_join.
Qed.




End RoundTrip.



(** ** cropRegion: the rectangle that is cropped *)

Module GeometryFacts.
Import QArith Qminmax Lqa GeometryOps.
Local Open Scope Q_scope.

Ltac minmax_cases :=
  repeat match goal with
         | |- context [Qmax ?a ?b] =>
             let H := fresh "Hmax" in
             let v := fresh "m" in
             destruct (Q.max_spec a b) as [[? H] | [? H]];
             set (v := Qmax a b) in *; clearbody v
         | |- context [Qmin ?a ?b] =>
             let H := fresh "Hmin" in
             let v := fresh "m" in
             destruct (Q.min_spec a b) as [[? H] | [? H]];
             set (v := Qmin a b) in *; clearbody v
         | H0 : context [Qmax ?a ?b] |- _ =>
             let H := fresh "Hmax" in
             let v := fresh "m" in
             destruct (Q.max_spec a b) as [[? H] | [? H]];
             set (v := Qmax a b) in *; clearbody v
         | H0 : context [Qmin ?a ?b] |- _ =>
             let H := fresh "Hmin" in
             let v := fresh "m" in
             destruct (Q.min_spec a b) as [[? H] | [? H]];
             set (v := Qmin a b) in *; clearbody v
         end.

Lemma clamp_range (x bound : Q) :
  0 <= bound -> 0 <= Qmax 0 (Qmin x bound) <= bound.
Proof. intros H. minmax_cases; lra. Qed.

Lemma clamp_monotone (x y bound : Q) :
  x <= y -> Qmax 0 (Qmin x bound) <= Qmax 0 (Qmin y bound).
Proof. intros H. minmax_cases; lra. Qed.

Lemma clamp_inside (x bound : Q) :
  0 <= x <= bound -> Qmax 0 (Qmin x bound) == x.
Proof. intros H. minmax_cases; lra. Qed.

Lemma cropAxis_some xmin ymin xmax ymax w h r :
  cropAxis xmin ymin xmax ymax w h = Some r ->
  region_left r = Qmax 0 (Qmin xmin w)
  /\ region_top r = Qmax 0 (Qmin ymin h)
  /\ region_width r = Qmax 0 (Qmin xmax w) - Qmax 0 (Qmin xmin w)
  /\ region_height r = Qmax 0 (Qmin ymax h) - Qmax 0 (Qmin ymin h)
  /\ 0 < region_width r /\ 0 < region_height r.
Proof.
  unfold cropAxis. cbv zeta.
  destruct (Qle_bool (Qmax 0 (Qmin xmax w) - Qmax 0 (Qmin xmin w)) 0) eqn:E1;
    [discriminate |].
  destruct (Qle_bool (Qmax 0 (Qmin ymax h) - Qmax 0 (Qmin ymin h)) 0) eqn:E2;
    [discriminate |].
  cbn [orb]. intros H. inversion H; subst; cbn.
  repeat apply conj; try reflexivity.
  - apply Qnot_le_lt. intros C. apply Qle_bool_iff in C. congruence.
  - apply Qnot_le_lt. intros C. apply Qle_bool_iff in C. congruence.
Qed.

Lemma cropAxis_none xmin ymin xmax ymax w h :
  Qmax 0 (Qmin xmax w) <= Qmax 0 (Qmin xmin w)
  \/ Qmax 0 (Qmin ymax h) <= Qmax 0 (Qmin ymin h) ->
  cropAxis xmin ymin xmax ymax w h = None.
Proof.
  intros H. unfold cropAxis. cbv zeta.
  destruct H as [H | H].
  - assert (E : Qle_bool (Qmax 0 (Qmin xmax w) - Qmax 0 (Qmin xmin w)) 0 = true).
    { apply Qle_bool_iff. lra. }
    now rewrite E.
  - assert (E : Qle_bool (Qmax 0 (Qmin ymax h) - Qmax 0 (Qmin ymin h)) 0 = true).
    { apply Qle_bool_iff. lra. }
    rewrite E. now rewrite orb_true_r.
Qed.

Lemma Qle_bool_positive (x : Q) : 0 < x -> Qle_bool x 0 = false.
Proof.
  intros H. destruct (Qle_bool x 0) eqn:E; [| reflexivity].
  apply Qle_bool_iff in E. lra.
Qed.

Lemma cropAxis_valid xmin ymin xmax ymax w h :
  Qmax 0 (Qmin xmin w) < Qmax 0 (Qmin xmax w) ->
  Qmax 0 (Qmin ymin h) < Qmax 0 (Qmin ymax h) ->
  cropAxis xmin ymin xmax ymax w h
  = Some {| region_left := Qmax 0 (Qmin xmin w);
            region_top := Qmax 0 (Qmin ymin h);
            region_width := Qmax 0 (Qmin xmax w) - Qmax 0 (Qmin xmin w);
            region_height := Qmax 0 (Qmin ymax h) - Qmax 0 (Qmin ymin h) |}.
Proof.
  intros H1 H2. unfold cropAxis. cbv zeta.
  rewrite !Qle_bool_positive by lra. reflexivity.
Qed.

Lemma cropRegion_as_axis (bbox : BBox) w h :
  exists xmin ymin xmax ymax,
    cropRegion bbox w h = cropAxis xmin ymin xmax ymax w h.
Proof. destruct bbox; simpl; eauto 8. Qed.

(** X1.  Whenever cropRegion returns a rectangle for an image of
    non-negative width and height, the rectangle starts inside the image
    and has a positive size no larger than the image:
    0 <= left < imageWidth, 0 <= top < imageHeight,
    0 < width <= imageWidth and 0 < height <= imageHeight.  Nothing is
    said of left + width and top + height: the code computes the sizes as
    rounded differences. *)
Theorem cropRegion_within_image :
  forall (bbox : BBox) (imageWidth imageHeight : Q) (r : Region),
    0 <= imageWidth -> 0 <= imageHeight ->
    cropRegion bbox imageWidth imageHeight = Some r ->
    0 <= region_left r /\ region_left r < imageWidth
    /\ 0 <= region_top r /\ region_top r < imageHeight
    /\ 0 < region_width r /\ region_width r <= imageWidth
    /\ 0 < region_height r /\ region_height r <= imageHeight.
Proof.
  intros bbox w h r Hw Hh H.
  destruct (cropRegion_as_axis bbox w h) as (x0 & y0 & x1 & y1 & E).
  rewrite E in H. apply cropAxis_some in H.
  destruct H as (-> & -> & -> & -> & H5 & H6).
  pose proof (clamp_range x0 w Hw). pose proof (clamp_range x1 w Hw).
  pose proof (clamp_range y0 h Hh). pose proof (clamp_range y1 h Hh).
  repeat apply conj; lra.
Qed.

Lemma cropRegion_within_image_witness :
  exists r,
    cropRegion (AxisBox (-5) 10 30 2000) 100 50 = Some r
    /\ 0 <= region_left r /\ region_left r < 100
    /\ 0 <= region_top r /\ region_top r < 50
    /\ 0 < region_width r /\ region_width r <= 100
    /\ 0 < region_height r /\ region_height r <= 50.
Proof.
  eexists. split; [reflexivity |].
  apply (cropRegion_within_image (AxisBox (-5) 10 30 2000) 100 50).
  - discriminate.
  - discriminate.
  - reflexivity.
Defined.

(** X2.  A box with positive extent that already lies inside the image is
    cropped as it is: the rectangle starts at (xmin, ymin) and measures
    xmax - xmin by ymax - ymin. *)
Theorem cropRegion_inside_unchanged :
  forall (xmin ymin xmax ymax imageWidth imageHeight : Q),
    0 <= xmin -> xmin < xmax -> xmax <= imageWidth ->
    0 <= ymin -> ymin < ymax -> ymax <= imageHeight ->
    exists r,
      cropRegion (AxisBox xmin ymin xmax ymax) imageWidth imageHeight = Some r
      /\ region_left r == xmin /\ region_top r == ymin
      /\ region_width r == xmax - xmin /\ region_height r == ymax - ymin.
Proof.
  intros x0 y0 x1 y1 w h A1 A2 A3 B1 B2 B3.
  pose proof (clamp_inside x0 w ltac:(lra)) as C1.
  pose proof (clamp_inside x1 w ltac:(lra)) as C2.
  pose proof (clamp_inside y0 h ltac:(lra)) as C3.
  pose proof (clamp_inside y1 h ltac:(lra)) as C4.
  eexists. split.
  - cbn [cropRegion]. apply cropAxis_valid; lra.
  - cbn. repeat apply conj; lra.
Qed.

Lemma cropRegion_inside_unchanged_witness :
  exists r,
    cropRegion (AxisBox 1 2 30 40) 100 50 = Some r
    /\ region_left r == 1 /\ region_top r == 2
    /\ region_width r == 30 - 1 /\ region_height r == 40 - 2.
Proof.
  apply (cropRegion_inside_unchanged 1 2 30 40 100 50);
    first [ discriminate | reflexivity ].
Defined.

(** X3.  A box whose right edge is not to the right of its left edge, or
    whose bottom edge is not below its top edge, is never cropped:
    cropRegion throws, whatever the image size. *)
Theorem cropRegion_rejects_empty_box :
  forall (xmin ymin xmax ymax imageWidth imageHeight : Q),
    xmax <= xmin \/ ymax <= ymin ->
    cropRegion (AxisBox xmin ymin xmax ymax) imageWidth imageHeight = None.
Proof.
  intros x0 y0 x1 y1 w h H. cbn [cropRegion]. apply cropAxis_none.
  destruct H as [H | H]; [left | right]; now apply clamp_monotone.
Qed.

Lemma cropRegion_rejects_empty_box_witness :
  cropRegion (AxisBox 30 2 10 40) 100 50 = None.
Proof.
  apply (cropRegion_rejects_empty_box 30 2 10 40 100 50).
  left. discriminate.
Defined.

(** X4.  A quad box whose four vertices coincide has a bounding rectangle
    without area and always makes cropRegion throw. *)
Theorem cropRegion_rejects_point_quad :
  forall (x y imageWidth imageHeight : Q),
    cropRegion (QuadBox x y x y x y x y) imageWidth imageHeight = None.
Proof.
  intros x y w h. cbn [cropRegion]. apply cropAxis_none. left.
  apply clamp_monotone. unfold max4, min4. minmax_cases; lra.
Qed.

(** X5.  A box that lies entirely outside the image (to its left, to its
    right, above or below it) makes cropRegion throw, for an image of
    non-negative size. *)
Theorem cropRegion_rejects_outside_box :
  forall (xmin ymin xmax ymax imageWidth imageHeight : Q),
    0 <= imageWidth -> 0 <= imageHeight ->
    xmax <= 0 \/ imageWidth <= xmin \/ ymax <= 0 \/ imageHeight <= ymin ->
    cropRegion (AxisBox xmin ymin xmax ymax) imageWidth imageHeight = None.
Proof.
  intros x0 y0 x1 y1 w h Hw Hh H. cbn [cropRegion]. apply cropAxis_none.
  destruct H as [H | [H | [H | H]]]; [left | left | right | right];
    minmax_cases; lra.
Qed.

Lemma cropRegion_rejects_outside_box_witness :
  cropRegion (AxisBox 120 2 150 40) 100 50 = None.
Proof.
  apply (cropRegion_rejects_outside_box 120 2 150 40 100 50).
  - discriminate.
  - discriminate.
  - right. left. discriminate.
Defined.

End GeometryFacts.

(** ** parseCSV: the shape of the records *)

Section RecordShape.
Context {N : JsNumber}.

Lemma scanChars_unquoted (line : string) :
  includes DQUOTE line = false ->
  forall acc cur,
    let st := scanChars line
                {| values := acc; current := cur; inQuotes := false |} in
    (values st ++ [trim (current st)])%list
    = (acc ++ match split COMMA line with
              | h :: t => trim (cur ++ h) :: map trim t
              | [] => []
              end)%list.
Proof.
  induction line as [| c r IH]; intros Hq acc cur.
  - cbn. now rewrite append_nil_r.
  - cbn [includes] in Hq. apply orb_false_iff in Hq. destruct Hq as [Hc Hr].
    cbv zeta. cbn [scanChars split].
    assert (Estep :
              scanChar {| values := acc; current := cur; inQuotes := false |} c
              = if Ascii.eqb c COMMA
                then {| values := (acc ++ [trim cur])%list;
                        current := EmptyString; inQuotes := false |}
                else {| values := acc; current := cur ++ str1 c;
                        inQuotes := false |}).
    { unfold scanChar. rewrite Hc. cbn [inQuotes negb values current].
      now rewrite andb_true_r. }
    rewrite Estep. clear Estep.
    destruct (Ascii.eqb c COMMA) eqn:Ec.
    + specialize (IH Hr (acc ++ [trim cur])%list EmptyString).
      cbv zeta in IH. rewrite IH.
      destruct (split COMMA r) as [| h t] eqn:Es;
        [now apply split_nonempty in Es |].
      cbn [append map]. rewrite append_nil_r. now rewrite <- app_assoc.
    + specialize (IH Hr acc (cur ++ str1 c)). cbv zeta in IH. rewrite IH.
      destruct (split COMMA r) as [| h t] eqn:Es;
        [now apply split_nonempty in Es |].
      now rewrite append_assoc.
Qed.

(** X7.  On a data line without any quote character the quote-aware scan
    of parseCSV gives exactly the fields a plain split on commas gives,
    each trimmed. *)
Theorem scanLine_without_quotes_is_split :
  forall line : string,
    includes DQUOTE line = false ->
    scanLine line = map trim (split COMMA line).
Proof.
  intros line Hq. unfold scanLine, scanStart.
  pose proof (scanChars_unquoted line Hq [] EmptyString) as H.
  cbv zeta in H. rewrite H. cbn [List.app append].
  destruct (split COMMA line) as [| h t] eqn:Es;
    [now apply split_nonempty in Es | reflexivity].
Qed.


Lemma fillRecord_lookup_other (hs : list string) :
  forall i vals (o : JsObject JsValue) k,
    ~ In k hs -> obj_lookup (fillRecord hs i vals o) k = obj_lookup o k.
Proof.
  induction hs as [| h rest IH]; intros i vals o k Hn; [reflexivity |].
  cbn [fillRecord]. rewrite IH by (intros H; apply Hn; now right).
  destruct (h =? "__proto__"); [reflexivity |].
  apply obj_lookup_set_other. intros ->. apply Hn. now left.
Qed.

Lemma fillRecord_lookup_nth (hs : list string) :
  forall i vals (o : JsObject JsValue) j h,
    NoDup hs -> ~ In "__proto__" hs -> nth_error hs j = Some h ->
    obj_lookup (fillRecord hs i vals o) h
    = Some (convertField (nth_error vals (i + j))).
Proof.
  induction hs as [| h0 rest IH]; intros i vals o j h Hnd Hp Hj.
  - destruct j; discriminate.
  - inversion Hnd as [| ? ? Hh0 Hrest]; subst. cbn [fillRecord].
    destruct (plain_header_cons h0 rest Hp) as [E Hprest]. rewrite E.
    destruct j as [| j'].
    + cbn in Hj. inversion Hj; subst h0.
      rewrite fillRecord_lookup_other by exact Hh0.
      rewrite obj_lookup_set_same. now rewrite Nat.add_0_r.
    + cbn in Hj. rewrite (IH (S i) vals _ j' h Hrest Hprest Hj).
      now replace (S i + j') with (i + S j') by lia.
Qed.

(** X8.  When no column is named __proto__, every record parseCSV
    returns has exactly the columns of the header line, each once, however
    many fields its own line has: no column is missing for a short line
    and none is added for a long one. *)
Theorem parseCSV_records_have_header_columns :
  forall (text line0 : string) (dataLines : list string) (r : JsObject JsValue),
    split LF (trim text) = line0 :: dataLines ->
    plainHeaders (headersOf line0) = true ->
    In r (parseCSV text) ->
    NoDup (map fst r)
    /\ forall k, In k (map fst r) <-> In k (headersOf line0).
Proof.
  intros text line0 dataLines r Hs Hp Hr.
  unfold parseCSV in Hr. rewrite Hs in Hr.
  apply in_map_iff in Hr. destruct Hr as (line & <- & _). split.
  - apply fillRecord_NoDup. constructor.
  - intros k. rewrite fillRecord_key_In by now apply plainHeaders_In.
    cbn. tauto.
Qed.


(** X9.  With distinct header names none of which is __proto__, the
    record of the i-th data line holds for the j-th header the converted
    j-th field of that line, and undefined when the line has no j-th
    field. *)
Theorem parseCSV_reads_fields_by_position :
  forall (text line0 line h : string) (dataLines : list string) (i j : nat),
    split LF (trim text) = line0 :: dataLines ->
    NoDup (headersOf line0) ->
    plainHeaders (headersOf line0) = true ->
    nth_error dataLines i = Some line ->
    nth_error (headersOf line0) j = Some h ->
    exists r,
      nth_error (parseCSV text) i = Some r
      /\ obj_get r h = convertField (nth_error (scanLine line) j).
Proof.
  intros text line0 line h dataLines i j Hs Hnd Hp Hi Hj.
  unfold parseCSV. rewrite Hs.
  exists (fillRecord (headersOf line0) 0 (scanLine line) []). split.
  - exact (map_nth_error
             (fun l => fillRecord (headersOf line0) 0 (scanLine l) [])
             i dataLines Hi).
  - unfold obj_get.
    now rewrite (fillRecord_lookup_nth _ 0 _ _ j h Hnd
                   (plainHeaders_In _ Hp) Hj).
Qed.


(** X10.  A text that has no line feed once trimmed (an empty or blank
    text, or a header line alone) gives no record. *)
Theorem parseCSV_without_data_lines :
  forall text : string,
    includes LF (trim text) = false -> parseCSV text = [].
Proof.
  intros text H. unfold parseCSV. now rewrite (split_absent LF _ H).
Qed.


(** X11.  No value of a record returned by parseCSV holds a quote
    character, whatever the text: quotes are consumed by the scan, also
    the doubled ones. *)
Theorem parseCSV_values_hold_no_quote :
  forall (text : string) (r : JsObject JsValue) (k s : string),
    In r (parseCSV text) ->
    obj_get r k = JStr s ->
    includes DQUOTE s = false.
Proof.
  intros text r k s Hr Hk. unfold parseCSV in Hr.
  destruct (split LF (trim text)) as [| line0 dataLines]; [contradiction |].
  apply in_map_iff in Hr. destruct Hr as (line & <- & _).
  unfold obj_get in Hk.
  destruct (obj_lookup _ k) as [v |] eqn:E; [| discriminate]. subst v.
  apply obj_lookup_In in E.
  destruct (fillRecord_values _ _ _ _ _ _ E) as [[] | (j & _ & Hv)].
  destruct (nth_error (scanLine line) j) as [f |] eqn:Ef; [| discriminate].
  unfold convertField in Hv.
  destruct (negb (f =? EmptyString) && negb (isNaN_str f)); [discriminate |].
  inversion Hv; subst f.
  apply (scanLine_no_quote line). now apply nth_error_In in Ef.
Qed.


(** X12.  A string without quote characters that the Flattened-CSV sink
    writes as a cell is read back by the line scan of parseCSV as one
    field, the string itself up to trimming, its commas kept. *)
Theorem written_cell_is_read_back :
  forall s : string,
    includes DQUOTE s = false ->
    scanLine (cellText (JStr s)) = [trim s].
Proof.
  intros s Hq. cbn [cellText]. rewrite Hq, orb_false_r.
  destruct (includes COMMA s) eqn:Ec.
  - rewrite replaceAll_absent by exact Hq. now apply quoted_commas_kept.
  - unfold scanLine.
    rewrite (scanChars_copy s scanStart Hq (or_intror Ec)). reflexivity.
Qed.


End RecordShape.

Lemma scanLine_without_quotes_is_split_witness :
  scanLine "a.jpg, cat ,0.5,,12" = ["a.jpg"; "cat"; "0.5"; ""; "12"].
Proof.
  rewrite (scanLine_without_quotes_is_split "a.jpg, cat ,0.5,,12" eq_refl).
  reflexivity.
Defined.

Lemma parseCSV_records_have_header_columns_witness :
  NoDup (map fst (nth 1 (parseCSV Samples.smallTable) []))
  /\ In "score" (headersOf "image,label,score,xmin").
Proof.
  destruct (parseCSV_records_have_header_columns Samples.smallTable
              "image,label,score,xmin" _
              (nth 1 (parseCSV Samples.smallTable) []) eq_refl eq_refl)
    as [H1 H2].
  - apply nth_In.
    let rs := eval vm_compute in (parseCSV Samples.smallTable) in
    change (parseCSV Samples.smallTable) with rs.
    cbn. lia.
  - split; [exact H1 |]. apply H2.
    let rs := eval vm_compute in (parseCSV Samples.smallTable) in
    change (parseCSV Samples.smallTable) with rs.
    cbn. tauto.
Defined.

Lemma parseCSV_reads_fields_by_position_witness :
  exists r,
    nth_error (parseCSV Samples.smallTable) 1 = Some r
    /\ obj_get r "score" = convertField (nth_error (scanLine "b.jpg,dog,0.25,-3") 2).
Proof.
  apply (parseCSV_reads_fields_by_position Samples.smallTable
           "image,label,score,xmin" "b.jpg,dog,0.25,-3" "score" _ 1 2 eq_refl).
  - repeat constructor; cbn; intuition discriminate.
  - reflexivity.
  - reflexivity.
  - reflexivity.
Defined.

Lemma parseCSV_without_data_lines_witness :
  parseCSV ("  image,label,score " ++ nl) = [].
Proof.
  apply (parseCSV_without_data_lines ("  image,label,score " ++ nl)).
  reflexivity.
Defined.

Lemma parseCSV_values_hold_no_quote_witness :
  includes DQUOTE "xy" = false.
Proof.
  apply (parseCSV_values_hold_no_quote ("a" ++ nl ++ Samples.quotedXY)
           [("a", JStr "xy")] "a" "xy").
  - left. reflexivity.
  - reflexivity.
Defined.

Lemma written_cell_is_read_back_witness :
  scanLine (cellText (JStr "cat, sitting")) = ["cat, sitting"].
Proof.
  exact (written_cell_is_read_back "cat, sitting" eq_refl).
Defined.


(** ** The sinks: what ends up in the files *)

Import SingleImage SinkFactory OneShotExport LabelFolders MoreVocabulary.

Section SinkContents.
Context {N : JsNumber}.
Variable JSON_stringify : nat -> JsValue -> string.

Lemma join_cons_fold (sep x : string) (xs : list string) :
  join sep (x :: xs)
  = x ++ fold_right (fun y acc => sep ++ y ++ acc) EmptyString xs.
Proof.
  revert x. induction xs as [| y rest IH]; intros x.
  - cbn. now rewrite append_nil_r.
  - change (join sep (x :: y :: rest)) with (x ++ sep ++ join sep (y :: rest)).
    rewrite IH. cbn [fold_right]. reflexivity.
Qed.

Lemma json_writeAll_later (items : list ResultItem) :
  forall (w : StreamingJSONWriter) text,
    json_writable w = Some text -> json_isFirst w = false ->
    json_writable (json_writeAll JSON_stringify w items)
    = Some (text ++ fold_right
                      (fun y acc => ("," ++ nl) ++ y ++ acc) EmptyString
                      (map (itemText JSON_stringify (json_task w)) items)).
Proof.
  unfold json_writeAll.
  induction items as [| item rest IH]; intros w text Hw Hf.
  - cbn. now rewrite append_nil_r.
  - cbn [fold_left map fold_right]. unfold json_writeResult at 2.
    rewrite Hw, Hf. cbn [fst].
    erewrite IH; [| reflexivity | reflexivity].
    cbn [json_task]. f_equal. unfold itemText, nl.
    now rewrite !append_assoc.
Qed.

Lemma json_writeAll_first (items : list ResultItem) :
  forall (w : StreamingJSONWriter) text,
    json_writable w = Some text -> json_isFirst w = true ->
    json_writable (json_writeAll JSON_stringify w items)
    = Some (text ++ join ("," ++ nl)
                      (map (itemText JSON_stringify (json_task w)) items)).
Proof.
  intros w text Hw Hf. destruct items as [| item rest].
  - cbn. rewrite append_nil_r. exact Hw.
  - cbn [map]. rewrite join_cons_fold.
    unfold json_writeAll. cbn [fold_left]. unfold json_writeResult at 2.
    rewrite Hw, Hf. cbn [fst].
    fold (json_writeAll JSON_stringify
            {| json_fileHandle := json_fileHandle w;
               json_writable :=
                 Some (text ++ "  "
                         ++ replaceAll LF (str1 LF ++ "  ")
                              (JSON_stringify 2 (resultObject (json_task w) item)));
               json_isFirst := false; json_task := json_task w |} rest).
    erewrite json_writeAll_later; [| reflexivity | reflexivity].
    cbn [json_task]. f_equal. unfold itemText.
    now rewrite !append_assoc.
Qed.

(** X13.  The Aggregate-JSON sink frames its items as one array: after
    initialize, any number of writeResult calls and finalize, the file
    holds an opening bracket and line feed, the items' texts separated by
    a comma and line feed (no separator before the first item or after the
    last), and a line feed, closing bracket and line feed. *)
Theorem json_file_is_array_of_items :
  forall (w0 : StreamingJSONWriter) (task : JsValue) (items : list ResultItem),
    fileText (json_fileHandle
                (fst (json_finalize
                        (json_writeAll JSON_stringify
                                       (json_initialize w0 task) items))))
    = "[" ++ nl
      ++ join ("," ++ nl) (map (itemText JSON_stringify task) items)
      ++ nl ++ "]" ++ nl.
Proof.
  intros w0 task items.
  pose proof (json_writeAll_first items (json_initialize w0 task)
                ("[" ++ nl) eq_refl eq_refl) as H.
  unfold json_finalize. rewrite H. cbn [fst json_fileHandle fileText json_task
                                        json_initialize].
  unfold nl. now rewrite !append_assoc.
Qed.

(** X14.  The record the JSON sinks print has an error field exactly when
    the item's error is truthy; it always has filename, task, result and
    time, and its result is the item's rawResult when that is truthy and
    the item's result otherwise. *)
Theorem resultObject_fields :
  forall (task : JsValue) (item : ResultItem),
    exists props,
      resultObject task item = JObj props
      /\ obj_lookup props "filename" = Some (filename item)
      /\ obj_lookup props "task" = Some task
      /\ obj_lookup props "result"
         = Some (if truthy (rawResult item) then rawResult item
                 else result item)
      /\ obj_lookup props "time" = Some (time item)
      /\ obj_lookup props "error"
         = (if truthy (error item) then Some (error item) else None)
      /\ forall k, obj_has props k = true ->
                   In k ["filename"; "task"; "result"; "time"; "error"].
Proof.
  intros task item. unfold resultObject, js_or.
  assert (Hkeys : forall (o : JsObject JsValue) keys,
             map fst o = keys -> forall k, obj_has o k = true -> In k keys).
  { intros o keys <- k. unfold obj_has.
    destruct (obj_lookup o k) as [v |] eqn:E; [| discriminate].
    intros _. apply obj_lookup_In in E. now apply (in_map fst) in E. }
  destruct (truthy (error item)) eqn:T.
  - exists [("filename", filename item); ("task", task);
            ("result", if truthy (rawResult item) then rawResult item
                       else result item);
            ("time", time item); ("error", error item)].
    repeat apply conj; try reflexivity.
    apply Hkeys. reflexivity.
  - assert (E : spreadProps (error item) = []).
    { destruct (error item) as [| | b | n | s | l | o]; try reflexivity;
        cbn in T; try discriminate.
      destruct s; [reflexivity | discriminate]. }
    rewrite E.
    exists [("filename", filename item); ("task", task);
            ("result", if truthy (rawResult item) then rawResult item
                       else result item);
            ("time", time item)].
    repeat apply conj; try reflexivity.
    intros k Hk. apply (Hkeys _ _ eq_refl) in Hk. cbn in Hk |- *. tauto.
Qed.

Lemma boxRow_readable names id fname label box :
  readable box = true ->
  exists row, boxRow names id fname label box = Some row.
Proof. destruct box; cbn; try discriminate; eauto. Qed.

Lemma boxRows_enough_boxes names fname labels boxes :
  forallb readable boxes = true ->
  forall remaining i rowId,
    i + remaining <= List.length boxes ->
    exists rows,
      boxRows names fname (JArr labels) (JArr boxes) i remaining rowId
      = (rowId + remaining, Some rows)
      /\ List.length rows = remaining.
Proof.
  intros Hr. induction remaining as [| rem IH]; intros i rowId Hlen.
  - exists []. cbn. now rewrite Nat.add_0_r.
  - cbn [boxRows js_index].
    assert (Hb : readable (nth i boxes JUndefined) = true).
    { apply (proj1 (forallb_forall _ _) Hr). apply nth_In. lia. }
    destruct (boxRow_readable names rowId fname (nth i labels JUndefined)
                              _ Hb) as [row Hrow].
    rewrite Hrow.
    destruct (IH (S i) (S rowId) ltac:(lia)) as (rows & E & L).
    rewrite E. exists (row :: rows). cbn. split; [f_equal; lia | now rewrite L].
Qed.

Lemma boxRows_missing_box names fname labels boxes :
  forallb readable boxes = true ->
  forall remaining i rowId,
    i <= List.length boxes -> List.length boxes < i + remaining ->
    boxRows names fname (JArr labels) (JArr boxes) i remaining rowId
    = (rowId + (List.length boxes - i) + 1, None).
Proof.
  intros Hr. induction remaining as [| rem IH]; intros i rowId H1 H2; [lia |].
  cbn [boxRows js_index].
  destruct (Nat.eq_dec i (List.length boxes)) as [-> | Hne].
  - rewrite (nth_overflow boxes JUndefined (le_n _)). cbn. f_equal. lia.
  - assert (Hb : readable (nth i boxes JUndefined) = true).
    { apply (proj1 (forallb_forall _ _) Hr). apply nth_In. lia. }
    destruct (boxRow_readable names rowId fname (nth i labels JUndefined)
                              _ Hb) as [row Hrow].
    rewrite Hrow, (IH (S i) (S rowId)) by lia. cbn. f_equal. lia.
Qed.

(** X15.  For an axis-box detection result whose boxes are all present
    and at least as many as the labels, flattening gives one row per label
    (boxes beyond the labels are ignored), the k-th row numbered by the
    counter plus k, and the counter advances by the number of labels. *)
Theorem detection_rows_one_per_label :
  forall (rowId : nat) (item : ResultItem) (props : list (string * JsValue))
         (labels boxes : list JsValue),
    result item = JObj props ->
    obj_get props "labels" = JArr labels ->
    truthy (obj_get props "quad_boxes") = false ->
    obj_get props "bboxes" = JArr boxes ->
    forallb readable boxes = true ->
    List.length labels <= List.length boxes ->
    exists rows,
      flatten JSON_stringify rowId item
      = (rowId + List.length labels, Some rows)
      /\ List.length rows = List.length labels
      /\ forall k row, nth_error rows k = Some row ->
                       obj_get row "id" = JNum (num_of_nat (rowId + k)).
Proof.
  intros rowId item props labels boxes Hres Hl Hq Hb Hr Hlen.
  unfold flatten. rewrite Hres. unfold propOf. cbn [js_prop truthy].
  rewrite Hl, Hq, Hb. cbn [truthy andb lengthOf].
  destruct (boxRows_enough_boxes axisKeys (filename item) labels boxes Hr
              (List.length labels) 0 rowId Hlen) as (rows & E & L).
  exists rows. repeat apply conj; auto.
  destruct (boxRows_ids _ _ _ _ _ _ _ _ _ E) as (_ & _ & Hids). exact Hids.
Qed.

(** X16.  For an axis-box detection result with fewer boxes than labels
    (the boxes all present), writeResult on an open Flattened-CSV writer
    throws a TypeError and writes nothing, the header is left as it was,
    but the row counter has already advanced by the number of boxes plus
    one. *)
Theorem detection_with_missing_box_throws :
  forall (w : StreamingCSVWriter) (text : string) (item : ResultItem)
         (props : list (string * JsValue)) (labels boxes : list JsValue),
    csv_writable w = Some text ->
    result item = JObj props ->
    obj_get props "labels" = JArr labels ->
    truthy (obj_get props "quad_boxes") = false ->
    obj_get props "bboxes" = JArr boxes ->
    forallb readable boxes = true ->
    List.length boxes < List.length labels ->
    csv_writeResult JSON_stringify w item
    = ({| csv_fileHandle := csv_fileHandle w; csv_writable := Some text;
          csv_headers := csv_headers w;
          csv_rowId := csv_rowId w + List.length boxes + 1 |},
       Threw TypeErrorThrown).
Proof.
  intros w text item props labels boxes Hw Hres Hl Hq Hb Hr Hlen.
  unfold csv_writeResult. rewrite Hw.
  unfold flatten. rewrite Hres. unfold propOf. cbn [js_prop truthy].
  rewrite Hl, Hq, Hb. cbn [truthy andb lengthOf].
  rewrite (boxRows_missing_box axisKeys (filename item) labels boxes Hr
             (List.length labels) 0 (csv_rowId w)) by lia.
  now rewrite Nat.sub_0_r.
Qed.

(** X17.  After writeResult on a per-item-file writer that has a
    directory, the directory holds the file named after the item's
    filename with the extension .json, its content the printed record,
    replacing any file of that name; every other file is as it was. *)
Theorem individual_file_written :
  forall (w : StreamingIndividualWriter) (dir : DirectoryHandle)
         (item : ResultItem),
    ind_dirHandle w = Some dir ->
    exists dir',
      ind_writeResult JSON_stringify w item
      = ({| ind_dirHandle := Some dir'; ind_task := ind_task w |}, Returned)
      /\ obj_lookup dir' (ToString (filename item) ++ ".json")
         = Some (JSON_stringify 2 (resultObject (ind_task w) item))
      /\ (forall other, other <> ToString (filename item) ++ ".json" ->
                        obj_lookup dir' other = obj_lookup dir other)
      /\ (NoDup (map fst dir) -> NoDup (map fst dir')).
Proof.
  intros w dir item Hd. unfold ind_writeResult. rewrite Hd.
  eexists. repeat apply conj.
  - reflexivity.
  - apply obj_lookup_set_same.
  - intros other Hne. apply obj_lookup_set_other. congruence.
  - apply obj_set_NoDup.
Qed.

End SinkContents.

Lemma detection_rows_one_per_label_witness :
  exists rows,
    flatten Samples.sampleStringify 4 Samples.detectionItem = (5, Some rows)
    /\ List.length rows = 1
    /\ forall k row, nth_error rows k = Some row ->
                     obj_get row "id" = JNum (num_of_nat (4 + k)).
Proof.
  exact (detection_rows_one_per_label Samples.sampleStringify 4
           Samples.detectionItem
           [("labels", JArr [JStr "cat"]);
            ("bboxes", JArr [JArr [Samples.int 1; Samples.int 2;
                                   Samples.int 3; Samples.int 4]])]
           [JStr "cat"]
           [JArr [Samples.int 1; Samples.int 2; Samples.int 3; Samples.int 4]]
           eq_refl eq_refl eq_refl eq_refl eq_refl (le_n 1)).
Defined.

Lemma detection_with_missing_box_throws_witness :
  csv_writeResult Samples.sampleStringify Samples.freshCSVWriter
    (Samples.itemOf "a.jpg"
       (JObj [("labels", JArr [JStr "cat"; JStr "dog"]);
              ("bboxes", JArr [JArr [Samples.int 1; Samples.int 2;
                                     Samples.int 3; Samples.int 4]])]))
  = ({| csv_fileHandle := Samples.emptyFile; csv_writable := Some EmptyString;
        csv_headers := None; csv_rowId := 2 |}, Threw TypeErrorThrown).
Proof.
  exact (detection_with_missing_box_throws Samples.sampleStringify
           Samples.freshCSVWriter EmptyString
           (Samples.itemOf "a.jpg"
              (JObj [("labels", JArr [JStr "cat"; JStr "dog"]);
                     ("bboxes", JArr [JArr [Samples.int 1; Samples.int 2;
                                            Samples.int 3; Samples.int 4]])]))
           [("labels", JArr [JStr "cat"; JStr "dog"]);
            ("bboxes", JArr [JArr [Samples.int 1; Samples.int 2;
                                   Samples.int 3; Samples.int 4]])]
           [JStr "cat"; JStr "dog"]
           [JArr [Samples.int 1; Samples.int 2; Samples.int 3; Samples.int 4]]
           eq_refl eq_refl eq_refl eq_refl eq_refl eq_refl (le_n 2)).
Defined.

Lemma individual_file_written_witness :
  exists dir',
    ind_writeResult Samples.sampleStringify
      (newIndividualWriter (Some [("b.jpg.json", "old")])) Samples.captionItem
    = ({| ind_dirHandle := Some dir'; ind_task := JNull |}, Returned)
    /\ obj_lookup dir' "b.jpg.json" = Some "{}".
Proof.
  destruct (individual_file_written Samples.sampleStringify
              (newIndividualWriter (Some [("b.jpg.json", "old")]))
              [("b.jpg.json", "old")] Samples.captionItem eq_refl)
    as (dir' & H1 & H2 & _).
  exists dir'. split; [exact H1 | exact H2].
Defined.

(** ** The batch protocol: the messages of one run and the calls they cause *)

Section BatchProtocol.
Context {N : JsNumber}.
Variable infer : ImageData -> Inference.
Variables typeErrorMessage totalTime : JsValue.
Variable JSON_stringify : nat -> JsValue -> string.

Lemma processImage_is_result (task : string) (imageData : ImageData) :
  throwsNullish infer imageData = false ->
  exists res raw t err counted,
    processImage infer typeErrorMessage task imageData
    = Some (BatchResult (name imageData) res raw t err, counted).
Proof.
  unfold throwsNullish, processImage.
  destruct (infer imageData) as [r e | m |];
    [intros _ | intros _; do 5 eexists; reflexivity | discriminate].
  destruct (js_prop r task) as [v |]; [| do 5 eexists; reflexivity].
  destruct (truthy v && truthy (propOf v "bboxes"));
    [| do 5 eexists; reflexivity].
  destruct (flatBoxes _ _ _ _ _); do 5 eexists; reflexivity.
Qed.

Lemma catchable_cons (imageData : ImageData) (rest : list ImageData) :
  catchable infer (imageData :: rest) = true ->
  throwsNullish infer imageData = false /\ catchable infer rest = true.
Proof.
  unfold catchable. cbn [forallb]. intros H.
  apply andb_true_iff in H. destruct H as [H1 H2].
  apply negb_true_iff in H1. auto.
Qed.

Lemma catchable_In (images : list ImageData) (imageData : ImageData) :
  catchable infer images = true -> In imageData images ->
  throwsNullish infer imageData = false.
Proof.
  unfold catchable. intros H Hin.
  apply negb_true_iff. exact (proj1 (forallb_forall _ _) H _ Hin).
Qed.

Lemma forwarded_filename (task : string) (imageData : ImageData) :
  throwsNullish infer imageData = false ->
  filename (forwardedItem infer typeErrorMessage task imageData)
  = name imageData.
Proof.
  intros Hc. unfold forwardedItem.
  destruct (processImage_is_result task imageData Hc)
    as (res & raw & t & e & c & H).
  rewrite H. reflexivity.
Qed.

Lemma forwarded_failure (task : string) (imageData : ImageData)
      (message : JsValue) :
  infer imageData = InferenceThrew message ->
  forwardedItem infer typeErrorMessage task imageData
  = {| filename := name imageData; result := JUndefined;
       rawResult := JUndefined; time := JNum (num_of_nat 0);
       error := message |}.
Proof.
  intros H. unfold forwardedItem, processImage. rewrite H. reflexivity.
Qed.

Lemma batchLoop_progress (task : string) (images : list ImageData) :
  catchable infer images = true ->
  forall i total processedCount,
    progressOf (fst (batchLoop infer typeErrorMessage task images
                               i total processedCount))
    = numbered i total images
    /\ List.length (fst (batchLoop infer typeErrorMessage task images
                                   i total processedCount))
       = 2 * List.length images.
Proof.
  induction images as [| imageData rest IH]; intros Hc i total pc.
  - split; reflexivity.
  - apply catchable_cons in Hc. destruct Hc as [Hc Hrest].
    cbn [batchLoop].
    destruct (processImage_is_result task imageData Hc)
      as (res & raw & t & e & counted & Hm).
    rewrite Hm.
    specialize (IH Hrest (S i) total (if counted then S pc else pc)).
    destruct (batchLoop infer typeErrorMessage task rest (S i) total
                        (if counted then S pc else pc)) as [msgs pc'].
    cbn [fst] in IH |- *. destruct IH as [IH1 IH2]. split.
    + unfold progressOf in IH1 |- *. cbn [flat_map List.app numbered].
      now rewrite IH1.
    + cbn [List.length]. rewrite IH2. lia.
Qed.

Lemma batchLoop_count (task : string) (images : list ImageData) :
  catchable infer images = true ->
  forall i total processedCount,
    snd (batchLoop infer typeErrorMessage task images i total processedCount)
    = Some (processedCount
            + List.length
                (filter (succeeded infer typeErrorMessage task) images)).
Proof.
  induction images as [| imageData rest IH]; intros Hc i total pc.
  - cbn. f_equal. lia.
  - apply catchable_cons in Hc. destruct Hc as [Hc Hrest].
    cbn [batchLoop filter]. unfold succeeded at 1.
    destruct (processImage_is_result task imageData Hc)
      as (res & raw & t & e & counted & Hm).
    rewrite Hm.
    specialize (IH Hrest (S i) total (if counted then S pc else pc)).
    destruct (batchLoop infer typeErrorMessage task rest (S i) total
                        (if counted then S pc else pc)) as [msgs pc'].
    cbn [fst snd] in IH |- *. rewrite IH.
    destruct counted; cbn [List.length]; f_equal; lia.
Qed.

Lemma progressOf_app (msgs1 msgs2 : list WorkerMessage) :
  progressOf (msgs1 ++ msgs2)%list = (progressOf msgs1 ++ progressOf msgs2)%list.
Proof. unfold progressOf. apply flat_map_app. Qed.

(** X18.  When nothing inference throws is null or undefined, a batch of
    N images posts 2N+1 messages, and its progress messages count 1, 2,
    ..., N, each with total N and the name of its image, in input order,
    whether the images succeed or fail. *)
Theorem batch_progress_counts_up :
  forall (images : list ImageData) (task : string),
    catchable infer images = true ->
    progressOf (runBatch infer typeErrorMessage totalTime images task)
    = numbered 0 (List.length images) images
    /\ List.length (runBatch infer typeErrorMessage totalTime images task)
       = 2 * List.length images + 1.
Proof.
  intros images task Hc. unfold runBatch.
  destruct (batchLoop_progress task images Hc 0 (List.length images) 0)
    as [H1 H2].
  pose proof (batchLoop_count task images Hc 0 (List.length images) 0) as H3.
  destruct (batchLoop infer typeErrorMessage task images 0
                      (List.length images) 0) as [msgs pc].
  cbn [fst snd] in H1, H2, H3. subst pc. split.
  - rewrite progressOf_app, H1. cbn. apply app_nil_r.
  - rewrite length_app, H2. cbn [List.length]. lia.
Qed.

(** X19.  When nothing inference throws is null or undefined, the last
    message of a batch is batch-complete, and its total is the number of
    images whose iteration did not throw, not the number of images; an
    image whose inference throws is not counted. *)
Theorem batch_complete_counts_successes :
  forall (images : list ImageData) (task : string),
    catchable infer images = true ->
    exists msgs,
      runBatch infer typeErrorMessage totalTime images task
      = (msgs ++ [BatchComplete
                    (List.length
                       (filter (succeeded infer typeErrorMessage task) images))
                    totalTime])%list
      /\ List.length (filter (succeeded infer typeErrorMessage task) images)
         <= List.length images
      /\ forall imageData message,
           infer imageData = InferenceThrew message ->
           succeeded infer typeErrorMessage task imageData = false.
Proof.
  intros images task Hcatch. unfold runBatch.
  pose proof (batchLoop_count task images Hcatch 0 (List.length images) 0)
    as Hc.
  destruct (batchLoop infer typeErrorMessage task images 0
                      (List.length images) 0) as [msgs pc].
  cbn [snd] in Hc. subst pc. exists msgs. repeat apply conj.
  - reflexivity.
  - apply filter_length_le.
  - intros imageData message Hthrow. unfold succeeded, processImage.
    now rewrite Hthrow.
Qed.

Lemma deliver_batchLoop_calls (task : string) (images : list ImageData) :
  catchable infer images = true ->
  forall st w i total processedCount,
    streamingWriter st = Some w ->
    let out := deliver JSON_stringify st
                 (fst (batchLoop infer typeErrorMessage task images
                                 i total processedCount)) in
    snd out
    = map (fun imageData =>
             CallWriteResult
               (forwardedItem infer typeErrorMessage task imageData)) images
    /\ exists w', streamingWriter (fst out) = Some w'.
Proof.
  induction images as [| imageData rest IH]; intros Hc st w i total pc Hw.
  - simpl. split; [reflexivity | eauto].
  - apply catchable_cons in Hc. destruct Hc as [Hc Hrest].
    cbn [batchLoop].
    destruct (processImage_is_result task imageData Hc)
      as (res & raw & t & e & counted & Hp).
    rewrite Hp.
    destruct (batchLoop infer typeErrorMessage task rest (S i) total
                        (if counted then S pc else pc)) as [msgs pc'] eqn:Hl.
    cbn [fst deliver onMessageReceived streamingWriter]. rewrite Hw.
    set (app1 := {| streamingWriter := Some _ |}).
    specialize (IH Hrest app1 _ (S i) total (if counted then S pc else pc)
                   eq_refl).
    rewrite Hl in IH. cbn [fst] in IH.
    destruct (deliver JSON_stringify app1 msgs) as [app2 calls2] eqn:Hd.
    cbn [fst snd] in IH |- *. destruct IH as [IH1 IH2].
    split; [| exact IH2].
    cbn [List.app map]. rewrite IH1.
    unfold forwardedItem. rewrite Hp. reflexivity.
Qed.

Lemma deliver_app_state st msgs1 msgs2 :
  deliver JSON_stringify st (msgs1 ++ msgs2)%list
  = (fst (deliver JSON_stringify
            (fst (deliver JSON_stringify st msgs1)) msgs2),
     (snd (deliver JSON_stringify st msgs1)
        ++ snd (deliver JSON_stringify
                  (fst (deliver JSON_stringify st msgs1)) msgs2))%list).
Proof.
  revert st. induction msgs1 as [| m rest IH]; intros st.
  - simpl. destruct (deliver JSON_stringify st msgs2); reflexivity.
  - cbn [deliver List.app].
    destruct (onMessageReceived JSON_stringify st m) as [app1 calls1].
    rewrite (IH app1).
    destruct (deliver JSON_stringify app1 rest) as [a1 c1].
    cbn [fst snd]. now rewrite app_assoc.
Qed.

Lemma finalize_returns (w : Writer) : snd (finalize w) = Returned.
Proof.
  destruct w as [j | c | d]; cbn.
  - unfold json_finalize. now destruct (json_writable j).
  - unfold csv_finalize. now destruct (csv_writable c).
  - reflexivity.
Qed.

(** The calls a complete batch causes when a writer is in place, and the
    state it leaves. *)
Lemma deliver_runBatch (app : AppState) (w : Writer)
      (images : list ImageData) (task : string) :
  catchable infer images = true ->
  streamingWriter app = Some w ->
  let out := deliver JSON_stringify app
               (runBatch infer typeErrorMessage totalTime images task) in
  snd out
  = (map (fun imageData =>
            CallWriteResult
              (forwardedItem infer typeErrorMessage task imageData)) images
       ++ [CallFinalize])%list
  /\ streamingWriter (fst out) = None
  /\ status (fst out) = "ready"
  /\ processingStats (fst out)
     = Some (List.length
               (filter (succeeded infer typeErrorMessage task) images),
             totalTime).
Proof.
  intros Hcatch Hw. cbv zeta. unfold runBatch.
  pose proof (deliver_batchLoop_calls task images Hcatch app w 0
                (List.length images) 0 Hw) as H.
  pose proof (batchLoop_count task images Hcatch 0 (List.length images) 0)
    as Hc.
  destruct (batchLoop infer typeErrorMessage task images 0
                      (List.length images) 0) as [msgs pc].
  cbn [fst snd] in H, Hc. cbv zeta in H. destruct H as [H1 [w' H2]].
  subst pc. rewrite deliver_app_state. cbn [fst snd]. rewrite H1.
  cbn [deliver onMessageReceived]. rewrite H2.
  cbn [fst snd]. rewrite (finalize_returns w').
  repeat apply conj; reflexivity.
Qed.

(** X20.  When a writer is in place and nothing inference throws is null
    or undefined, the messages of a batch of N images make the handler
    call writeResult N times, once per image in input order, and then
    finalize exactly once, as the last call; afterwards the writer is
    released, the status is ready and the statistics hold the count
    reported by the worker. *)
Theorem batch_calls_end_with_one_finalize :
  forall (app : AppState) (w : Writer) (images : list ImageData)
         (task : string),
    streamingWriter app = Some w ->
    catchable infer images = true ->
    let out := deliver JSON_stringify app
                 (runBatch infer typeErrorMessage totalTime images task) in
    snd out
    = (map (fun imageData =>
              CallWriteResult
                (forwardedItem infer typeErrorMessage task imageData)) images
         ++ [CallFinalize])%list
    /\ streamingWriter (fst out) = None
    /\ status (fst out) = "ready"
    /\ processingStats (fst out)
       = Some (List.length
                 (filter (succeeded infer typeErrorMessage task) images),
               totalTime).
Proof.
  intros app w images task Hw Hcatch.
  exact (deliver_runBatch app w images task Hcatch Hw).
Qed.

(** X21.  When no writer is in place and nothing inference throws is null
    or undefined, the messages of a batch cause no sink call at all, and
    the status still ends as ready. *)
Theorem batch_without_writer_makes_no_call :
  forall (app : AppState) (images : list ImageData) (task : string),
    streamingWriter app = None ->
    catchable infer images = true ->
    let out := deliver JSON_stringify app
                 (runBatch infer typeErrorMessage totalTime images task) in
    snd out = []
    /\ streamingWriter (fst out) = None
    /\ status (fst out) = "ready"
    /\ processingStats (fst out) = processingStats app.
Proof.
  intros app images task Hw Hcatch. cbv zeta.
  assert (Hgen : forall msgs st,
             streamingWriter st = None ->
             snd (deliver JSON_stringify st msgs) = []
             /\ streamingWriter (fst (deliver JSON_stringify st msgs)) = None
             /\ processingStats (fst (deliver JSON_stringify st msgs))
                = processingStats st
             /\ (status (fst (deliver JSON_stringify st msgs)) = "ready"
                 \/ status (fst (deliver JSON_stringify st msgs)) = status st)).
  { induction msgs as [| m rest IH]; intros st Hst.
    - cbn. auto.
    - cbn [deliver].
      destruct (onMessageReceived JSON_stringify st m) as [st1 calls1] eqn:E.
      assert (H1 : calls1 = [] /\ streamingWriter st1 = None
                   /\ processingStats st1 = processingStats st
                   /\ (status st1 = "ready" \/ status st1 = status st)).
      { destruct m; cbn in E; try rewrite Hst in E; injection E as <- <-;
          cbn; auto. }
      destruct H1 as (-> & Hs1 & Hp1 & Ht1).
      destruct (IH st1 Hs1) as (Ha & Hb & Hc & Hd).
      destruct (deliver JSON_stringify st1 rest) as [st2 calls2].
      cbn [fst snd] in *. repeat apply conj; auto; try congruence.
      destruct Hd as [Hd | Hd]; [auto | rewrite Hd; auto]. }
  unfold runBatch.
  pose proof (batchLoop_count task images Hcatch 0 (List.length images) 0)
    as Hn.
  destruct (batchLoop infer typeErrorMessage task images 0
                      (List.length images) 0) as [msgs pc].
  cbn [snd] in Hn. subst pc.
  rewrite deliver_app_state. cbn [fst snd].
  destruct (Hgen msgs app Hw) as (Ha & Hb & Hc & _).
  rewrite Ha. cbn [deliver onMessageReceived]. rewrite Hb. cbn.
  repeat apply conj; auto.
Qed.

(** X31.  When a writer is in place and nothing inference throws is null
    or undefined, a batch of N images one of which makes inference throw
    still hands N items to writeResult, one per image in input order; the
    item of the throwing image carries the thrown message in its error
    field, time 0 and no result. *)
Theorem batch_forwards_every_item :
  forall (app : AppState) (w : Writer) (images : list ImageData)
         (task : string) (k : nat) (imageData : ImageData) (message : JsValue),
    streamingWriter app = Some w ->
    catchable infer images = true ->
    nth_error images k = Some imageData ->
    infer imageData = InferenceThrew message ->
    let items :=
      writtenItems (snd (deliver JSON_stringify app
                           (runBatch infer typeErrorMessage totalTime
                                     images task))) in
    List.length items = List.length images
    /\ map filename items = map name images
    /\ nth_error items k
       = Some {| filename := name imageData; result := JUndefined;
                 rawResult := JUndefined; time := JNum (num_of_nat 0);
                 error := message |}.
Proof.
  intros app w images task k imageData message Hw Hcatch Hk Hthrow.
  cbv zeta.
  destruct (deliver_runBatch app w images task Hcatch Hw) as [Hcalls _].
  rewrite Hcalls. unfold writtenItems. rewrite flat_map_app.
  cbn [flat_map]. rewrite app_nil_r.
  assert (E : flat_map (fun c => match c with
                                 | CallWriteResult item => [item]
                                 | CallFinalize => []
                                 end)
                       (map (fun imageData0 =>
                               CallWriteResult
                                 (forwardedItem infer typeErrorMessage task
                                                imageData0)) images)
              = map (forwardedItem infer typeErrorMessage task) images).
  { clear. induction images as [| a rest IH]; cbn; [reflexivity |].
    now rewrite IH. }
  rewrite E. repeat apply conj.
  - apply length_map.
  - rewrite map_map. apply map_ext_in. intros a Ha.
    apply forwarded_filename. exact (catchable_In images a Hcatch Ha).
  - rewrite nth_error_map, Hk. cbn [option_map].
    now rewrite (forwarded_failure task imageData message Hthrow).
Qed.

End BatchProtocol.

(** C3.  The claim fails on the code where inference throws null or
    undefined: in the batch of the three images a.jpg, bad.jpg and c.jpg
    whose second image makes inference throw null, the catch block's
    [error.message] throws in its turn and the loop is left.  The worker
    posts the progress and the result of a.jpg and the progress of
    bad.jpg, and nothing more: no result for bad.jpg, nothing for c.jpg
    and no batch-complete; the handler calls writeResult once, for a.jpg,
    instead of three times, and never calls finalize. *)
Theorem C3_thrown_null_aborts_batch :
  progressOf
    (runBatch Samples.nullThrowingInfer (JStr "TypeError") (Samples.int 21)
              Samples.sampleImages "<OD>")
  = [(1, 3, JStr "a.jpg"); (2, 3, JStr "bad.jpg")]
  /\ List.length
       (runBatch Samples.nullThrowingInfer (JStr "TypeError") (Samples.int 21)
                 Samples.sampleImages "<OD>") = 3
  /\ existsb isComplete
       (runBatch Samples.nullThrowingInfer (JStr "TypeError") (Samples.int 21)
                 Samples.sampleImages "<OD>") = false
  /\ snd (deliver Samples.sampleStringify Samples.runningApp
            (runBatch Samples.nullThrowingInfer (JStr "TypeError")
                      (Samples.int 21) Samples.sampleImages "<OD>"))
     = [CallWriteResult
          (forwardedItem Samples.nullThrowingInfer (JStr "TypeError") "<OD>"
                         {| name := JStr "a.jpg"; url := JStr "blob:a" |})]
  /\ map filename
         (writtenItems
            (snd (deliver Samples.sampleStringify Samples.runningApp
                    (runBatch Samples.nullThrowingInfer (JStr "TypeError")
                              (Samples.int 21) Samples.sampleImages "<OD>"))))
     = [JStr "a.jpg"].
Proof.
  destruct (processImage_is_result Samples.nullThrowingInfer
              (JStr "TypeError") "<OD>"
              {| name := JStr "a.jpg"; url := JStr "blob:a" |} eq_refl)
    as (res & raw & t & e & counted & Ha).
  assert (Hrun : runBatch Samples.nullThrowingInfer (JStr "TypeError")
                          (Samples.int 21) Samples.sampleImages "<OD>"
                 = [BatchProgress 1 3 (JStr "a.jpg");
                    BatchResult (JStr "a.jpg") res raw t e;
                    BatchProgress 2 3 (JStr "bad.jpg")]).
  { unfold runBatch, Samples.sampleImages. cbn [batchLoop List.length].
    rewrite Ha. reflexivity. }
  assert (Hcalls : snd (deliver Samples.sampleStringify Samples.runningApp
                          [BatchProgress 1 3 (JStr "a.jpg");
                           BatchResult (JStr "a.jpg") res raw t e;
                           BatchProgress 2 3 (JStr "bad.jpg")])
                   = [CallWriteResult
                        {| filename := JStr "a.jpg"; result := res;
                           rawResult := raw; time := t; error := e |}]).
  { reflexivity. }
  unfold forwardedItem. rewrite Hrun, Hcalls, Ha.
  repeat apply conj; reflexivity.
Qed.

Lemma batch_progress_counts_up_witness :
  progressOf (runBatch Samples.sampleInfer (JStr "TypeError") (Samples.int 21)
                       Samples.sampleImages "<OD>")
  = [(1, 3, JStr "a.jpg"); (2, 3, JStr "bad.jpg"); (3, 3, JStr "c.jpg")]
  /\ List.length (runBatch Samples.sampleInfer (JStr "TypeError")
                           (Samples.int 21) Samples.sampleImages "<OD>")
     = 7.
Proof.
  exact (batch_progress_counts_up Samples.sampleInfer (JStr "TypeError")
           (Samples.int 21) Samples.sampleImages "<OD>" eq_refl).
Defined.

Lemma batch_complete_counts_successes_witness :
  exists msgs,
    runBatch Samples.sampleInfer (JStr "TypeError") (Samples.int 21)
             Samples.sampleImages "<OD>"
    = (msgs ++ [BatchComplete 2 (Samples.int 21)])%list.
Proof.
  destruct (batch_complete_counts_successes Samples.sampleInfer
              (JStr "TypeError") (Samples.int 21) Samples.sampleImages "<OD>"
              eq_refl) as (msgs & H & _).
  exists msgs. exact H.
Defined.

Lemma batch_calls_end_with_one_finalize_witness :
  let out := deliver Samples.sampleStringify Samples.runningApp
               (runBatch Samples.sampleInfer (JStr "TypeError")
                         (Samples.int 21) Samples.sampleImages "<OD>") in
  List.length (snd out) = 4
  /\ nth_error (snd out) 3 = Some CallFinalize
  /\ streamingWriter (fst out) = None
  /\ processingStats (fst out) = Some (2, Samples.int 21).
Proof.
  destruct (batch_calls_end_with_one_finalize Samples.sampleInfer
              (JStr "TypeError") (Samples.int 21) Samples.sampleStringify
              Samples.runningApp (CSVWriter Samples.freshCSVWriter)
              Samples.sampleImages "<OD>" eq_refl eq_refl)
    as (H1 & H2 & _ & H4).
  cbv zeta. rewrite H1. repeat apply conj.
  - reflexivity.
  - reflexivity.
  - exact H2.
  - exact H4.
Defined.

Lemma batch_without_writer_makes_no_call_witness :
  let app := {| streamingWriter := None; batchProgress := None;
                processingStats := None; status := "running" |} in
  let out := deliver Samples.sampleStringify app
               (runBatch Samples.sampleInfer (JStr "TypeError")
                         (Samples.int 21) Samples.sampleImages "<OD>") in
  snd out = [] /\ status (fst out) = "ready".
Proof.
  destruct (batch_without_writer_makes_no_call Samples.sampleInfer
              (JStr "TypeError") (Samples.int 21) Samples.sampleStringify
              {| streamingWriter := None; batchProgress := None;
                 processingStats := None; status := "running" |}
              Samples.sampleImages "<OD>" eq_refl eq_refl)
    as (H1 & _ & H3 & _).
  split; [exact H1 | exact H3].
Defined.

Lemma batch_forwards_every_item_witness :
  let items :=
    writtenItems (snd (deliver Samples.sampleStringify Samples.runningApp
                         (runBatch Samples.sampleInfer (JStr "TypeError")
                                   (Samples.int 21) Samples.sampleImages "<OD>"))) in
  List.length items = 3
  /\ map filename items = map name Samples.sampleImages
  /\ nth_error items 1
     = Some {| filename := JStr "bad.jpg"; result := JUndefined;
               rawResult := JUndefined; time := JNum (num_of_nat 0);
               error := JStr "decode failed" |}.
Proof.
  exact (batch_forwards_every_item Samples.sampleInfer (JStr "TypeError")
           (Samples.int 21) Samples.sampleStringify Samples.runningApp
           (CSVWriter Samples.freshCSVWriter) Samples.sampleImages "<OD>" 1
           {| name := JStr "bad.jpg"; url := JStr "blob:bad" |}
           (JStr "decode failed") eq_refl eq_refl eq_refl eq_refl).
Defined.

(** ** The factory, the one-shot export and the label folders *)

Section FurtherSinks.
Context {N : JsNumber}.
Variable JSON_stringify : nat -> JsValue -> string.

(** X22.  A writer the factory returns is initialised: writeResult on it
    never throws the not-initialised error, whatever the item, and the
    format was one of json, csv and individual. *)
Theorem created_writer_is_initialised :
  forall (format : string) (task : JsValue)
         (saveFilePicker : Picked FileHandle)
         (directoryPicker : Picked DirectoryHandle)
         (w : Writer) (item : ResultItem),
    createStreamingWriter format task saveFilePicker directoryPicker
    = Ready w ->
    snd (writeResult JSON_stringify w item) <> WriterNotInitialized
    /\ In format ["json"; "csv"; "individual"].
Proof.
  intros format task fp dp w item H. unfold createStreamingWriter in H.
  destruct (String.eqb_spec format "json") as [-> | _].
  - destruct fp as [fh |]; [| discriminate]. injection H as <-.
    split; [cbn; discriminate | cbn; tauto].
  - destruct (String.eqb_spec format "csv") as [-> | _].
    + destruct fp as [fh |]; [| discriminate]. injection H as <-.
      split; [| cbn; tauto].
      cbn [writeResult]. unfold csv_writeResult, csv_initialize.
      cbn [csv_writable csv_rowId].
      destruct (flatten JSON_stringify 0 item) as [rowId' [rows |]].
      * destruct (writeRows _ rows). cbn. discriminate.
      * cbn. discriminate.
    + destruct (String.eqb_spec format "individual") as [-> | _];
        [| discriminate].
      destruct dp as [dh |]; [| discriminate]. injection H as <-.
      split; [cbn; discriminate | cbn; tauto].
Qed.

Lemma trim_app_ws (a : string) (c : ascii) :
  isWhiteSpace c = true -> trim (a ++ str1 c) = trim a.
Proof.
  intros W. unfold trim. induction a as [| d a IH].
  - cbn. now rewrite W.
  - cbn [append trimStart]. destruct (isWhiteSpace d); [exact IH |].
    change (String d (a ++ str1 c)) with (String d a ++ str1 c).
    now apply trimEnd_app_ws.
Qed.

(** X23.  The one-shot CSV export writes what the Flattened-CSV sink
    writes for the same rows, less the final line feed; so the two files
    read back through parseCSV as the same records. *)
Theorem saveCSVFile_matches_streaming :
  forall (data : list (JsObject JsValue)) (fileHandle file : FileHandle),
    saveCSVFile data (Chosen fileHandle) = SavedTo file ->
    fileText file ++ nl = serializeRows data
    /\ parseCSV (fileText file) = parseCSV (serializeRows data).
Proof.
  intros data fileHandle file H. unfold saveCSVFile in H.
  destruct data as [| first rest]; [discriminate |].
  injection H as <-. cbn [fileText].
  assert (E : csvContent (first :: rest) ++ nl
              = serializeRows (first :: rest)).
  { rewrite serializeRows_text. reflexivity. }
  split; [exact E |].
  rewrite <- E. unfold parseCSV, nl. now rewrite trim_app_ws.
Qed.

End FurtherSinks.

Lemma created_writer_is_initialised_witness :
  snd (writeResult Samples.sampleStringify
         (CSVWriter Samples.freshCSVWriter) Samples.captionItem)
  <> WriterNotInitialized
  /\ In "csv" ["json"; "csv"; "individual"].
Proof.
  exact (created_writer_is_initialised Samples.sampleStringify "csv" JNull
           (Chosen Samples.emptyFile) Cancelled
           (CSVWriter Samples.freshCSVWriter) Samples.captionItem eq_refl).
Defined.

Lemma saveCSVFile_matches_streaming_witness :
  fileText {| fileText := csvContent MoreSamples.twoRows |} ++ nl
  = serializeRows MoreSamples.twoRows
  /\ parseCSV (csvContent MoreSamples.twoRows)
     = parseCSV (serializeRows MoreSamples.twoRows).
Proof.
  exact (saveCSVFile_matches_streaming MoreSamples.twoRows Samples.emptyFile
           {| fileText := csvContent MoreSamples.twoRows |} eq_refl).
Defined.

Section FoldersByLabel.
Context {N : JsNumber}.
Variable directoryFor : string -> bool.
Variable writeImage : string -> JsObject JsValue -> bool.

Lemma saveItems_total (label : string) (items : list (JsObject JsValue)) :
  forall st : nat * nat,
    fst (saveItems writeImage label st items)
    + snd (saveItems writeImage label st items)
    = fst st + snd st + List.length items.
Proof.
  induction items as [| item rest IH]; intros [saved failed].
  - cbn. lia.
  - cbn [saveItems]. rewrite IH.
    destruct (writeImage label item); cbn; lia.
Qed.

Lemma saveGroups_total (groups : list (string * list (JsObject JsValue))) :
  forall st : nat * nat,
    fst (fold_left (saveGroup directoryFor writeImage) groups st)
    + snd (fold_left (saveGroup directoryFor writeImage) groups st)
    = fst st + snd st + totalRows groups.
Proof.
  induction groups as [| [label items] rest IH]; intros st.
  - cbn. lia.
  - cbn [fold_left]. rewrite IH. unfold totalRows. cbn [map list_sum snd].
    unfold saveGroup. destruct (directoryFor label).
    + rewrite saveItems_total. unfold list_sum. cbn [fold_right]. lia.
    + unfold list_sum. cbn [fst snd fold_right]. lia.
Qed.

Lemma groupByLabel_total (croppedImages : list (JsObject JsValue)) :
  forall g g' : JsObject (list (JsObject JsValue)),
    NoDup (map fst g) ->
    groupByLabel g croppedImages = Some g' ->
    NoDup (map fst g')
    /\ totalRows g' = totalRows g + List.length croppedImages.
Proof.
  induction croppedImages as [| item rest IH]; intros g g' Hnd H.
  - cbn in H. injection H as <-. split; [exact Hnd | cbn; lia].
  - cbn [groupByLabel] in H.
    destruct (groupItem g item) as [g1 |] eqn:E; [| discriminate].
    unfold groupItem in E.
    destruct (obj_lookup g (ToString (obj_get item "label")))
      as [old |] eqn:L.
    + injection E as <-.
      destruct (IH _ g' (obj_set_NoDup _ _ _ Hnd) H) as [H1 H2].
      split; [exact H1 |].
      pose proof (totalRows_set_old g _ old (old ++ [item])%list L) as Ht.
      rewrite length_app in Ht. cbn [List.length] in *. lia.
    + destruct (inherited _); [discriminate |]. injection E as <-.
      destruct (IH _ g' (obj_set_NoDup _ _ _ Hnd) H) as [H1 H2].
      split; [exact H1 |].
      rewrite totalRows_set_new in H2 by exact L. cbn [List.length] in *. lia.
Qed.

Lemma groupByLabel_plain (croppedImages : list (JsObject JsValue)) :
  forallb (fun item => negb (inherited (labelKey item))) croppedImages = true ->
  forall g, exists g', groupByLabel g croppedImages = Some g'.
Proof.
  induction croppedImages as [| item rest IH]; intros Hp g.
  - cbn. eauto.
  - cbn [forallb] in Hp. apply andb_true_iff in Hp. destruct Hp as [Hi Hr].
    cbn [groupByLabel]. unfold groupItem. fold (labelKey item).
    destruct (obj_lookup g (labelKey item)); [now apply IH |].
    apply negb_true_iff in Hi. rewrite Hi. now apply IH.
Qed.

Lemma groupByLabel_own_keys (croppedImages : list (JsObject JsValue)) :
  forall g g' : JsObject (list (JsObject JsValue)),
    Forall (fun k => inherited k = false) (map fst g) ->
    groupByLabel g croppedImages = Some g' ->
    forallb (fun item => negb (inherited (labelKey item))) croppedImages = true.
Proof.
  induction croppedImages as [| item rest IH]; intros g g' Hg H.
  - reflexivity.
  - cbn [groupByLabel] in H.
    destruct (groupItem g item) as [g1 |] eqn:E; [| discriminate].
    unfold groupItem in E. fold (labelKey item) in E.
    cbn [forallb]. apply andb_true_iff.
    destruct (obj_lookup g (labelKey item)) as [old |] eqn:L.
    + injection E as <-. split.
      * apply obj_lookup_In in L. apply (in_map fst) in L. cbn [fst] in L.
        now rewrite (proj1 (Forall_forall _ _) Hg _ L).
      * refine (IH _ g' _ H).
        apply Forall_forall. intros k Hk.
        rewrite obj_set_keys in Hk.
        destruct (obj_has g (labelKey item)) eqn:Hh.
        -- now apply (proj1 (Forall_forall _ _) Hg).
        -- unfold obj_has in Hh. now rewrite L in Hh.
    + destruct (inherited (labelKey item)) eqn:Hi; [discriminate |].
      injection E as <-. split; [reflexivity |].
      refine (IH _ g' _ H).
      apply Forall_forall. intros k Hk.
      rewrite obj_set_keys in Hk.
      destruct (obj_has g (labelKey item)) eqn:Hh.
      * now apply (proj1 (Forall_forall _ _) Hg).
      * apply in_app_or in Hk. destruct Hk as [Hk | [<- | []]]; [| exact Hi].
        now apply (proj1 (Forall_forall _ _) Hg).
Qed.

(** X24.  When no label is a name that plain objects inherit,
    saveCroppedImages returns, and every image is accounted for once:
    saved plus failed is the number of images, whichever folders cannot be
    created and whichever files cannot be written. *)
Theorem saveCroppedImages_accounts_for_every_image :
  forall croppedImages : list (JsObject JsValue),
    forallb (fun item => negb (inherited (labelKey item))) croppedImages
    = true ->
    exists saved failed,
      saveCroppedImages directoryFor writeImage croppedImages
      = Some (saved, failed)
      /\ saved + failed = List.length croppedImages.
Proof.
  intros croppedImages Hp. unfold saveCroppedImages.
  destruct (groupByLabel_plain croppedImages Hp []) as [g Hg].
  rewrite Hg.
  destruct (groupByLabel_total croppedImages [] g (NoDup_nil _) Hg)
    as [Hnd Ht].
  pose proof (saveGroups_total (Object_entries g) (0, 0)) as Hs.
  rewrite (totalRows_perm _ _ (Object_entries_perm g Hnd)), Ht in Hs.
  destruct (fold_left _ (Object_entries g) (0, 0)) as [saved failed].
  exists saved, failed. split; [reflexivity |].
  cbn [fst snd] in Hs. cbn in Hs. lia.
Qed.

(** X25.  When some image's label is a name that plain objects inherit
    (constructor, toString, ...), saveCroppedImages throws while grouping
    and saves nothing; otherwise it returns. *)
Theorem saveCroppedImages_throws_on_inherited_label :
  forall croppedImages : list (JsObject JsValue),
    saveCroppedImages directoryFor writeImage croppedImages = None
    <-> existsb (fun item => inherited (labelKey item)) croppedImages = true.
Proof.
  intros croppedImages. unfold saveCroppedImages. split.
  - intros H.
    destruct (existsb (fun item => inherited (labelKey item)) croppedImages)
      eqn:E; [reflexivity |].
    assert (Hp : forallb (fun item => negb (inherited (labelKey item)))
                         croppedImages = true).
    { apply forallb_forall. intros item Hi. apply negb_true_iff.
      destruct (inherited (labelKey item)) eqn:Hin; [| reflexivity].
      assert (Hex : existsb (fun item => inherited (labelKey item))
                            croppedImages = true).
      { apply existsb_exists. exists item. auto. }
      congruence. }
    destruct (groupByLabel_plain croppedImages Hp []) as [g Hg].
    rewrite Hg in H. discriminate.
  - intros H. destruct (groupByLabel [] croppedImages) as [g |] eqn:Hg;
                [| reflexivity].
    pose proof (groupByLabel_own_keys croppedImages [] g (Forall_nil _) Hg)
      as Hp.
    apply existsb_exists in H. destruct H as (item & Hi & Hin).
    pose proof (proj1 (forallb_forall _ _) Hp item Hi) as Hn.
    cbv beta in Hn. rewrite Hin in Hn. discriminate.
Qed.

End FoldersByLabel.

Lemma saveCroppedImages_accounts_for_every_image_witness :
  exists saved failed,
    saveCroppedImages (fun label => negb (label =? "dog"))
                      (fun label item => true)
                      [MoreSamples.croppedCat; MoreSamples.croppedDog]
    = Some (saved, failed)
    /\ saved + failed = 2.
Proof.
  exact (saveCroppedImages_accounts_for_every_image
           (fun label => negb (label =? "dog")) (fun label item => true)
           [MoreSamples.croppedCat; MoreSamples.croppedDog] eq_refl).
Defined.

(** ** The single-image worker: the cached vision inputs *)

Section VisionCache.
Context {N : JsNumber}.
Variable VisionInputs : Type.
Variable loadVision : string -> VisionInputs.
Variable generate : string -> string -> VisionInputs -> JsValue.

Lemma handleAll_cached (reqs : list Request) (url : string) :
  forallb isRun reqs = true ->
  handleAll _ loadVision generate (Some (loadVision url)) reqs
  = (Some (loadVision url),
     flat_map (answerFor _ loadVision generate url) reqs).
Proof.
  induction reqs as [| req rest IH]; intros H.
  - reflexivity.
  - cbn [forallb] in H. apply andb_true_iff in H. destruct H as [Hr Hrest].
    destruct req as [text url' task |]; [| discriminate].
    cbn [handleAll handle run]. rewrite (IH Hrest). reflexivity.
Qed.

(** X26.  The worker looks at an image only when its cache is empty: in a
    sequence of run requests starting from an empty cache, every request
    is answered from the image of the first request, whatever url the
    later ones carry; and after a reset request the next run loads its own
    image, whatever was cached before. *)
Theorem runs_reuse_image_until_reset :
  forall (text url task : string) (reqs : list Request),
    forallb isRun reqs = true ->
    snd (handleAll _ loadVision generate None (Run text url task :: reqs))
    = flat_map (answerFor _ loadVision generate url) (Run text url task :: reqs)
    /\ forall cache,
         snd (handleAll _ loadVision generate cache
                        (Reset :: Run text url task :: reqs))
         = flat_map (answerFor _ loadVision generate url)
                    (Run text url task :: reqs).
Proof.
  intros text url task reqs H.
  assert (E : snd (handleAll _ loadVision generate None
                             (Run text url task :: reqs))
              = flat_map (answerFor _ loadVision generate url)
                         (Run text url task :: reqs)).
  { cbn [handleAll handle run]. rewrite (handleAll_cached reqs url H).
    reflexivity. }
  split; [exact E |].
  intros cache. cbn [handleAll handle run].
  rewrite (handleAll_cached reqs url H). reflexivity.
Qed.

End VisionCache.

Lemma runs_reuse_image_until_reset_witness :
  snd (handleAll _ MoreSamples.sampleLoad MoreSamples.sampleGenerate None
         [Run "" "blob:a" "<OD>"; Run "" "blob:b" "<OD>"])
  = [JStr "<OD> on vision of blob:a"; JStr "<OD> on vision of blob:a"].
Proof.
  exact (proj1 (runs_reuse_image_until_reset string MoreSamples.sampleLoad
                  MoreSamples.sampleGenerate "" "blob:a" "<OD>"
                  [Run "" "blob:b" "<OD>"] eq_refl)).
Defined.

(** ** Cropping: progress and attempts *)

Section CroppingRun.
Context {N : JsNumber}.
Variable loadImageToCanvas : ImageFile -> bool.
Variable cropAndSave : ImageFile -> string -> JsObject JsValue -> JsValue -> bool.

Lemma processRecord_trace imageFile fname (r : Report) index bbox :
  let r' := processRecord cropAndSave imageFile fname r index bbox in
  progress r' = progress r
  /\ (exists extra,
         attempts r' = (attempts r ++ extra)%list
         /\ Forall (fun a => fst a = fname) extra
         /\ saved r' + failed r'
            = saved r + failed r + List.length extra
         /\ saved r' <= saved r + List.length extra)
  /\ saved r <= saved r' /\ failed r <= failed r'.
Proof.
  unfold processRecord.
  destruct (num_ltb _ _).
  { cbn. repeat apply conj; auto. exists []. rewrite app_nil_r.
    repeat apply conj; auto; cbn; lia. }
  destruct (if isQuad bbox then _ else _) as [coords |].
  - destruct (cropAndSave _ _ _ _); cbn; repeat apply conj; auto;
      eexists [_]; repeat apply conj; try reflexivity; cbn; auto; lia.
  - cbn. repeat apply conj; auto. exists []. rewrite app_nil_r.
    repeat apply conj; auto; cbn; lia.
Qed.

Lemma processRecords_trace imageFile fname bboxes :
  forall (r : Report) index,
    let r' := processRecords cropAndSave imageFile fname r index bboxes in
    progress r' = progress r
    /\ (exists extra,
           attempts r' = (attempts r ++ extra)%list
           /\ Forall (fun a => fst a = fname) extra
           /\ saved r' + failed r'
              = saved r + failed r + List.length extra
           /\ saved r' <= saved r + List.length extra)
    /\ saved r <= saved r' /\ failed r <= failed r'.
Proof.
  induction bboxes as [| bbox rest IH]; intros r index.
  - cbn. repeat apply conj; auto. exists []. rewrite app_nil_r.
    repeat apply conj; auto; cbn; lia.
  - cbn [processRecords]. cbv zeta.
    destruct (processRecord_trace imageFile fname r index bbox)
      as (P1 & (e1 & A1 & F1 & S1 & B1) & M1 & M1').
    destruct (IH (processRecord cropAndSave imageFile fname r index bbox)
                 (S index))
      as (P2 & (e2 & A2 & F2 & S2 & B2) & M2 & M2').
    repeat apply conj; try lia; [congruence |].
    exists (e1 ++ e2)%list. repeat apply conj.
    + rewrite A2, A1. now rewrite app_assoc.
    + now apply Forall_app.
    + rewrite length_app. lia.
    + rewrite length_app. lia.
Qed.

(** What one group adds to the report. *)
Lemma processGroup_trace imageMap total (r : Report) processed group :
  let out := processGroup loadImageToCanvas cropAndSave imageMap total
                          (r, processed) group in
  snd out = S processed
  /\ map fst (progress (fst out))
     = (map fst (progress r) ++ [(processed + 1, total)])%list
  /\ (exists extra,
         attempts (fst out) = (attempts r ++ extra)%list
         /\ Forall (fun a =>
                      exists file,
                        obj_lookup imageMap (fst a) = Some file
                        /\ loadImageToCanvas file = true) extra
         /\ saved (fst out) <= saved r + List.length extra
         /\ saved r + failed r + List.length extra
            <= saved (fst out) + failed (fst out))
  /\ saved r <= saved (fst out) /\ failed r <= failed (fst out).
Proof.
  destruct group as [fname bboxes]. unfold processGroup.
  destruct (obj_lookup imageMap fname) as [imageFile |] eqn:L.
  - destruct (loadImageToCanvas imageFile) eqn:Hload; cbn [fst snd].
    + set (r1 := report r (processed + 1) total ("Processing " ++ fname)).
      destruct (processRecords_trace imageFile fname bboxes r1 0)
        as (P & (extra & A & F & S & B) & M & M').
      repeat apply conj; auto.
      * rewrite P. unfold r1, report. cbn [progress]. now rewrite map_app.
      * exists extra. repeat apply conj; auto; try (cbn in *; lia).
        eapply Forall_impl; [| exact F].
        intros a Ha. exists imageFile. rewrite Ha. auto.
    + cbn. repeat apply conj; auto; try lia.
      * now rewrite map_app.
      * exists []. rewrite app_nil_r. repeat apply conj; auto; cbn; lia.
  - cbn. repeat apply conj; auto.
    + now rewrite map_app.
    + exists []. rewrite app_nil_r. repeat apply conj; auto; cbn; lia.
Qed.

Lemma processGroups_trace imageMap total groups :
  forall (r : Report) processed,
    let out := fold_left (processGroup loadImageToCanvas cropAndSave
                                       imageMap total)
                         groups (r, processed) in
    map fst (progress (fst out))
    = (map fst (progress r)
         ++ map (fun i => (processed + 1 + i, total))
                (seq 0 (List.length groups)))%list
    /\ (exists extra,
           attempts (fst out) = (attempts r ++ extra)%list
           /\ Forall (fun a =>
                        exists file,
                          obj_lookup imageMap (fst a) = Some file
                          /\ loadImageToCanvas file = true) extra
           /\ saved (fst out) <= saved r + List.length extra
           /\ saved r + failed r + List.length extra
              <= saved (fst out) + failed (fst out)).
Proof.
  induction groups as [| group rest IH]; intros r processed.
  - cbn. rewrite app_nil_r. split; auto.
    exists []. rewrite app_nil_r. repeat apply conj; auto; cbn; lia.
  - cbn [fold_left]. cbv zeta.
    destruct (processGroup_trace imageMap total r processed group)
      as (Hs & Hp & (e1 & A1 & F1 & B1 & S1) & M1 & M1').
    destruct (processGroup loadImageToCanvas cropAndSave imageMap total
                           (r, processed) group) as [r1 p1].
    cbn [fst snd] in *. subst p1.
    destruct (IH r1 (S processed)) as (Hp2 & (e2 & A2 & F2 & B2 & S2)).
    split.
    + rewrite Hp2, Hp. rewrite <- app_assoc. f_equal.
      cbn [List.length seq map List.app]. f_equal; [f_equal; lia |].
      rewrite <- seq_shift, map_map. apply map_ext. intros i. f_equal. lia.
    + exists (e1 ++ e2)%list. repeat apply conj.
      * rewrite A2, A1. now rewrite app_assoc.
      * now apply Forall_app.
      * rewrite length_app. lia.
      * rewrite length_app. lia.
Qed.

Lemma imageMapOf_files (imageFiles : list ImageFile) :
  forall (m : JsObject ImageFile) fname file,
    obj_lookup (fold_left (fun m file => obj_set m (file_name file) file)
                          imageFiles m) fname = Some file ->
    obj_lookup m fname = Some file
    \/ (In file imageFiles /\ file_name file = fname).
Proof.
  induction imageFiles as [| f rest IH]; intros m fname file H.
  - now left.
  - cbn [fold_left] in H. destruct (IH _ _ _ H) as [H1 | [H1 H2]].
    + destruct (String.eqb_spec (file_name f) fname) as [E | E].
      * rewrite <- E, obj_lookup_set_same in H1. injection H1 as <-.
        right. split; [now left | exact E].
      * rewrite obj_lookup_set_other in H1 by exact E. now left.
    + right. split; [now right | exact H2].
Qed.



(** X28.  A crop is attempted only for a record whose image was provided
    and could be loaded: every attempt names a file among the image files
    given, found under the record's image name, that loadImageToCanvas
    accepted.  With no image files nothing is attempted. *)
Theorem crops_only_from_loaded_images :
  forall (csvData : list (JsObject JsValue)) (imageFiles : list ImageFile)
         (fname : string) (index : nat),
    forallb plainlyKeyed csvData = true ->
    In (fname, index)
       (attempts (cropAndSaveImagesStreaming loadImageToCanvas cropAndSave
                    csvData imageFiles)) ->
    exists file,
      In file imageFiles /\ file_name file = fname
      /\ loadImageToCanvas file = true.
Proof.
  intros csvData imageFiles fname index _ Hin.
  unfold cropAndSaveImagesStreaming in Hin.
  destruct (processGroups_trace (imageMapOf imageFiles)
              (List.length (Object_keys (groupRows csvData)))
              (Object_entries (groupRows csvData))
              {| saved := 0; failed := 0; skipped := 0;
                 progress := []; attempts := [] |} 0)
    as [_ (extra & A & F & _)].
  rewrite A in Hin. cbn [attempts List.app] in Hin.
  destruct (proj1 (Forall_forall _ _) F _ Hin) as (file & L & Hload).
  cbn [fst] in L. exists file.
  destruct (imageMapOf_files imageFiles [] fname file L) as [H | [H1 H2]];
    [discriminate | auto].
Qed.

(** X29.  The counters agree with the attempts: no more crops are saved
    than were attempted, and every attempt is counted as saved or as
    failed (failed also counts the records of images that did not
    load). *)
Theorem saved_and_failed_cover_attempts :
  forall (csvData : list (JsObject JsValue)) (imageFiles : list ImageFile),
    forallb plainlyKeyed csvData = true ->
    let rep := cropAndSaveImagesStreaming loadImageToCanvas cropAndSave
                 csvData imageFiles in
    saved rep <= List.length (attempts rep)
    /\ List.length (attempts rep) <= saved rep + failed rep.
Proof.
  intros csvData imageFiles _. cbv zeta. unfold cropAndSaveImagesStreaming.
  destruct (processGroups_trace (imageMapOf imageFiles)
              (List.length (Object_keys (groupRows csvData)))
              (Object_entries (groupRows csvData))
              {| saved := 0; failed := 0; skipped := 0;
                 progress := []; attempts := [] |} 0)
    as [_ (extra & A & _ & B & S)].
  rewrite A. cbn [attempts saved failed List.app] in *. lia.
Qed.

End CroppingRun.


Lemma crops_only_from_loaded_images_witness :
  exists file,
    In file Samples.sampleFiles /\ file_name file = "a.jpg"
    /\ Samples.alwaysLoads file = true.
Proof.
  apply (crops_only_from_loaded_images Samples.alwaysLoads Samples.alwaysSaves
           MoreSamples.cropRows Samples.sampleFiles "a.jpg" 0 eq_refl).
  vm_compute. left. reflexivity.
Defined.

Lemma saved_and_failed_cover_attempts_witness :
  let rep := cropAndSaveImagesStreaming Samples.alwaysLoads Samples.alwaysSaves
               MoreSamples.cropRows Samples.sampleFiles in
  saved rep <= List.length (attempts rep)
  /\ List.length (attempts rep) <= saved rep + failed rep.
Proof.
  exact (saved_and_failed_cover_attempts Samples.alwaysLoads
           Samples.alwaysSaves MoreSamples.cropRows Samples.sampleFiles
           eq_refl).
Defined.

(** ** From the batch worker to the CSV file *)

Section DetectionPipeline.
Context {N : JsNumber}.
Variable infer : ImageData -> Inference.
Variable typeErrorMessage : JsValue.
Variable JSON_stringify : nat -> JsValue -> string.

Lemma flatBoxes_rows (labels : JsValue) (boxes : list JsValue)
      (image : JsValue) :
  forallb readable boxes = true ->
  forall remaining j,
    j + remaining <= List.length boxes ->
    exists output,
      flatBoxes labels (JArr boxes) image j remaining = Some output
      /\ List.length output = remaining
      /\ Forall (fun v => exists label xmin ymin xmax ymax,
                     v = JObj [("label", label); ("xmin", xmin);
                               ("ymin", ymin); ("xmax", xmax);
                               ("ymax", ymax); ("image", image)]) output.
Proof.
  intros Hr. induction remaining as [| rem IH]; intros j Hlen.
  - exists []. repeat apply conj; auto.
  - cbn [flatBoxes js_index].
    assert (Hb : readable (nth j boxes JUndefined) = true).
    { apply (proj1 (forallb_forall _ _) Hr). apply nth_In. lia. }
    destruct (IH (S j) ltac:(lia)) as (output & E & L & F).
    rewrite E.
    destruct (nth j boxes JUndefined) eqn:Eb; try discriminate;
      cbn [flatBox option_map]; eexists; (repeat apply conj);
      try reflexivity; cbn [List.length]; try (now rewrite L);
      (constructor; [do 5 eexists; reflexivity | exact F]).
Qed.

Lemma arrayRows_of_boxes (image : JsValue) (output : list JsValue) :
  Forall (fun v => exists label xmin ymin xmax ymax,
              v = JObj [("label", label); ("xmin", xmin);
                        ("ymin", ymin); ("xmax", xmax);
                        ("ymax", ymax); ("image", image)]) output ->
  forall rowId,
    fst (arrayRows output rowId) = rowId + List.length output
    /\ List.length (snd (arrayRows output rowId)) = List.length output
    /\ Forall (fun row =>
                 Object_keys row
                 = ["id"; "label"; "xmin"; "ymin"; "xmax"; "ymax"; "image"]
                 /\ obj_get row "image" = image
                 /\ RegionExtractor.isAxis row = true)
              (snd (arrayRows output rowId)).
Proof.
  induction 1 as [| v rest Hv Hrest IH]; intros rowId.
  - cbn. repeat apply conj; auto.
  - cbn [arrayRows]. destruct (IH (S rowId)) as (I1 & I2 & I3).
    destruct (arrayRows rest (S rowId)) as [rowId' more].
    cbn [fst snd List.length] in *. repeat apply conj; try lia.
    constructor; [| exact I3].
    destruct Hv as (label & xmin & ymin & xmax & ymax & ->).
    repeat apply conj; reflexivity.
Qed.

(** X30.  What the batch worker sends for a detection result fits what
    the cropping side reads: for an image whose task result holds boxes,
    all present, the Flattened-CSV sink gets one row per box (not per
    label), the counter advances by the number of boxes, and every row has
    the columns id, label, xmin, ymin, xmax, ymax, image in this order,
    with the image's name in the image column. *)
Theorem batch_detection_rows_have_crop_columns :
  forall (task : string) (imageData : ImageData) (rowId : nat)
         (res elapsed : JsValue) (props : list (string * JsValue))
         (boxes : list JsValue),
    infer imageData = Inferred res elapsed ->
    js_prop res task = Got (JObj props) ->
    obj_get props "bboxes" = JArr boxes ->
    forallb readable boxes = true ->
    exists rows,
      flatten JSON_stringify rowId
              (forwardedItem infer typeErrorMessage task imageData)
      = (rowId + List.length boxes, Some rows)
      /\ List.length rows = List.length boxes
      /\ Forall (fun row =>
                   Object_keys row
                   = ["id"; "label"; "xmin"; "ymin"; "xmax"; "ymax"; "image"]
                   /\ obj_get row "image" = name imageData
                   /\ RegionExtractor.isAxis row = true) rows.
Proof.
  intros task imageData rowId res elapsed props boxes Hi Ht Hb Hr.
  assert (Hp : propOf (JObj props) "bboxes" = JArr boxes) by exact Hb.
  unfold forwardedItem, processImage. rewrite Hi, Ht, !Hp.
  cbn [truthy andb lengthOf].
  destruct (flatBoxes_rows (propOf (JObj props) "labels") boxes
              (name imageData) Hr (List.length boxes) 0 (le_n _))
    as (output & E & L & F).
  rewrite E. cbn [fst itemOfMessage].
  unfold flatten. cbn [result propOf js_prop truthy andb].
  destruct (arrayRows_of_boxes (name imageData) output F rowId)
    as (A1 & A2 & A3).
  destruct (arrayRows output rowId) as [rowId' rows].
  cbn [fst snd] in *. exists rows. rewrite A1, L.
  repeat apply conj; auto. congruence.
Qed.

End DetectionPipeline.

Lemma batch_detection_rows_have_crop_columns_witness :
  exists rows,
    flatten Samples.sampleStringify 0
            (forwardedItem Samples.sampleInfer (JStr "TypeError") "<OD>"
                           {| name := JStr "a.jpg"; url := JStr "blob:a" |})
    = (1, Some rows)
    /\ List.length rows = 1
    /\ Forall (fun row =>
                 Object_keys row
                 = ["id"; "label"; "xmin"; "ymin"; "xmax"; "ymax"; "image"]
                 /\ obj_get row "image" = JStr "a.jpg"
                 /\ RegionExtractor.isAxis row = true) rows.
Proof.
  exact (batch_detection_rows_have_crop_columns Samples.sampleInfer
           (JStr "TypeError") Samples.sampleStringify "<OD>"
           {| name := JStr "a.jpg"; url := JStr "blob:a" |} 0
           (JObj [("<OD>", JObj [("bboxes", JArr [JArr [Samples.int 1;
                                                        Samples.int 2;
                                                        Samples.int 3;
                                                        Samples.int 4]]);
                                 ("labels", JArr [JStr "cat"])])])
           (Samples.int 7)
           [("bboxes", JArr [JArr [Samples.int 1; Samples.int 2;
                                   Samples.int 3; Samples.int 4]]);
            ("labels", JArr [JStr "cat"])]
           [JArr [Samples.int 1; Samples.int 2; Samples.int 3; Samples.int 4]]
           eq_refl eq_refl eq_refl eq_refl).
Defined.
